(** * dashboard_parker: the numeric core of the statistics dashboard

    A shallow embedding of [utils/congruenciales.py], [utils/estadisticos.py]
    and [utils/validaciones.py] and of the number API of [app.py], together
    with the properties that the specification of the repository states
    about them (Part III) and further properties of the code (Part IV).

    Python integers are [Z]; Python floats are IEEE-754 binary64 values,
    taken from the standard library's [spec_float] with its correctly
    rounded operations; a function that can raise returns a [resultado]. *)

From Stdlib Require Import ZArith List Bool Lia SpecFloat Ascii.
From stdpp Require Import base option list strings gmap pretty.

Local Open Scope string_scope.
Local Open Scope list_scope.
Local Open Scope Z_scope.

(** * Part I: the embedding of the source *)

(** ** Exceptions *)

Module Py.

Inductive excepcion : Type :=
  | ZeroDivisionError
  | OverflowError
  | ValueError
  | TypeError
  | IndexError
  | ImportError.

Inductive resultado (A : Type) : Type :=
  | Ok (a : A)
  | Lanza (e : excepcion).

Arguments Ok {A} a.
Arguments Lanza {A} e.

Definition ligar {A B : Type} (r : resultado A) (k : A -> resultado B)
  : resultado B :=
  match r with
  | Ok a => k a
  | Lanza e => Lanza e
  end.

(** [try: cuerpo / except exc: manejador]. *)
Definition intentar {A : Type} (cuerpo : resultado A) (exc : excepcion)
  (manejador : resultado A) : resultado A :=
  match cuerpo with
  | Ok a => Ok a
  | Lanza e =>
      match e, exc with
      | ImportError, ImportError => manejador
      | ZeroDivisionError, ZeroDivisionError => manejador
      | OverflowError, OverflowError => manejador
      | ValueError, ValueError => manejador
      | TypeError, TypeError => manejador
      | IndexError, IndexError => manejador
      | _, _ => Lanza e
      end
  end.

Definition retorna {A : Type} (r : resultado A) : Prop :=
  exists a, r = Ok a.

(** [for _ in range(n): st = cuerpo(st)]; [range(n)] is empty for [n <= 0]. *)
Fixpoint repetir {S : Type} (k : nat) (cuerpo : S -> resultado S) (st : S)
  : resultado S :=
  match k with
  | O => Ok st
  | Datatypes.S k' => ligar (cuerpo st) (repetir k' cuerpo)
  end.

Definition for_range {S : Type} (n : Z) (cuerpo : S -> resultado S) (st : S)
  : resultado S :=
  repetir (Z.to_nat n) cuerpo st.

End Py.

Export Py.

#[global] Instance resultado_ret : MRet resultado := @Ok.
#[global] Instance resultado_bind : MBind resultado :=
  fun A B k r => ligar r k.

(** ** Binary64 floats *)

Module F64.

Definition float : Type := spec_float.

Definition prec : Z := 53.
Definition emax : Z := 1024.

Definition add : float -> float -> float := SFadd prec emax.
Definition sub : float -> float -> float := SFsub prec emax.
Definition mul : float -> float -> float := SFmul prec emax.
Definition div : float -> float -> float := SFdiv prec emax.
Definition sqrt : float -> float := SFsqrt prec emax.
Definition ltb : float -> float -> bool := SFltb.
Definition leb : float -> float -> bool := SFleb.
Definition eqb : float -> float -> bool := SFeqb.
Definition gtb (x y : float) : bool := SFltb y x.

(** The float nearest to [m * 2^e]: how a decimal literal with an exact
    binary expansion, or an integer, is read. *)
Definition lit (m e : Z) : float := binary_normalize prec emax m e false.
Definition of_Z (z : Z) : float := lit z 0.

Definition cero : float := S754_zero false.

Definition es_finito (x : float) : bool :=
  match x with
  | S754_zero _ | S754_finite _ _ _ => true
  | _ => false
  end.

Definition es_nan (x : float) : bool :=
  match x with S754_nan => true | _ => false end.

(** The quotient [x / y] of two integers, [y <> 0], rounded once to the
    nearest float, ties to even: what [int.__truediv__] computes, also for
    operands beyond 2^53. *)
Definition cociente (x y : Z) : float :=
  let sx := x <? 0 in
  let sy := y <? 0 in
  let '(mz, ez, lz) := SFdiv_core_binary prec emax (Z.abs x) 0 (Z.abs y) 0 in
  binary_round_aux prec emax (xorb sx sy) mz ez lz.

(** [floor x] of a finite float, as an integer. *)
Definition piso (x : float) : Z :=
  match x with
  | S754_finite s m e =>
      let z := if s then Z.neg m else Z.pos m in
      if 0 <=? e then z * 2 ^ e else Z.shiftr z (- e)
  | _ => 0
  end.

(** The float a decimal literal [d * 10^-k] denotes: the literal is read
    with one rounding, as the quotient is. *)
Definition decimal (d : Z) (k : nat) : float := cociente d (10 ^ Z.of_nat k).

Definition uno : float := of_Z 1.

(** [0 <= q < 1]. *)
Definition en_unidad (q : float) : bool := leb cero q && ltb q uno.

End F64.

Abbreviation float := F64.float.

(** ** Integer operators *)

(** [x % m]: floored remainder, the sign of the divisor. *)
Definition py_mod (x m : Z) : resultado Z :=
  if m =? 0 then Lanza ZeroDivisionError else Ok (x mod m).

(** [x / m] on integers. *)
Definition py_truediv (x m : Z) : resultado float :=
  if m =? 0 then Lanza ZeroDivisionError
  else
    let q := F64.cociente x m in
    if F64.es_finito q then Ok q else Lanza OverflowError.

(** ** utils/congruenciales.py: the generators *)

(** The loop state is [(x, numeros)]. *)
Definition paso_lineal (a c m : Z) (st : Z * list float)
  : resultado (Z * list float) :=
  let '(x, numeros) := st in
  x' ← py_mod (a * x + c) m;
  q ← py_truediv x' m;
  Ok (x', numeros ++ [q]).

Definition congruencial_lineal (semilla a c m n : Z) : resultado (list float) :=
  st ← for_range n (paso_lineal a c m) (semilla, []);
  Ok (snd st).

Definition paso_multiplicativo (a m : Z) (st : Z * list float)
  : resultado (Z * list float) :=
  let '(x, numeros) := st in
  x' ← py_mod (a * x) m;
  q ← py_truediv x' m;
  Ok (x', numeros ++ [q]).

Definition congruencial_multiplicativo (semilla a m n : Z)
  : resultado (list float) :=
  st ← for_range n (paso_multiplicativo a m) (semilla, []);
  Ok (snd st).

Definition paso_cuadratico (a b c m : Z) (st : Z * list float)
  : resultado (Z * list float) :=
  let '(x, numeros) := st in
  x' ← py_mod (a * x ^ 2 + b * x + c) m;
  q ← py_truediv x' m;
  Ok (x', numeros ++ [q]).

Definition congruencial_cuadratico (semilla a b c m n : Z)
  : resultado (list float) :=
  st ← for_range n (paso_cuadratico a b c m) (semilla, []);
  Ok (snd st).

Definition mixed_congruential (semilla a c m n : Z) : resultado (list float) :=
  congruencial_lineal semilla a c m n.

Definition lehmer_generator (semilla a m n : Z) : resultado (list float) :=
  congruencial_multiplicativo semilla a m n.

(** ** utils/validaciones.py *)

(** [errores.append(msg)], and the same under a condition. *)
Definition anexar (msg : string) (errores : list string) : list string :=
  (errores ++ [msg])%list.

Definition anexar_si (cond : bool) (msg : string) (errores : list string)
  : list string :=
  if cond then anexar msg errores else errores.

(** [v is None or cond(v)]. *)
Definition none_o (v : option Z) (cond : Z -> bool) : bool :=
  match v with
  | None => true
  | Some z => cond z
  end.

(** Truth value of [None] or an integer. *)
Definition verdadero (v : option Z) : bool :=
  match v with
  | None => false
  | Some z => negb (z =? 0)
  end.

(** [m and semilla and m <= semilla]. *)
Definition modulo_no_supera (m semilla : option Z) : bool :=
  verdadero m && verdadero semilla &&
  match m, semilla with
  | Some mv, Some sv => mv <=? sv
  | _, _ => false
  end.

(** The parameters are a dictionary from names to integers; a missing key
    reads as [None]. *)
Definition validar_parametros_congruencial
  (tipo : string) (parametros : gmap string Z) : bool * list string :=
  let errores := [] in
  let semilla := parametros !! "semilla" in
  let errores :=
    anexar_si (none_o semilla (fun s => s <=? 0))
      "La semilla debe ser un número positivo" errores in
  let n := default (default 1 (parametros !! "n")) (parametros !! "cantidad") in
  let errores :=
    anexar_si ((n <? 10) || (n >? 100000))
      "La cantidad de números debe estar entre 10 y 100,000" errores in
  let m := parametros !! "m" in
  let errores :=
    anexar_si (none_o m (fun m => m <=? 0))
      "El módulo m debe ser un número positivo" errores in
  let errores :=
    if String.eqb tipo "lineal" then
      let a := parametros !! "a" in
      let c := parametros !! "c" in
      let errores :=
        match a with
        | None => anexar "El multiplicador 'a' es requerido" errores
        | Some a =>
            anexar_si (a <=? 0) "El multiplicador 'a' debe ser positivo" errores
        end in
      let errores :=
        match c with
        | None => anexar "El incremento 'c' es requerido" errores
        | Some c =>
            anexar_si (c <? 0) "El incremento 'c' debe ser no negativo" errores
        end in
      anexar_si (modulo_no_supera m semilla)
        "El módulo m debe ser mayor que la semilla" errores
    else if String.eqb tipo "multiplicativo" then
      let a := parametros !! "a" in
      let errores :=
        match a with
        | None => anexar "El multiplicador 'a' es requerido" errores
        | Some a =>
            anexar_si (a <=? 0) "El multiplicador 'a' debe ser positivo" errores
        end in
      anexar_si (modulo_no_supera m semilla)
        "El módulo m debe ser mayor que la semilla" errores
    else if String.eqb tipo "cuadratico" then
      let a := parametros !! "a" in
      let b := parametros !! "b" in
      let c_const := parametros !! "c_const" in
      let errores :=
        anexar_si (none_o a (fun a => a =? 0))
          "El coeficiente cuadrático 'a' es requerido y no puede ser cero"
          errores in
      let errores :=
        anexar_si (none_o b (fun _ => false))
          "El coeficiente lineal 'b' es requerido" errores in
      anexar_si (none_o c_const (fun _ => false))
        "El término constante 'c' es requerido" errores
    else
      anexar ("Tipo de generador no válido: " +:+ tipo) errores in
  (Nat.eqb (length errores) 0, errores).

(** *** Tabular data

    A [DataFrame] as the validator sees it: a number of rows and named
    columns, each with a dtype that is numeric or not and one cell per
    row, which may be null. *)

Inductive celda : Type :=
  | Nulo
  | Numero (x : float)
  | Texto (s : string).

Record columna : Type := Columna {
  nombre : string;
  numerica : bool;
  celdas : list celda
}.

Record DataFrame : Type := Marco {
  filas : nat;
  columnas : list columna
}.

(** [isnull]: a missing cell, or a [NaN] number. *)
Definition es_nulo (c : celda) : bool :=
  match c with
  | Nulo => true
  | Numero x => F64.es_nan x
  | Texto _ => false
  end.

(** [df.empty]: some axis has length zero. *)
Definition df_empty (df : DataFrame) : bool :=
  Nat.eqb (filas df) 0 || Nat.eqb (length (columnas df)) 0.

(** [df.select_dtypes(include=[np.number])]. *)
Definition select_dtypes_number (df : DataFrame) : DataFrame :=
  Marco (filas df) (filter (fun c => numerica c = true) (columnas df)).

(** [df.isnull().any()], column by column. *)
Definition tiene_nulos (c : columna) : bool := existsb es_nulo (celdas c).

Definition en_columnas (col : string) (df : DataFrame) : bool :=
  existsb (fun c => String.eqb (nombre c) col) (columnas df).

(** [columnas_requeridas] defaults to [None], which the test
    [if columnas_requeridas:] treats as the empty list. *)
Definition validar_dataframe (df : DataFrame) (columnas_requeridas : list string)
  : bool * list string :=
  let errores := [] in
  if df_empty df then
    (false, anexar "El DataFrame está vacío" errores)
  else
    let errores :=
      fold_left
        (fun errores col =>
           anexar_si (negb (en_columnas col df))
             ("Columna requerida no encontrada: " +:+ col) errores)
        columnas_requeridas errores in
    let errores :=
      anexar_si (df_empty (select_dtypes_number df))
        "No se encontraron columnas numéricas en el archivo" errores in
    let errores :=
      if existsb tiene_nulos (columnas df) then
        let columnas_nulas :=
          map nombre (filter (fun c => tiene_nulos c = true) (columnas df)) in
        anexar ("Se encontraron valores nulos en las columnas: "
                  +:+ String.concat ", " columnas_nulas) errores
      else errores in
    (Nat.eqb (length errores) 0, errores).

(** ** numpy, as far as the repository uses it

    Arrays are lists of floats. Every operation is the one of numpy 2,
    in binary64 arithmetic. *)

(** [int(x)]: truncation toward zero. *)
Definition truncar (x : float) : Z :=
  match x with
  | S754_finite true m e => - F64.piso (S754_finite false m e)
  | _ => F64.piso x
  end.

(** The pairs [(edges[i], edges[i+1])] for [i] in [range(len(edges) - 1)]. *)
Fixpoint adyacentes (edges : list float) : list (float * float) :=
  match edges with
  | x :: ((y :: _) as resto) => (x, y) :: adyacentes resto
  | _ => []
  end.

Module Np.

Definition nan : float := S754_nan.
Definition of_nat (n : nat) : float := F64.of_Z (Z.of_nat n).

Definition menos_cero : float := S754_zero true.

(** The eight partial sums of a block of at most 128 elements: [k] more
    groups of eight are added to them, element by element. *)
Fixpoint sumar_bloques (k : nat) (r a : list float)
  : list float * list float :=
  match k with
  | O => (r, a)
  | S k' => sumar_bloques k' (zip_with F64.add r (firstn 8 a)) (skipn 8 a)
  end.

(** [((r0 + r1) + (r2 + r3)) + ((r4 + r5) + (r6 + r7))]. *)
Definition unir_ocho (r : list float) : float :=
  let r i := nth i r F64.cero in
  F64.add (F64.add (F64.add (r 0%nat) (r 1%nat)) (F64.add (r 2%nat) (r 3%nat)))
          (F64.add (F64.add (r 4%nat) (r 5%nat)) (F64.add (r 6%nat) (r 7%nat))).

(** The pairwise sum of the reduction of [np.add]. Fewer than 8 elements
    are added one after the other, from -0.0. Up to 128 elements go to
    eight partial sums, element [i] to the sum [i mod 8]; the partial
    sums are joined two by two, and the [n mod 8] elements left over are
    added last. A longer array is cut in two, the first part of a length
    that is a multiple of 8, and the sums of the two parts are added.
    The recursion halves the array: [combustible], the length of the
    array, is never used up. *)
Fixpoint pairwise_sum (combustible : nat) (a : list float) : float :=
  let n := length a in
  if (n <? 8)%nat then fold_left F64.add a menos_cero
  else if (n <=? 128)%nat then
    let '(r, resto) := sumar_bloques (n / 8 - 1) (firstn 8 a) (skipn 8 a) in
    fold_left F64.add resto (unir_ocho r)
  else
    match combustible with
    | O => nan
    | S combustible' =>
        let n2 := (n / 2)%nat in
        let n2 := (n2 - n2 mod 8)%nat in
        F64.add (pairwise_sum combustible' (firstn n2 a))
                (pairwise_sum combustible' (skipn n2 a))
    end.

(** [np.sum]: the reduction starts from the identity 0.0. *)
Definition sum (a : list float) : float :=
  F64.add F64.cero (pairwise_sum (length a) a).

(** [np.mean]: [nan] on an empty array. *)
Definition mean (a : list float) : float :=
  F64.div (sum a) (of_nat (length a)).

(** [np.var], the population variance: the mean of the squared
    deviations from the mean. *)
Definition var (a : list float) : float :=
  let media := mean a in
  mean (map (fun x => let d := F64.sub x media in F64.mul d d) a).

(** [np.std]. *)
Definition std (a : list float) : float := F64.sqrt (var a).

Definition minimum (x y : float) : float :=
  if F64.es_nan x then x else if F64.es_nan y then y
  else if F64.ltb y x then y else x.

Definition maximum (x y : float) : float :=
  if F64.es_nan x then x else if F64.es_nan y then y
  else if F64.ltb x y then y else x.

(** [np.min] and [np.max] raise [ValueError] on an empty array. *)
Definition min (a : list float) : resultado float :=
  match a with
  | [] => Lanza ValueError
  | x :: xs => Ok (fold_left minimum xs x)
  end.

Definition max (a : list float) : resultado float :=
  match a with
  | [] => Lanza ValueError
  | x :: xs => Ok (fold_left maximum xs x)
  end.

(** [np.sort] on an array without [nan]. *)
Fixpoint insertar (x : float) (l : list float) : list float :=
  match l with
  | [] => [x]
  | y :: l' => if F64.leb x y then x :: l else y :: insertar x l'
  end.

Definition sort (a : list float) : list float := foldr insertar [] a.

(** [np.median]: [nan] when the array is empty or holds a [nan];
    otherwise the mean of the middle element, or of the two middle
    elements, of the sorted array. *)
Definition median (a : list float) : float :=
  if existsb F64.es_nan a then nan
  else
    let s := sort a in
    let n := length a in
    let i := Nat.div n 2 in
    if Nat.even n then mean (firstn 2 (skipn (i - 1) s))
    else mean (firstn 1 (skipn i s)).

(** [np.percentile(a, q)] with the default linear method: the virtual
    index [(n - 1) * q / 100] is split into its floor and the fraction
    [gamma], and the two neighbours are interpolated. An empty array has
    no last element to inspect: [IndexError]. *)
Definition lerp (x y t : float) : float :=
  let d := F64.sub y x in
  if F64.leb (F64.lit 1 (-1)) t
  then F64.sub y (F64.mul d (F64.sub F64.uno t))
  else F64.add x (F64.mul d t).

(** [s[i]], a negative [i] counting from the end. *)
Definition indice (s : list float) (i : Z) : float :=
  nth (Z.to_nat (if i <? 0 then Z.of_nat (length s) + i else i)) s nan.

Definition percentile (a : list float) (q : Z) : resultado float :=
  match a with
  | [] => Lanza IndexError
  | _ =>
      if existsb F64.es_nan a then Ok nan
      else
        let s := sort a in
        let n := Z.of_nat (length a) in
        let cuantil := F64.div (F64.of_Z q) (F64.of_Z 100) in
        let virtual := F64.mul (F64.of_Z (n - 1)) cuantil in
        let '(previo, siguiente) :=
          if F64.leb (F64.of_Z (n - 1)) virtual then (-1, -1)
          else if F64.ltb virtual F64.cero then (0, 0)
          else (F64.piso virtual, F64.piso virtual + 1) in
        let gamma := F64.sub virtual (F64.of_Z previo) in
        Ok (lerp (indice s previo) (indice s siguiente) gamma)
  end.

(** [np.linspace(start, stop, num)] with [num >= 2], end point included. *)
Definition linspace (start stop : float) (num : nat) : list float :=
  let div := of_nat (num - 1) in
  let delta := F64.sub stop start in
  let step := F64.div delta div in
  let y :=
    map (fun i =>
           let yi := of_nat i in
           let yi := if F64.eqb step F64.cero
                     then F64.mul (F64.div yi div) delta
                     else F64.mul yi step in
           F64.add yi start)
        (seq 0 (num - 1)) in
  (y ++ [stop])%list.

(** The outer edges of the histogram: [ValueError] when the range of the
    data is not finite; a degenerate range is widened by one half on each
    side; an empty array gets [(0, 1)]. *)
Definition outer_edges (a : list float) : resultado (float * float) :=
  match a with
  | [] => Ok (F64.cero, F64.uno)
  | _ =>
      first_edge ← min a;
      last_edge ← max a;
      if negb (F64.es_finito first_edge && F64.es_finito last_edge)
      then Lanza ValueError
      else if F64.eqb first_edge last_edge
      then Ok (F64.sub first_edge (F64.lit 1 (-1)),
               F64.add last_edge (F64.lit 1 (-1)))
      else Ok (first_edge, last_edge)
  end.

(** [x.astype(np.intp)]: truncation toward zero. C leaves the conversion
    of a NaN, of an infinity and of a value beyond 64 bits undefined; the
    instruction of x86-64 gives -2^63 for them. *)
Definition a_intp (x : float) : Z :=
  let z := truncar x in
  if F64.es_finito x && (- 2 ^ 63 <=? z) && (z <? 2 ^ 63) then z
  else - 2 ^ 63.

(** [a[i]] on an array: a negative index counts from the end;
    [IndexError] out of bounds. *)
Definition elemento (a : list float) (i : Z) : resultado float :=
  let n := Z.of_nat (length a) in
  if (- n <=? i) && (i <? n) then Ok (indice a i) else Lanza IndexError.

(** [n += np.bincount(indices, minlength=bins)] on the [bins] zeros of
    the histogram: [ValueError] for a negative index, and for an index
    beyond the last bin, which makes the count longer than [n]. *)
Definition bincount (indices : list Z) (bins : Z) : resultado (list Z) :=
  if existsb (fun i => i <? 0) indices then Lanza ValueError
  else if existsb (fun i => bins <=? i) indices then Lanza ValueError
  else
    Ok (map (fun j => Z.of_nat (length (List.filter (Z.eqb j) indices)))
          (seqZ 0 bins)).

(** The bin of each value, as the uniform-bin path computes it: the
    index from the position of the value in the range, then one step
    down or up when the edges say so. Each step is taken for the whole
    array before the next. *)
Definition indices_iniciales (tmp_a : list float) (first_edge : float)
  (norm_denom : float) (bins : Z) : list Z :=
  map (fun x =>
         let f_index :=
           F64.mul (F64.div (F64.sub x first_edge) norm_denom)
             (F64.of_Z bins) in
         let i := a_intp f_index in
         if i =? bins then i - 1 else i)
    tmp_a.

Definition decrementar (bin_edges : list float) (xi : float * Z)
  : resultado Z :=
  let '(x, i) := xi in
  e ← elemento bin_edges i;
  Ok (if F64.ltb x e then i - 1 else i).

Definition incrementar (bin_edges : list float) (bins : Z) (xi : float * Z)
  : resultado Z :=
  let '(x, i) := xi in
  e ← elemento bin_edges (i + 1);
  Ok (if F64.leb e x && negb (i =? bins - 1) then i + 1 else i).

(** [np.histogram(a, bins=bins)] with an integer number of bins:
    [ValueError] when [bins < 1], when the range of the data is not
    finite and when an edge is not below the next one; the values in the
    range are then counted by their bin indices. *)
Definition histogram (a : list float) (bins : Z)
  : resultado (list Z * list float) :=
  if bins <? 1 then Lanza ValueError
  else
    '(first_edge, last_edge) ← outer_edges a;
    let bin_edges := linspace first_edge last_edge (Z.to_nat bins + 1) in
    if existsb (fun '(x, y) => F64.leb y x) (adyacentes bin_edges)
    then Lanza ValueError
    else
      let norm_denom := F64.sub last_edge first_edge in
      let tmp_a :=
        List.filter (fun x => F64.leb first_edge x && F64.leb x last_edge) a in
      let indices := indices_iniciales tmp_a first_edge norm_denom bins in
      indices ← mapM (decrementar bin_edges) (zip tmp_a indices);
      indices ← mapM (incrementar bin_edges bins) (zip tmp_a indices);
      n ← bincount indices bins;
      Ok (n, bin_edges).

End Np.

(** ** Reports

    The functions return dictionaries from names to numbers, booleans,
    strings or lists. *)

Inductive valor : Type :=
  | VFloat (x : float)
  | VInt (z : Z)
  | VBool (b : bool)
  | VStr (s : string)
  | VFloats (l : list float)
  | VInts (l : list Z)
  | VStrs (l : list string).

Abbreviation reporte := (list (string * valor)).

(** [d.get(k)]. *)
Fixpoint dict_get (d : reporte) (k : string) : option valor :=
  match d with
  | [] => None
  | (k', v) :: d' => if String.eqb k' k then Some v else dict_get d' k
  end.

(** ** utils/congruenciales.py: [calcular_estadisticos_basicos] *)

Definition calcular_estadisticos_basicos (numeros : list float)
  : resultado reporte :=
  match numeros with
  | [] => Ok []
  | _ =>
      let array_np := numeros in
      minimo ← Np.min array_np;
      maximo ← Np.max array_np;
      q1 ← Np.percentile array_np 25;
      q3 ← Np.percentile array_np 75;
      Ok ([("media", VFloat (Np.mean array_np));
           ("mediana", VFloat (Np.median array_np));
           ("desviacion_estandar", VFloat (Np.std array_np));
           ("varianza", VFloat (Np.var array_np));
           ("minimo", VFloat minimo);
           ("maximo", VFloat maximo);
           ("rango", VFloat (F64.sub maximo minimo));
           ("primer_cuartil", VFloat q1);
           ("tercer_cuartil", VFloat q3)])
  end.

(** ** Python built-ins used by utils/estadisticos.py *)

(** [max(xs)]: [ValueError] on an empty sequence. *)
Definition py_max (xs : list Z) : resultado Z :=
  match xs with
  | [] => Lanza ValueError
  | x :: xs' => Ok (fold_left Z.max xs' x)
  end.

(** [l[i]] for [i >= 0]: [IndexError] out of range. *)
Definition py_index {A : Type} (l : list A) (i : nat) : resultado A :=
  match l !! i with
  | Some x => Ok x
  | None => Lanza IndexError
  end.

(** [l[:stop]] and [l[start:]]: a negative bound counts from the end, and
    bounds are clamped to the list. *)
Definition py_bound {A : Type} (l : list A) (i : Z) : nat :=
  let n := Z.of_nat (length l) in
  Z.to_nat (Z.min n (Z.max 0 (if i <? 0 then i + n else i))).

Definition slice_hasta {A : Type} (l : list A) (stop : Z) : list A :=
  firstn (py_bound l stop) l.

Definition slice_desde {A : Type} (l : list A) (start : Z) : list A :=
  skipn (py_bound l start) l.

(** [collections.Counter(numeros)]: the distinct values in order of first
    occurrence, each with its number of occurrences; keys are compared
    with [==]. *)
Fixpoint contar (contador : list (float * Z)) (x : float) : list (float * Z) :=
  match contador with
  | [] => [(x, 1)]
  | (k, c) :: resto =>
      if F64.eqb k x then (k, c + 1) :: resto else (k, c) :: contar resto x
  end.

Definition Counter (numeros : list float) : list (float * Z) :=
  fold_left contar numeros [].

(** [math.sqrt]: [ValueError] below zero. *)
Definition math_sqrt (x : float) : resultado float :=
  if F64.ltb x F64.cero then Lanza ValueError else Ok (F64.sqrt x).

(** [x / y] on Python floats: [ZeroDivisionError] when [y] is zero. *)
Definition py_fdiv (x y : float) : resultado float :=
  if F64.eqb y F64.cero then Lanza ZeroDivisionError else Ok (F64.div x y).

(** ** The environment: optional packages *)

Record entorno : Type := Entorno {
  scipy_disponible : bool;
  statsmodels_disponible : bool
}.

(** [import paquete]. *)
Definition importar (disponible : bool) : resultado unit :=
  if disponible then Ok tt else Lanza ImportError.

(** ** utils/estadisticos.py and the tests of utils/congruenciales.py

    Library routines whose value no property below depends on are
    parameters: [x ** k] on floats, the fixed-point formatting of
    f-strings, the Pearson coefficient of [np.corrcoef] and the tests of
    scipy. *)

Section Estadisticos.

Variable potencia : float -> Z -> float.
Variable formato : nat -> float -> string.
Variable pearson : list float -> list float -> float.
Variable kstest_uniform : list float -> resultado (float * float).
Variable chisquare : list Z -> list Z -> resultado (float * float).
Variable shapiro : list float -> resultado (float * float).
Variable norm_cdf : float -> float.

Definition calcular_moda (numeros : list float) : resultado (list float) :=
  let contador := Counter numeros in
  max_frecuencia ← py_max (map snd contador);
  let modas :=
    map fst (filter (fun nf => snd nf = max_frecuencia) contador) in
  Ok modas.

Definition calcular_asimetria (numeros : list float) : float :=
  let n := Z.of_nat (length numeros) in
  if n <? 3 then F64.cero
  else
    let media := Np.mean numeros in
    let desviacion := Np.std numeros in
    if F64.eqb desviacion F64.cero then F64.cero
    else
      let suma_cubos :=
        Np.sum (map (fun x => potencia (F64.sub x media) 3) numeros) in
      F64.div (F64.div suma_cubos (F64.of_Z n)) (potencia desviacion 3).

Definition calcular_curtosis (numeros : list float) : float :=
  let n := Z.of_nat (length numeros) in
  if n <? 4 then F64.cero
  else
    let media := Np.mean numeros in
    let desviacion := Np.std numeros in
    if F64.eqb desviacion F64.cero then F64.cero
    else
      let suma_cuartos :=
        Np.sum (map (fun x => potencia (F64.sub x media) 4) numeros) in
      F64.sub
        (F64.div (F64.div suma_cuartos (F64.of_Z n)) (potencia desviacion 4))
        (F64.of_Z 3).

Definition calcular_estadisticos (numeros : list float) : resultado reporte :=
  match numeros with
  | [] => Ok []
  | _ =>
      let array_np := numeros in
      let n := Z.of_nat (length numeros) in
      let media := Np.mean array_np in
      let mediana := Np.median array_np in
      moda ← calcular_moda numeros;
      let desviacion := Np.std array_np in
      let varianza := Np.var array_np in
      minimo ← Np.min array_np;
      maximo ← Np.max array_np;
      let rango := F64.sub maximo minimo in
      q1 ← Np.percentile array_np 25;
      q3 ← Np.percentile array_np 75;
      let iqr := F64.sub q3 q1 in
      let asimetria := calcular_asimetria array_np in
      let curtosis := calcular_curtosis array_np in
      Ok ([("n", VInt n);
           ("media", VFloat media);
           ("mediana", VFloat mediana);
           ("moda", VFloats moda);
           ("desviacion_estandar", VFloat desviacion);
           ("varianza", VFloat varianza);
           ("minimo", VFloat minimo);
           ("maximo", VFloat maximo);
           ("rango", VFloat rango);
           ("primer_cuartil", VFloat q1);
           ("tercer_cuartil", VFloat q3);
           ("rango_intercuartil", VFloat iqr);
           ("asimetria", VFloat asimetria);
           ("curtosis", VFloat curtosis);
           ("coeficiente_variacion",
            if negb (F64.eqb media F64.cero)
            then VFloat (F64.div desviacion media) else VInt 0)])
  end.

Definition generar_histograma (numeros : list float) (bins : Z)
  : resultado reporte :=
  match numeros with
  | [] => Ok []
  | _ =>
      '(hist, edges) ← Np.histogram numeros bins;
      let bins_centers :=
        map (fun '(x, y) => F64.div (F64.add x y) (F64.of_Z 2))
          (adyacentes edges) in
      let bins_ranges :=
        map (fun '(x, y) => formato 3 x +:+ "-" +:+ formato 3 y)
          (adyacentes edges) in
      e1 ← py_index edges 1;
      e0 ← py_index edges 0;
      Ok ([("frecuencias", VInts hist);
           ("bins_edges", VFloats edges);
           ("bins_centers", VFloats bins_centers);
           ("bins_ranges", VStrs bins_ranges);
           ("ancho_bin", VFloat (F64.sub e1 e0))])
  end.

(** [np.corrcoef(x, y)[0, 1]]: the two rows must have the same length. *)
Definition corrcoef_01 (x y : list float) : resultado float :=
  if Nat.eqb (length x) (length y) then Ok (pearson x y)
  else Lanza ValueError.

Definition correlacion_serial (numeros : list float) (lag : Z)
  : resultado float :=
  if Z.of_nat (length numeros) <=? lag then Ok F64.cero
  else
    let x := slice_hasta numeros (- lag) in
    let y := slice_desde numeros lag in
    corrcoef_01 x y.

(** [prueba_uniformidad]: the import stands before the [try]. *)
Definition prueba_uniformidad (env : entorno) (numeros : list float)
  (alpha : float) : resultado reporte :=
  _ ← importar (scipy_disponible env);
  intentar
    ('(d_stat, p_value) ← kstest_uniform numeros;
     Ok ([("estadistico_d", VFloat d_stat);
          ("p_valor", VFloat p_value);
          ("uniforme", VBool (F64.gtb p_value alpha));
          ("nivel_significancia", VFloat alpha);
          ("interpretacion",
           VStr ("Los números son "
                 +:+ (if F64.gtb p_value alpha
                      then "uniformemente distribuidos"
                      else "no uniformemente distribuidos")
                 +:+ " (p=" +:+ formato 4 p_value +:+ ")"))]))
    ImportError
    (Ok ([("error", VStr "Scipy no disponible para pruebas estadísticas");
          ("interpretacion",
           VStr "No se pudo realizar la prueba de uniformidad")])).

(** [prueba_bondad_ajuste]: the import stands before the [try]; an
    unknown distribution falls through and returns [None]. *)
Definition prueba_bondad_ajuste (env : entorno) (numeros : list float)
  (distribucion : string) : resultado (option reporte) :=
  _ ← importar (scipy_disponible env);
  intentar
    (if String.eqb distribucion "uniforme" then
       '(frec_obs, _) ← Np.histogram numeros 10;
       esperada ← py_truediv (Z.of_nat (length numeros)) 10;
       let frec_esp := map (fun _ => truncar esperada) frec_obs in
       '(chi2, p_value) ← chisquare frec_obs frec_esp;
       Ok (Some
         ([("estadistico_chi2", VFloat chi2);
           ("p_valor", VFloat p_value);
           ("distribucion", VStr distribucion);
           ("ajuste_adecuado", VBool (F64.gtb p_value (F64.decimal 5 2)));
           ("interpretacion",
            VStr ("Los números se ajustan "
                  +:+ (if F64.gtb p_value (F64.decimal 5 2)
                       then "adecuadamente" else "inadecuadamente")
                  +:+ " a una distribución uniforme (p="
                  +:+ formato 4 p_value +:+ ")"))]))
     else if String.eqb distribucion "normal" then
       '(stat, p_value) ← shapiro numeros;
       Ok (Some
         ([("estadistico_w", VFloat stat);
           ("p_valor", VFloat p_value);
           ("distribucion", VStr distribucion);
           ("ajuste_adecuado", VBool (F64.gtb p_value (F64.decimal 5 2)));
           ("interpretacion",
            VStr ("Los números se ajustan "
                  +:+ (if F64.gtb p_value (F64.decimal 5 2)
                       then "adecuadamente" else "inadecuadamente")
                  +:+ " a una distribución normal (p="
                  +:+ formato 4 p_value +:+ ")"))]))
     else Ok None)
    ImportError
    (Ok (Some
      ([("error", VStr "Scipy no disponible para pruebas estadísticas");
        ("interpretacion",
         VStr "No se pudo realizar la prueba de bondad de ajuste")]))).

(** The sign sequence of the runs test: 1 above the median, else 0. *)
Definition signos (numeros : list float) : list Z :=
  let mediana := Np.median numeros in
  map (fun x => if F64.gtb x mediana then 1 else 0) numeros.

(** [for i in range(1, len(secuencia))]: one more run at every change. *)
Fixpoint bucle_rachas (secuencia : list Z) (rachas : Z) : Z :=
  match secuencia with
  | x :: ((y :: _) as resto) =>
      bucle_rachas resto (if y =? x then rachas else rachas + 1)
  | _ => rachas
  end.

Definition suma (secuencia : list Z) : Z := fold_left Z.add secuencia 0.

(** The statistic of the runs test: [z = 0] when the variance of the run
    count is zero. *)
Definition estadistico_rachas (rachas n1 n2 : Z) : resultado valor :=
  q ← py_truediv (2 * n1 * n2) (n1 + n2);
  let media_rachas := F64.add q F64.uno in
  varianza_rachas ←
    py_truediv (2 * n1 * n2 * (2 * n1 * n2 - n1 - n2))
               ((n1 + n2) ^ 2 * (n1 + n2 - 1));
  if F64.eqb varianza_rachas F64.cero then Ok (VInt 0)
  else
    raiz ← math_sqrt varianza_rachas;
    zf ← py_fdiv (F64.sub (F64.of_Z rachas) media_rachas) raiz;
    Ok (VFloat zf).

(** [abs(z)] as a float. *)
Definition valor_abs (z : valor) : float :=
  match z with
  | VFloat zf => SFabs zf
  | VInt k => F64.of_Z (Z.abs k)
  | _ => F64.cero
  end.

(** [prueba_aleatoriedad]: both imports stand inside the [try]. *)
Definition prueba_aleatoriedad (env : entorno) (numeros : list float)
  : resultado reporte :=
  intentar
    (_ ← importar (statsmodels_disponible env);
     let secuencia := signos numeros in
     let rachas := bucle_rachas secuencia 1 in
     let n1 := suma secuencia in
     let n2 := Z.of_nat (length secuencia) - n1 in
     z ← estadistico_rachas rachas n1 n2;
     _ ← importar (scipy_disponible env);
     let p_value :=
       F64.mul (F64.of_Z 2) (F64.sub F64.uno (norm_cdf (valor_abs z))) in
     Ok [("numero_rachas", VInt rachas);
         ("estadistico_z", z);
         ("p_valor", VFloat p_value);
         ("aleatorio", VBool (F64.gtb p_value (F64.decimal 5 2)));
         ("interpretacion",
          VStr ("La secuencia es "
                +:+ (if F64.gtb p_value (F64.decimal 5 2)
                     then "aleatoria" else "no aleatoria")
                +:+ " (p=" +:+ formato 4 p_value +:+ ")"))])
    ImportError
    (Ok [("error", VStr "Statsmodels no disponible para prueba de rachas");
         ("interpretacion",
          VStr "No se pudo realizar la prueba de aleatoriedad")]).

End Estadisticos.

(** ** utils/congruenciales.py: [generar_lote_congruencial] *)

(** [for i in l: st = cuerpo(i, st)]. *)
Fixpoint para_cada {S A : Type} (l : list A) (cuerpo : A -> S -> resultado S)
  (st : S) : resultado S :=
  match l with
  | [] => Ok st
  | i :: l' => ligar (cuerpo i st) (para_cada l' cuerpo)
  end.

(** [range(n)]. *)
Definition rango (n : Z) : list Z := map Z.of_nat (seq 0 (Z.to_nat n)).

(** [v + i] where [v] comes from [dict.get]: [None + i] is a
    [TypeError]. *)
Definition mas (v : option Z) (i : Z) : resultado Z :=
  match v with
  | Some z => Ok (z + i)
  | None => Lanza TypeError
  end.

(** A generator called with the results of [dict.get]. The body of its
    loop is the first to use [a], [c] and [m], in one arithmetic
    expression that raises [TypeError] on [None]; with [n <= 0] the body
    does not run. *)
Definition llamar_lineal (semilla : Z) (a c m : option Z) (n : Z)
  : resultado (list float) :=
  match a, c, m with
  | Some a, Some c, Some m => congruencial_lineal semilla a c m n
  | _, _, _ => if n <=? 0 then Ok [] else Lanza TypeError
  end.

Definition llamar_multiplicativo (semilla : Z) (a m : option Z) (n : Z)
  : resultado (list float) :=
  match a, m with
  | Some a, Some m => congruencial_multiplicativo semilla a m n
  | _, _ => if n <=? 0 then Ok [] else Lanza TypeError
  end.

Definition llamar_cuadratico (semilla : Z) (a b c m : option Z) (n : Z)
  : resultado (list float) :=
  match a, b, c, m with
  | Some a, Some b, Some c, Some m =>
      congruencial_cuadratico semilla a b c m n
  | _, _, _, _ => if n <=? 0 then Ok [] else Lanza TypeError
  end.

Record resultados_lote : Type := Resultados {
  lotes : list (list float);
  estadisticas_por_lote : list reporte;
  estadisticas_globales : reporte
}.

(** The numbers of lot [i]: the seed is shifted by [i], the count is
    read from ['n'] and defaults to 100. *)
Definition numeros_del_lote (tipo : string) (parametros : gmap string Z)
  (i : Z) : resultado (list float) :=
  if String.eqb tipo "lineal" then
    semilla ← mas (parametros !! "semilla") i;
    llamar_lineal semilla (parametros !! "a") (parametros !! "c")
      (parametros !! "m") (default 100 (parametros !! "n"))
  else if String.eqb tipo "multiplicativo" then
    semilla ← mas (parametros !! "semilla") i;
    llamar_multiplicativo semilla (parametros !! "a") (parametros !! "m")
      (default 100 (parametros !! "n"))
  else if String.eqb tipo "cuadratico" then
    semilla ← mas (parametros !! "semilla") i;
    llamar_cuadratico semilla (parametros !! "a") (parametros !! "b")
      (parametros !! "c_const") (parametros !! "m")
      (default 100 (parametros !! "n"))
  else Lanza ValueError.

Definition paso_lote (tipo : string) (parametros : gmap string Z) (i : Z)
  (resultados : resultados_lote) : resultado resultados_lote :=
  numeros ← numeros_del_lote tipo parametros i;
  stats ← calcular_estadisticos_basicos numeros;
  Ok (Resultados (lotes resultados ++ [numeros])
        (estadisticas_por_lote resultados ++ [stats])
        (estadisticas_globales resultados)).

Definition generar_lote_congruencial (tipo : string)
  (parametros : gmap string Z) (n_lotes : Z) : resultado resultados_lote :=
  let resultados := Resultados [] [] [] in
  resultados ←
    para_cada (rango n_lotes) (paso_lote tipo parametros) resultados;
  let todos_numeros := concat (lotes resultados) in
  globales ← calcular_estadisticos_basicos todos_numeros;
  Ok (Resultados (lotes resultados) (estadisticas_por_lote resultados)
        globales).

(** ** utils/validaciones.py: [sanitizar_nombre_archivo]

    A file name is a Python string: a list of code points. *)

Section Sanitizar.

(** [str.isalnum] on a code point beyond ASCII, from the Unicode
    database. *)
Variable unicode_alnum : N -> bool.

Definition es_alnum (c : N) : bool :=
  if (c <? 128)%N then
    ((48 <=? c) && (c <=? 57) || (65 <=? c) && (c <=? 90)
     || (97 <=? c) && (c <=? 122))%N
  else unicode_alnum c.

(** [\w]: alphanumeric, or the underscore. *)
Definition es_palabra (c : N) : bool := es_alnum c || (c =? 95)%N.

(** The class [[\w\-_.]] of the characters that are kept. *)
Definition permitido (c : N) : bool :=
  es_palabra c || (c =? 45)%N || (c =? 95)%N || (c =? 46)%N.

Definition sanitizar_nombre_archivo (nombre : list N) : list N :=
  let nombre_seguro := filter (fun c => permitido c = true) nombre in
  if (255 <? length nombre_seguro)%nat then firstn 255 nombre_seguro
  else nombre_seguro.

End Sanitizar.

(** ** utils/validaciones.py: [validar_rango_numerico] *)

(** The values that reach the validator: [None], an integer, a float or
    a string. *)
Inductive objeto : Type :=
  | ONone
  | OInt (z : Z)
  | OFloat (x : float)
  | OStr (s : string).

Section Rango.

(** [float(s)] on a string: [None] when [s] is not a number, which
    raises [ValueError]. *)
Variable float_de_cadena : string -> option float.

(** [str(x)] of a float, as an f-string prints it. *)
Variable str_float : float -> string.

(** [float(valor)]: an integer beyond the range of a float raises
    [OverflowError]. *)
Definition py_float (valor : objeto) : resultado float :=
  match valor with
  | ONone => Lanza TypeError
  | OInt z =>
      let x := F64.of_Z z in
      if F64.es_finito x then Ok x else Lanza OverflowError
  | OFloat x => Ok x
  | OStr s =>
      match float_de_cadena s with
      | Some x => Ok x
      | None => Lanza ValueError
      end
  end.

Definition comprobar_maximo (num : float) (max_val : option float)
  : bool * string :=
  match max_val with
  | Some mx =>
      if F64.gtb num mx
      then (false, "El valor debe ser menor o igual a " +:+ str_float mx)
      else (true, "Valor válido")
  | None => (true, "Valor válido")
  end.

Definition validar_rango_numerico (valor : objeto)
  (min_val max_val : option float) : resultado (bool * string) :=
  let manejador := Ok (false, "El valor debe ser un número") in
  intentar
    (intentar
       (num ← py_float valor;
        match min_val with
        | Some mn =>
            if F64.ltb num mn
            then Ok (false,
                     "El valor debe ser mayor o igual a " +:+ str_float mn)
            else Ok (comprobar_maximo num max_val)
        | None => Ok (comprobar_maximo num max_val)
        end)
       ValueError manejador)
    TypeError manejador.

End Rango.

(** ** utils/validaciones.py: [generar_reporte_validacion] *)

(** [len(l)] printed in an f-string. *)
Definition str_len {A : Type} (l : list A) : string := pretty (length l).

Definition generar_reporte_validacion (errores : list string)
  (advertencias : option (list string)) : reporte :=
  let advertencias := default [] advertencias in
  [("valido", VBool (Nat.eqb (length errores) 0));
   ("total_errores", VInt (Z.of_nat (length errores)));
   ("total_advertencias", VInt (Z.of_nat (length advertencias)));
   ("errores", VStrs errores);
   ("advertencias", VStrs advertencias);
   ("resumen",
    VStr ("Validación "
          +:+ (if Nat.eqb (length errores) 0 then "exitosa" else "fallida")
          +:+ " - " +:+ str_len errores +:+ " errores, "
          +:+ str_len advertencias +:+ " advertencias"))].

(** ** utils/validaciones.py: [validar_archivo_subido]

    An uploaded file: its name and its stream, of which only the size and
    the read position matter here. *)

Record archivo_subido : Type := Archivo {
  filename : string;
  tamano : N;
  posicion : N
}.

(** [archivo.read()]: the bytes from the position to the end, and the
    position moves to the end. *)
Definition leer (archivo : archivo_subido) : N * archivo_subido :=
  ((tamano archivo - posicion archivo)%N,
   Archivo (filename archivo) (tamano archivo)
     (N.max (posicion archivo) (tamano archivo))).

(** [archivo.seek(0)]. *)
Definition rebobinar (archivo : archivo_subido) : archivo_subido :=
  Archivo (filename archivo) (tamano archivo) 0.

(** [s.endswith(ext)]. *)
Fixpoint termina_en (s ext : string) : bool :=
  String.eqb s ext ||
  match s with
  | EmptyString => false
  | String _ s' => termina_en s' ext
  end.

Section Archivo.

(** [str.lower]. *)
Variable minusculas : string -> string.

(** The validator with the state of the file after it: [None] stands
    for no file object. A file object is true when it has a name. *)
Definition validar_archivo_subido (archivo : option archivo_subido)
  (extensiones_permitidas : option (list string))
  : (bool * string) * option archivo_subido :=
  let extensiones_permitidas :=
    default [".csv"; ".xlsx"; ".xls"; ".txt"; ".json"]
      extensiones_permitidas in
  match archivo with
  | None => ((false, "No se seleccionó ningún archivo"), None)
  | Some a =>
      if String.eqb (filename a) "" then
        ((false, "No se seleccionó ningún archivo"), Some a)
      else if negb (existsb (termina_en (minusculas (filename a)))
                      extensiones_permitidas) then
        ((false,
          "Tipo de archivo no permitido. Extensiones válidas: "
            +:+ String.concat ", " extensiones_permitidas), Some a)
      else
        let '(leidos, a) := leer a in
        if (16 * 1024 * 1024 <? leidos)%N then
          ((false, "El archivo es demasiado grande (máximo 16MB)"), Some a)
        else
          let a := rebobinar a in
          ((true, "Archivo válido"), Some a)
  end.

End Archivo.

(** ** app.py: [api_generar_numeros]

    The request body is a JSON object; ['metodo'] may be missing and
    ['parametros'], when present, is an object with integer values. The
    response is the JSON body with its status code; the body of an error
    caught by [except Exception] carries [str(e)], kept here as the
    exception. *)

(** [try: cuerpo / except Exception as e: manejador(e)]. *)
Definition capturar {A : Type} (cuerpo : resultado A)
  (manejador : excepcion -> A) : A :=
  match cuerpo with
  | Ok a => a
  | Lanza e => manejador e
  end.

Record estadisticas_api : Type := EstadisticasApi {
  api_media : float;
  api_desviacion : float;
  api_min : float;
  api_max : float
}.

Inductive cuerpo_api : Type :=
  | CuerpoNumeros (numeros : list float) (estadisticas : estadisticas_api)
  | CuerpoError (error : string)
  | CuerpoExcepcion (e : excepcion).

Definition api_generar_numeros (metodo : option string)
  (parametros_json : option (gmap string Z)) : cuerpo_api * Z :=
  capturar
    (let parametros := default ∅ parametros_json in
     let generados :=
       if decide (metodo = Some "lineal") then
         Some (congruencial_lineal
                 (default 1 (parametros !! "semilla"))
                 (default 5 (parametros !! "a"))
                 (default 3 (parametros !! "c"))
                 (default 16 (parametros !! "m"))
                 (default 10 (parametros !! "n")))
       else if decide (metodo = Some "multiplicativo") then
         Some (congruencial_multiplicativo
                 (default 1 (parametros !! "semilla"))
                 (default 5 (parametros !! "a"))
                 (default 16 (parametros !! "m"))
                 (default 10 (parametros !! "n")))
       else None in
     match generados with
     | None => Ok (CuerpoError "Método no válido", 400)
     | Some generado =>
         numeros ← generado;
         let media := Np.mean numeros in
         let desviacion := Np.std numeros in
         minimo ← Np.min numeros;
         maximo ← Np.max numeros;
         Ok (CuerpoNumeros numeros
               (EstadisticasApi media desviacion minimo maximo), 200)
     end)
    (fun e => (CuerpoExcepcion e, 500)).

(** ** config.py: the defaults of the algorithms and [allowed_file] *)

(** [Config.ALGORITMOS_CONFIG], each entry reduced to its
    ['parametros_default']: [None] for an entry without that key. *)
Definition ALGORITMOS_CONFIG : list (string * option (gmap string Z)) :=
  [("congruencial_lineal",
    Some (<["semilla" := 1]> (<["a" := 1664525]> (<["c" := 1013904223]>
           (<["m" := 2 ^ 32]> ∅)))));
   ("congruencial_multiplicativo",
    Some (<["semilla" := 1]> (<["a" := 48271]> (<["m" := 2 ^ 31 - 1]> ∅))));
   ("congruencial_cuadratico",
    Some (<["semilla" := 1]> (<["a" := 1]> (<["b" := 1]>
           (<["c_const" := 1]> (<["m" := 2 ^ 16]> ∅))))));
   ("monte_carlo", None);
   ("transformada_inversa", None)].

(** [Config.ALGORITMOS_CONFIG.get(nombre, {})], seen through its
    ['parametros_default']. *)
Fixpoint buscar {A : Type} (d : list (string * A)) (k : string) : option A :=
  match d with
  | [] => None
  | (k', v) :: d' => if String.eqb k' k then Some v else buscar d' k
  end.

Definition get_algoritmo_config (nombre_algoritmo : string)
  : option (gmap string Z) :=
  default None (buscar ALGORITMOS_CONFIG nombre_algoritmo).

Definition get_parametros_default (nombre_algoritmo : string)
  : gmap string Z :=
  let algo_config := get_algoritmo_config nombre_algoritmo in
  default ∅ algo_config.

(** [Config.ALLOWED_EXTENSIONS], a set. *)
Definition ALLOWED_EXTENSIONS : list string :=
  ["csv"; "xlsx"; "xls"; "txt"; "json"; "py"; "ipynb"; "r"; "m";
   "pdf"; "doc"; "docx"; "ppt"; "pptx"; "zip"; "rar"; "7z"].

(** [filename.rsplit('.', 1)[1]] when ['.' in filename]: the text after
    the last dot. *)
Fixpoint despues_del_punto (filename : string) : option string :=
  match filename with
  | EmptyString => None
  | String c resto =>
      match despues_del_punto resto with
      | Some ext => Some ext
      | None => if Ascii.eqb c "."%char then Some resto else None
      end
  end.

Section Permitidos.

(** [str.lower]. *)
Variable minusculas : string -> string.

Definition allowed_file (filename : string) : bool :=
  match despues_del_punto filename with
  | Some ext => existsb (String.eqb (minusculas ext)) ALLOWED_EXTENSIONS
  | None => false
  end.

End Permitidos.

(** * Part II: the vocabulary of the properties *)

(** ** The three generators share one loop

    Each generator iterates [x := f x mod m] and appends [x / m]; only the
    polynomial [f] differs. *)

Section Bucle.

Variable f : Z -> Z.
Variable m : Z.

Definition paso (st : Z * list float) : resultado (Z * list float) :=
  let '(x, numeros) := st in
  x' ← py_mod (f x) m;
  q ← py_truediv x' m;
  Ok (x', numeros ++ [q]).

(** The successive integer states [x1, ..., xk] after [x]. *)
Fixpoint estados (k : nat) (x : Z) : list Z :=
  match k with
  | O => []
  | S k' => let x' := f x mod m in x' :: estados k' x'
  end.

Fixpoint estado_final (k : nat) (x : Z) : Z :=
  match k with
  | O => x
  | S k' => estado_final k' (f x mod m)
  end.

End Bucle.

(** A generator's result: the quotients by [m] of [Z.to_nat n] integers
    of [0 .. m-1]. *)
Definition salida_normalizada (m n : Z) (r : resultado (list float)) : Prop :=
  exists xs : list Z,
    r = Ok (map (fun x => F64.cociente x m) xs) /\
    length xs = Z.to_nat n /\
    Forall (fun x => 0 <= x < m) xs.

(** A generator's result: floats of [[0, 1)]. *)
Definition salida_en_unidad (r : resultado (list float)) : Prop :=
  exists l : list float,
    r = Ok l /\ Forall (fun q => F64.en_unidad q = true) l.

(** *** The rules as the specification words them

    Each rule contributes its message when it is violated, whatever the
    other rules say. *)

Definition si (violada : bool) (msg : string) : list string :=
  if violada then [msg] else [].

Definition falta (k : string) (p : gmap string Z) : bool :=
  match p !! k with None => true | Some _ => false end.

Definition presente_y (k : string) (cond : Z -> bool) (p : gmap string Z)
  : bool :=
  match p !! k with None => false | Some v => cond v end.

(** The count is read from [cantidad], or else from [n]. *)
Definition cantidad_pedida (p : gmap string Z) : option Z :=
  match p !! "cantidad" with
  | Some n => Some n
  | None => p !! "n"
  end.

Definition msg_supera : string := "El módulo m debe ser mayor que la semilla".

(** "modulus must exceed seed". *)
Definition no_supera_semilla (p : gmap string Z) : bool :=
  match p !! "m", p !! "semilla" with
  | Some m, Some s => negb (s <? m)
  | _, _ => false
  end.

Definition violaciones_parametros (tipo : string) (p : gmap string Z)
  : list string :=
  (si (falta "semilla" p || presente_y "semilla" (fun s => negb (0 <? s)) p)
      "La semilla debe ser un número positivo"
   ++ si (match cantidad_pedida p with
          | Some n => negb ((10 <=? n) && (n <=? 100000))
          | None => true
          end)
      "La cantidad de números debe estar entre 10 y 100,000"
   ++ si (falta "m" p || presente_y "m" (fun m => negb (0 <? m)) p)
      "El módulo m debe ser un número positivo"
   ++ (if decide (tipo = "lineal") then
         si (falta "a" p) "El multiplicador 'a' es requerido"
         ++ si (presente_y "a" (fun a => negb (0 <? a)) p)
              "El multiplicador 'a' debe ser positivo"
         ++ si (falta "c" p) "El incremento 'c' es requerido"
         ++ si (presente_y "c" (fun c => negb (0 <=? c)) p)
              "El incremento 'c' debe ser no negativo"
         ++ si (no_supera_semilla p) msg_supera
       else if decide (tipo = "multiplicativo") then
         si (falta "a" p) "El multiplicador 'a' es requerido"
         ++ si (presente_y "a" (fun a => negb (0 <? a)) p)
              "El multiplicador 'a' debe ser positivo"
         ++ si (no_supera_semilla p) msg_supera
       else if decide (tipo = "cuadratico") then
         si (falta "a" p || presente_y "a" (fun a => a =? 0) p)
            "El coeficiente cuadrático 'a' es requerido y no puede ser cero"
         ++ si (falta "b" p) "El coeficiente lineal 'b' es requerido"
         ++ si (falta "c_const" p) "El término constante 'c' es requerido"
       else
         ["Tipo de generador no válido: " +:+ tipo]))%list.

(** "fails validation if it is empty, if any required column is missing,
    if it contains no numeric columns at all, or if any column contains
    missing values". *)
Definition violaciones_dataframe (df : DataFrame) (requeridas : list string)
  : list string :=
  (si (df_empty df) "El DataFrame está vacío"
   ++ map (fun col => "Columna requerida no encontrada: " +:+ col)
        (filter (fun col => en_columnas col df = false) requeridas)
   ++ si (forallb (fun c => negb (numerica c)) (columnas df))
        "No se encontraron columnas numéricas en el archivo"
   ++ si (existsb tiene_nulos (columnas df))
        ("Se encontraron valores nulos en las columnas: "
           +:+ String.concat ", "
                 (map nombre
                    (filter (fun c => tiene_nulos c = true) (columnas df)))))%list.

Definition ejemplo_lineal : gmap string Z :=
  <["semilla" := 1]> (<["a" := 5]> (<["c" := 3]> (<["m" := 16]>
    (<["cantidad" := 20]> ∅)))).

Definition ejemplo_cuadratico : gmap string Z :=
  <["semilla" := 20]> (<["a" := 1]> (<["b" := 1]> (<["c_const" := 1]>
    (<["m" := 16]> (<["cantidad" := 10]> ∅))))).

(** What the code returns, rule by rule; [supera] is the condition under
    which "modulus must exceed seed" is reported. *)
Definition reporte_parametros (supera : bool) (tipo : string)
  (p : gmap string Z) : list string :=
  (si (falta "semilla" p || presente_y "semilla" (fun s => negb (0 <? s)) p)
      "La semilla debe ser un número positivo"
   ++ si (match cantidad_pedida p with
          | Some n => negb ((10 <=? n) && (n <=? 100000))
          | None => true
          end)
      "La cantidad de números debe estar entre 10 y 100,000"
   ++ si (falta "m" p || presente_y "m" (fun m => negb (0 <? m)) p)
      "El módulo m debe ser un número positivo"
   ++ (if decide (tipo = "lineal") then
         si (falta "a" p) "El multiplicador 'a' es requerido"
         ++ si (presente_y "a" (fun a => negb (0 <? a)) p)
              "El multiplicador 'a' debe ser positivo"
         ++ si (falta "c" p) "El incremento 'c' es requerido"
         ++ si (presente_y "c" (fun c => negb (0 <=? c)) p)
              "El incremento 'c' debe ser no negativo"
         ++ si supera msg_supera
       else if decide (tipo = "multiplicativo") then
         si (falta "a" p) "El multiplicador 'a' es requerido"
         ++ si (presente_y "a" (fun a => negb (0 <? a)) p)
              "El multiplicador 'a' debe ser positivo"
         ++ si supera msg_supera
       else if decide (tipo = "cuadratico") then
         si (falta "a" p || presente_y "a" (fun a => a =? 0) p)
            "El coeficiente cuadrático 'a' es requerido y no puede ser cero"
         ++ si (falta "b" p) "El coeficiente lineal 'b' es requerido"
         ++ si (falta "c_const" p) "El término constante 'c' es requerido"
       else
         ["Tipo de generador no válido: " +:+ tipo]))%list.

Definition ejemplo_marco : DataFrame :=
  Marco 2 [Columna "x" false [Texto "a"; Nulo];
           Columna "y" true [Numero F64.uno; Nulo]].

Definition todo_disponible : entorno := Entorno true true.

Definition cinco : float := F64.decimal 50 1.

Definition reporte_unitario : reporte :=
  [("media", VFloat cinco);
   ("mediana", VFloat cinco);
   ("desviacion_estandar", VFloat F64.cero);
   ("varianza", VFloat F64.cero);
   ("minimo", VFloat cinco);
   ("maximo", VFloat cinco);
   ("rango", VFloat F64.cero);
   ("primer_cuartil", VFloat cinco);
   ("tercer_cuartil", VFloat cinco)].


Definition sin_scipy (statsmodels : bool) : entorno := Entorno false statsmodels.
Definition sin_statsmodels (scipy : bool) : entorno := Entorno scipy false.

Definition uno_dos_tres : list float := [F64.of_Z 1; F64.of_Z 2; F64.of_Z 3].



(** Every adjacent pair of the sign sequence differs. *)
Fixpoint alterna (secuencia : list Z) : Prop :=
  match secuencia with
  | x :: ((y :: _) as resto) => y <> x /\ alterna resto
  | _ => True
  end.

Definition alternante : list float :=
  [F64.decimal 9 1; F64.decimal 1 1; F64.decimal 9 1; F64.decimal 1 1].

(** *** The vocabulary of the further properties *)

(** The loop that the three generators share, as one function of the
    polynomial. *)
Definition bucle (f : Z -> Z) (semilla m n : Z) : resultado (list float) :=
  st ← for_range n (paso f m) (semilla, []); Ok (snd st).

(** From some index on, the output repeats with a period of at most
    [m]: index and period depend on the seed and the coefficients, not
    on the count. *)
Definition ultimamente_periodico (m : Z)
  (generador : Z -> resultado (list float)) : Prop :=
  exists i p : nat,
    (1 <= p)%nat /\ (i + p <= Z.to_nat m)%nat /\
    forall n l, generador n = Ok l ->
    forall t, (i <= t)%nat -> (t + p < length l)%nat ->
      l !! (t + p)%nat = l !! t.

(** A generator's result for validated parameters: [n] numbers, floats
    of [[0, 1)] for a modulus up to [2^53]. *)
Definition genera (r : resultado (list float)) (m n : Z) : Prop :=
  exists l, r = Ok l /\ Z.of_nat (length l) = n /\
    (m <= 2 ^ 53 -> Forall (fun q => F64.en_unidad q = true) l).

(** What every generator type requires: a positive seed, a positive
    modulus and a count between 10 and 100000. *)
Definition requisitos_comunes (p : gmap string Z) (semilla m : Z) : Prop :=
  p !! "semilla" = Some semilla /\ 0 < semilla /\
  p !! "m" = Some m /\ 0 < m /\
  exists n, cantidad_pedida p = Some n /\ 10 <= n <= 100000.

(** What the type of the generator requires besides. *)
Definition requisitos (tipo : string) (p : gmap string Z) : Prop :=
  exists semilla m,
    requisitos_comunes p semilla m /\
    ((tipo = "lineal" /\ semilla < m /\
      exists a c, p !! "a" = Some a /\ 0 < a /\ p !! "c" = Some c /\ 0 <= c)
     \/
     (tipo = "multiplicativo" /\ semilla < m /\
      exists a, p !! "a" = Some a /\ 0 < a)
     \/
     (tipo = "cuadratico" /\
      exists a b c,
        p !! "a" = Some a /\ a <> 0 /\ p !! "b" = Some b /\
        p !! "c_const" = Some c)).

(** What a dataset must satisfy: rows and columns, every required
    column, a numeric column, and no missing value. *)
Definition requisitos_dataframe (df : DataFrame) (requeridas : list string)
  : Prop :=
  df_empty df = false /\
  Forall (fun col => en_columnas col df = true) requeridas /\
  existsb numerica (columnas df) = true /\
  existsb tiene_nulos (columnas df) = false.

(** What a returned lot result holds: lot by lot the numbers of
    [numeros_del_lote] and their basic statistics, and the basic
    statistics of all the numbers. *)
Definition contenido_del_lote (tipo : string) (p : gmap string Z)
  (n_lotes : Z) (res : resultados_lote) : Prop :=
  Forall2 (fun i l => numeros_del_lote tipo p i = Ok l)
    (rango n_lotes) (lotes res) /\
  Forall2 (fun l s => calcular_estadisticos_basicos l = Ok s)
    (lotes res) (estadisticas_por_lote res) /\
  calcular_estadisticos_basicos (concat (lotes res)) =
    Ok (estadisticas_globales res).

Definition ejemplo_lote : gmap string Z :=
  <["semilla" := 1]> (<["a" := 5]> (<["c" := 3]> (<["m" := 2]>
    (<["n" := 2]> ∅)))).

(** No two values of the list are equal under [==]. *)
Fixpoint distintos (l : list float) : Prop :=
  match l with
  | [] => True
  | x :: l' => Forall (fun y => F64.eqb x y = false) l' /\ distintos l'
  end.

Definition no_nan (x : float) : Prop := F64.es_nan x = false.

(** No dot in the string. *)
Fixpoint sin_punto (s : string) : Prop :=
  match s with
  | EmptyString => True
  | String c resto => c <> "."%char /\ sin_punto resto
  end.

(** * Part III: lemmas and theorems *)

(** ** Rounding

    What the rounding step of a float operation returns: the sign, the
    range of the exponent, and when the result is zero. *)

Section Redondeo.

Local Abbreviation fexp := (SpecFloat.fexp F64.prec F64.emax).

Lemma fexp_eq e : fexp e = Z.max (e - 53) (-1074).
Proof. reflexivity. Qed.

Lemma digits2_pos_size p : digits2_pos p = Pos.size p.
Proof. induction p; simpl; congruence. Qed.

Lemma Zdigits2_cota z k : 0 <= z < 2 ^ k -> 0 <= k -> Zdigits2 z <= k.
Proof.
  intros [Hz Hlt] Hk. destruct z as [|p|p]; simpl; [lia | | lia].
  rewrite digits2_pos_size.
  pose proof (Pos.size_le p) as Hs.
  assert (H2 : 2 ^ Z.pos (Pos.size p) <= 2 * Z.pos p).
  { rewrite <- Pos2Z.inj_pow. change (2 * Z.pos p) with (Z.pos p~0). lia. }
  destruct (Z_lt_le_dec k (Z.pos (Pos.size p))) as [Hgt|]; [|lia].
  exfalso.
  assert (2 ^ (k + 1) <= 2 ^ Z.pos (Pos.size p))
    by (apply Z.pow_le_mono_r; lia).
  rewrite Z.pow_add_r in H by lia. lia.
Qed.

Lemma Zdigits2_no_neg z : 0 <= Zdigits2 z.
Proof. destruct z; simpl; lia. Qed.

Lemma shr_1_cota mrs :
  0 <= shr_m mrs -> 0 <= shr_m (shr_1 mrs) <= shr_m mrs.
Proof.
  destruct mrs as [m r s]; simpl.
  destruct m as [|[p|p|]|[p|p|]]; simpl; lia.
Qed.

Lemma iter_shr_1_cota p : forall mrs,
  0 <= shr_m mrs -> 0 <= shr_m (SpecFloat.iter_pos shr_1 p mrs) <= shr_m mrs.
Proof.
  induction p as [p IH|p IH|]; intros mrs H; simpl.
  - pose proof (shr_1_cota mrs H) as H1.
    pose proof (IH _ (proj1 H1)) as H2.
    pose proof (IH _ (proj1 H2)) as H3. lia.
  - pose proof (IH _ H) as H2.
    pose proof (IH _ (proj1 H2)) as H3. lia.
  - apply shr_1_cota, H.
Qed.

Lemma shr_record_of_loc_m m l : shr_m (shr_record_of_loc m l) = m.
Proof. destruct l as [|[]]; reflexivity. Qed.

Lemma shr_1_mitad mrs :
  0 <= shr_m mrs -> shr_m (shr_1 mrs) = shr_m mrs / 2.
Proof.
  destruct mrs as [m r s]; simpl.
  destruct m as [|[p|p|]|[p|p|]]; cbn [shr_m]; intros H;
    try reflexivity; try lia;
    solve [ apply Z.div_unique with 1; lia
          | apply Z.div_unique with 0; lia ].
Qed.

Lemma iter_shr_1_mitad p : forall mrs,
  0 <= shr_m mrs ->
  shr_m (SpecFloat.iter_pos shr_1 p mrs) = shr_m mrs / 2 ^ Z.pos p.
Proof.
  induction p as [p IH|p IH|]; intros mrs H; simpl SpecFloat.iter_pos.
  - pose proof (shr_1_cota mrs H) as H1.
    pose proof (iter_shr_1_cota p _ (proj1 H1)) as H2.
    rewrite IH, IH, shr_1_mitad by lia.
    assert (Hp : 2 ^ Z.pos p~1 = 2 * 2 ^ Z.pos p * 2 ^ Z.pos p).
    { replace (Z.pos p~1) with (1 + Z.pos p + Z.pos p) by lia.
      rewrite !Z.pow_add_r by lia. reflexivity. }
    rewrite Hp, !Z.div_div by lia. f_equal. lia.
  - pose proof (iter_shr_1_cota p _ H) as H2.
    rewrite IH, IH by lia.
    assert (Hp : 2 ^ Z.pos p~0 = 2 ^ Z.pos p * 2 ^ Z.pos p).
    { replace (Z.pos p~0) with (Z.pos p + Z.pos p) by lia.
      rewrite Z.pow_add_r by lia. reflexivity. }
    rewrite Hp, Z.div_div by lia. reflexivity.
  - rewrite shr_1_mitad by assumption. reflexivity.
Qed.

Lemma Zdigits2_sup z : 0 <= z -> z < 2 ^ Zdigits2 z.
Proof.
  destruct z as [|p|p]; simpl; intros H; [lia | | lia].
  rewrite digits2_pos_size. pose proof (Pos.size_gt p) as Hs.
  rewrite <- Pos2Z.inj_pow. lia.
Qed.

Lemma Zdigits2_inf z : 0 < z -> 2 ^ (Zdigits2 z - 1) <= z /\ 1 <= Zdigits2 z.
Proof.
  destruct z as [|p|p]; simpl; intros H; try lia.
  rewrite digits2_pos_size. pose proof (Pos.size_le p) as Hs.
  assert (H2 : 2 ^ Z.pos (Pos.size p) <= 2 * Z.pos p).
  { rewrite <- Pos2Z.inj_pow. change (2 * Z.pos p) with (Z.pos p~0). lia. }
  split; [|lia].
  replace (Z.pos (Pos.size p)) with (Z.pos (Pos.size p) - 1 + 1) in H2 by lia.
  rewrite Z.pow_add_r in H2 by lia. lia.
Qed.

(** [shr_fexp] divides the mantissa by the power of two that raises the
    exponent to [fexp] of the magnitude. *)
Lemma shr_fexp_exacto m e l :
  0 <= m ->
  let '(mrs, e') := shr_fexp F64.prec F64.emax m e l in
  e' = Z.max e (fexp (Zdigits2 m + e)) /\ shr_m mrs = m / 2 ^ (e' - e).
Proof.
  intros Hm. unfold shr_fexp, shr.
  destruct (fexp (Zdigits2 m + e) - e) as [|p|p] eqn:E.
  - rewrite shr_record_of_loc_m. split; [lia|].
    replace (e - e) with 0 by lia. rewrite Z.div_1_r. reflexivity.
  - rewrite iter_shr_1_mitad by (rewrite shr_record_of_loc_m; assumption).
    rewrite shr_record_of_loc_m. split; [lia|]. f_equal. f_equal. lia.
  - rewrite shr_record_of_loc_m. split; [lia|].
    replace (e - e) with 0 by lia. rewrite Z.div_1_r. reflexivity.
Qed.

(** One [shr_fexp] on a positive mantissa of magnitude above [2^-1074]
    leaves a positive mantissa, of magnitude [t] again or less. *)
Lemma shr_fexp_positivo m e l :
  0 < m -> -1074 <= e ->
  let '(mrs, e') := shr_fexp F64.prec F64.emax m e l in
  e' = Z.max e (fexp (Zdigits2 m + e)) /\
  0 < shr_m mrs < 2 ^ (Zdigits2 m + e - e') /\
  Zdigits2 m + e - e' <= 53.
Proof.
  intros Hm He.
  pose proof (shr_fexp_exacto m e l ltac:(lia)) as H.
  destruct (shr_fexp F64.prec F64.emax m e l) as [mrs e'].
  destruct H as [He' Hm'].
  pose proof (Zdigits2_inf m Hm) as [Hinf Hd].
  pose proof (Zdigits2_sup m ltac:(lia)) as Hsup.
  rewrite fexp_eq in He'.
  split; [rewrite fexp_eq; assumption|].
  set (d := Zdigits2 m) in *.
  assert (Hn : 0 <= e' - e < d) by lia.
  assert (Hp : 0 < 2 ^ (e' - e)) by (apply Z.pow_pos_nonneg; lia).
  rewrite Hm'. split; [split|lia].
  - apply Z.div_str_pos. split; [assumption|].
    apply Z.le_trans with (2 ^ (d - 1)); [|assumption].
    apply Z.pow_le_mono_r; lia.
  - apply Z.div_lt_upper_bound; [assumption|].
    rewrite <- Z.pow_add_r by lia.
    replace (e' - e + (d + e - e')) with d by lia. assumption.
Qed.

(** The rounding step on a positive mantissa at or above the smallest
    exponent: the result is a non-zero finite float of the given sign,
    when its magnitude stays within range. *)
Lemma binary_round_aux_exponente sx m e l :
  0 < m -> -1074 <= e <= 970 -> Zdigits2 m + e <= 1023 ->
  exists m' e',
    binary_round_aux F64.prec F64.emax sx m e l = S754_finite sx m' e' /\
    -1074 <= e' /\ e' <= Z.max e (Zdigits2 m + e - 52).
Proof.
  intros Hm He Ht. unfold binary_round_aux.
  pose proof (shr_fexp_positivo m e l Hm ltac:(lia)) as H1.
  destruct (shr_fexp F64.prec F64.emax m e l) as [mrs1 e1].
  destruct H1 as (He1 & Hm1 & Hd1).
  set (m2 := round_nearest_even (shr_m mrs1) (loc_of_shr_record mrs1)).
  assert (Hm2 : shr_m mrs1 <= m2 <= shr_m mrs1 + 1).
  { unfold m2, round_nearest_even.
    destruct (loc_of_shr_record mrs1) as [|[]]; try lia.
    destruct (Z.even (shr_m mrs1)); lia. }
  rewrite fexp_eq in He1.
  pose proof (shr_fexp_positivo m2 e1 loc_Exact ltac:(lia) ltac:(lia)) as H2.
  destruct (shr_fexp F64.prec F64.emax m2 e1 loc_Exact) as [mrs2 e2].
  destruct H2 as (He2 & Hm3 & Hd2).
  rewrite fexp_eq in He2.
  assert (Hdm2 : Zdigits2 m2 <= Zdigits2 m + e - e1 + 1).
  { pose proof (Zdigits2_inf m Hm) as [_ Hd].
    apply Zdigits2_cota; [|lia]. rewrite Z.pow_add_r by lia. lia. }
  destruct (shr_m mrs2) as [|p|p] eqn:Ep; [lia| |lia].
  change (F64.emax - F64.prec) with 971.
  destruct (Z.leb_spec e2 971); [|lia].
  eexists _, _. split; [reflexivity|lia].
Qed.

Lemma binary_round_aux_forma sx m e l :
  0 < m -> -1074 <= e <= 970 -> Zdigits2 m + e <= 1023 ->
  exists m' e',
    binary_round_aux F64.prec F64.emax sx m e l = S754_finite sx m' e' /\
    -1074 <= e'.
Proof.
  intros Hm He Ht.
  destruct (binary_round_aux_exponente sx m e l Hm He Ht)
    as (m' & e' & H & He' & _).
  eauto.
Qed.

(** With a zero mantissa the rounding step gives zero, or the smallest
    float when the discarded part rounds up. *)
Lemma binary_round_aux_cero sx e l :
  -1074 <= e <= 970 ->
  binary_round_aux F64.prec F64.emax sx 0 e l = S754_zero sx \/
  exists m' e',
    binary_round_aux F64.prec F64.emax sx 0 e l = S754_finite sx m' e' /\
    -1074 <= e'.
Proof.
  intros He. unfold binary_round_aux.
  pose proof (shr_fexp_exacto 0 e l ltac:(lia)) as H1.
  destruct (shr_fexp F64.prec F64.emax 0 e l) as [mrs1 e1].
  destruct H1 as [He1 Hm1]. rewrite Z.div_0_l in Hm1
    by (apply Z.pow_nonzero; rewrite fexp_eq in He1; simpl in He1; lia).
  rewrite Hm1. rewrite fexp_eq in He1. simpl Zdigits2 in He1.
  set (m2 := round_nearest_even 0 (loc_of_shr_record mrs1)).
  assert (Hm2 : m2 = 0 \/ m2 = 1).
  { unfold m2, round_nearest_even.
    destruct (loc_of_shr_record mrs1) as [|[]]; auto. }
  destruct Hm2 as [-> | ->].
  - left. pose proof (shr_fexp_exacto 0 e1 loc_Exact ltac:(lia)) as H2.
    destruct (shr_fexp F64.prec F64.emax 0 e1 loc_Exact) as [mrs2 e2].
    destruct H2 as [He2 Hm2]. rewrite fexp_eq in He2. simpl Zdigits2 in He2.
    rewrite Z.div_0_l in Hm2 by (apply Z.pow_nonzero; lia).
    rewrite Hm2. reflexivity.
  - right.
    pose proof (shr_fexp_positivo 1 e1 loc_Exact ltac:(lia) ltac:(lia)) as H2.
    destruct (shr_fexp F64.prec F64.emax 1 e1 loc_Exact) as [mrs2 e2].
    destruct H2 as (He2 & Hm3 & Hd2). rewrite fexp_eq in He2.
    simpl Zdigits2 in *.
    destruct (shr_m mrs2) as [|p|p] eqn:Ep; [lia| |lia].
    change (F64.emax - F64.prec) with 971.
    destruct (Z.leb_spec e2 971); [|lia].
    eexists _, _. split; [reflexivity|lia].
Qed.

Lemma binary_round_aux_no_cero sx m e l :
  0 < m -> -1074 <= e ->
  F64.eqb (binary_round_aux F64.prec F64.emax sx m e l) F64.cero = false.
Proof.
  intros Hm He. unfold binary_round_aux.
  pose proof (shr_fexp_positivo m e l Hm He) as H1.
  destruct (shr_fexp F64.prec F64.emax m e l) as [mrs1 e1].
  destruct H1 as (He1 & Hm1 & Hd1).
  set (m2 := round_nearest_even (shr_m mrs1) (loc_of_shr_record mrs1)).
  assert (Hm2 : shr_m mrs1 <= m2).
  { unfold m2, round_nearest_even.
    destruct (loc_of_shr_record mrs1) as [|[]]; try lia.
    destruct (Z.even (shr_m mrs1)); lia. }
  rewrite fexp_eq in He1.
  pose proof (shr_fexp_positivo m2 e1 loc_Exact ltac:(lia) ltac:(lia)) as H2.
  destruct (shr_fexp F64.prec F64.emax m2 e1 loc_Exact) as [mrs2 e2].
  destruct H2 as (He2 & Hm3 & Hd2).
  destruct (shr_m mrs2) as [|p|p] eqn:Ep; [lia| |lia].
  destruct (e2 <=? F64.emax - F64.prec); destruct sx; reflexivity.
Qed.

(** The square root of a positive finite float is not zero. *)
Lemma sqrt_no_cero m e :
  -1074 <= e -> F64.eqb (F64.sqrt (S754_finite false m e)) F64.cero = false.
Proof.
  intros He. unfold F64.sqrt, SFsqrt, SFsqrt_core_binary.
  set (d := Zdigits2 (Z.pos m)).
  set (e' := Z.min (fexp (Z.div2 (d + e + 1))) (Z.div2 e)).
  assert (He2 : e = 2 * Z.div2 e + Z.b2z (Z.odd e)) by apply Z.div2_odd.
  assert (Hb : 0 <= Z.b2z (Z.odd e) <= 1) by (destruct (Z.odd e); simpl; lia).
  assert (He' : -1074 <= e' /\ 0 <= e - 2 * e').
  { unfold e'. rewrite fexp_eq. lia. }
  set (s := e - 2 * e') in *.
  set (m' := match s with
             | 0 => Z.pos m
             | Z.pos _ => Z.shiftl (Z.pos m) s
             | Z.neg _ => 0
             end).
  assert (Hm' : 1 <= m').
  { unfold m'. destruct s as [|p|p] eqn:Es; [lia| |lia].
    rewrite Z.shiftl_mul_pow2 by lia.
    assert (0 < 2 ^ Z.pos p) by (apply Z.pow_pos_nonneg; lia). nia. }
  pose proof (Z.sqrtrem_spec m' ltac:(lia)) as Hq.
  destruct (Z.sqrtrem m') as [q r].
  apply binary_round_aux_no_cero; [nia | lia].
Qed.

(** The quotient of two integers whose ratio is below [2^1000]: zero or
    a finite float, with the sign of the ratio. *)
Lemma cociente_forma x y :
  y <> 0 -> Z.abs x < 2 ^ 1000 * Z.abs y ->
  let s := xorb (x <? 0) (y <? 0) in
  F64.cociente x y = S754_zero s \/
  exists m e, F64.cociente x y = S754_finite s m e /\ -1074 <= e.
Proof.
  intros Hy Hxy s. unfold F64.cociente, SFdiv_core_binary. fold s.
  set (ax := Z.abs x) in *. set (ay := Z.abs y) in *.
  assert (Hay : 0 < ay) by (unfold ay; lia).
  assert (Hax : 0 <= ax) by (unfold ax; lia).
  set (d1 := Zdigits2 ax). set (d2 := Zdigits2 ay).
  set (e' := Z.min (fexp (d1 + 0 - (d2 + 0))) (0 - 0)).
  assert (He' : -1074 <= e' <= 0) by (unfold e'; rewrite fexp_eq; lia).
  set (s' := 0 - 0 - e').
  set (m' := match s' with
             | 0 => ax
             | Z.pos _ => Z.shiftl ax s'
             | Z.neg _ => 0
             end).
  assert (Hs : 0 <= s' <= 1074) by (unfold s'; lia).
  assert (Hm' : m' = ax * 2 ^ s').
  { unfold m'. destruct s' as [|p|p] eqn:Es; [lia | | lia].
    rewrite Z.shiftl_mul_pow2 by lia. reflexivity. }
  pose proof (Z_div_mod m' ay ltac:(lia)) as Hdm.
  destruct (Z.div_eucl m' ay) as [q r]. destruct Hdm as [Heq Hr].
  assert (H2s : 0 < 2 ^ s') by (apply Z.pow_pos_nonneg; lia).
  assert (Hq : 0 <= q) by nia.
  destruct (Z.eq_dec q 0) as [->|Hq0].
  { apply binary_round_aux_cero. lia. }
  assert (Hqlt : q < 2 ^ (1000 + s')).
  { rewrite Z.pow_add_r by lia.
    destruct (Z_lt_le_dec q (2 ^ 1000 * 2 ^ s')) as [|Hge]; [assumption|].
    exfalso. assert (ay * (2 ^ 1000 * 2 ^ s') <= ay * q) by nia. nia. }
  right. apply binary_round_aux_forma; [lia | lia |].
  pose proof (Zdigits2_cota q (1000 + s') ltac:(lia) ltac:(lia)).
  unfold s' in *. lia.
Qed.

Lemma cociente_no_negativo x y :
  0 <= x -> 0 < y -> x < 2 ^ 1000 * y ->
  F64.cociente x y = S754_zero false \/
  exists m e, F64.cociente x y = S754_finite false m e /\ -1074 <= e.
Proof.
  intros Hx Hy Hxy.
  pose proof (cociente_forma x y ltac:(lia) ltac:(lia)) as H.
  destruct (Z.ltb_spec x 0); [lia|]. destruct (Z.ltb_spec y 0); [lia|].
  exact H.
Qed.

(** [F64.cociente x y] with [|x| < |y|] is a finite float: the generators
    divide a remainder by its modulus, so [py_truediv] cannot raise there. *)
Lemma cociente_finito x y :
  Z.abs x < Z.abs y -> F64.es_finito (F64.cociente x y) = true.
Proof.
  intros Hxy.
  assert (Hp : 1 <= 2 ^ 1000) by (apply Z.pow_le_mono_r with (b := 0); lia).
  destruct (cociente_forma x y) as [->|(m & e & -> & _)];
    [lia | nia | reflexivity | reflexivity].
Qed.

Lemma shr_1_exacto k :
  0 <= k ->
  shr_1 (Build_shr_record (2 * k) false false) = Build_shr_record k false false.
Proof. destruct k as [|p|p]; intros H; [reflexivity | reflexivity | lia]. Qed.

Lemma iter_shr_1_exacto p : forall k,
  0 <= k ->
  SpecFloat.iter_pos shr_1 p (Build_shr_record (k * 2 ^ Z.pos p) false false)
    = Build_shr_record k false false.
Proof.
  induction p as [p IH|p IH|]; intros k Hk; cbn [SpecFloat.iter_pos].
  - assert (Hp : k * 2 ^ Z.pos p~1 = 2 * (k * 2 ^ Z.pos p * 2 ^ Z.pos p)).
    { replace (Z.pos p~1) with (1 + Z.pos p + Z.pos p) by lia.
      rewrite !Z.pow_add_r by lia. change (2 ^ 1) with 2. ring. }
    assert (0 < 2 ^ Z.pos p) by (apply Z.pow_pos_nonneg; lia).
    rewrite Hp, shr_1_exacto, IH, IH by nia. reflexivity.
  - assert (Hp : k * 2 ^ Z.pos p~0 = k * 2 ^ Z.pos p * 2 ^ Z.pos p).
    { replace (Z.pos p~0) with (Z.pos p + Z.pos p) by lia.
      rewrite Z.pow_add_r by lia. ring. }
    assert (0 < 2 ^ Z.pos p) by (apply Z.pow_pos_nonneg; lia).
    rewrite Hp, IH, IH by nia. reflexivity.
  - change (2 ^ 1) with 2. rewrite Z.mul_comm. apply shr_1_exacto, Hk.
Qed.

(** Shifting out [n] zero bits of an exact mantissa leaves it exact. *)
Lemma shr_fexp_multiplo k n e :
  0 <= k -> 0 <= n -> fexp (Zdigits2 (k * 2 ^ n) + e) - e = n ->
  shr_fexp F64.prec F64.emax (k * 2 ^ n) e loc_Exact
    = (Build_shr_record k false false, e + n).
Proof.
  intros Hk Hn Hf. unfold shr_fexp, shr. rewrite Hf.
  cbn [shr_record_of_loc].
  destruct n as [|p|p]; [| |lia].
  - change (2 ^ 0) with 1. rewrite Z.mul_1_r, Z.add_0_r. reflexivity.
  - rewrite iter_shr_1_exacto by assumption. reflexivity.
Qed.

Lemma Zdigits2_53 m : 2 ^ 52 <= m < 2 ^ 53 -> Zdigits2 m = 53.
Proof.
  intros H. pose proof (Zdigits2_cota m 53 ltac:(lia) ltac:(lia)).
  pose proof (Zdigits2_sup m ltac:(lia)) as Hs.
  destruct (Z_lt_le_dec 52 (Zdigits2 m)); [lia|].
  assert (2 ^ Zdigits2 m <= 2 ^ 52)
    by (apply Z.pow_le_mono_r; lia).
  lia.
Qed.

(** A mantissa of 53 bits is not shifted. *)
Lemma shr_fexp_normal m e :
  2 ^ 52 <= m < 2 ^ 53 -> -1074 <= e ->
  shr_fexp F64.prec F64.emax m e loc_Exact = (Build_shr_record m false false, e).
Proof.
  intros Hm He. unfold shr_fexp, shr. rewrite (Zdigits2_53 m Hm), fexp_eq.
  replace (Z.max (53 + e - 53) (-1074) - e) with 0 by lia. reflexivity.
Qed.

Lemma binary_round_aux_cero_exacto sx e :
  binary_round_aux F64.prec F64.emax sx 0 e loc_Exact = S754_zero sx.
Proof.
  assert (H : forall e', shr_fexp F64.prec F64.emax 0 e' loc_Exact
                         = (Build_shr_record 0 false false,
                            Z.max e' (fexp e'))).
  { intros e'. unfold shr_fexp, shr. change (Zdigits2 0 + e') with e'.
    cbn [shr_record_of_loc].
    destruct (fexp e' - e') as [|p|p] eqn:E.
    - f_equal. lia.
    - pose proof (iter_shr_1_exacto p 0 ltac:(lia)) as Hi.
      rewrite Z.mul_0_l in Hi. rewrite Hi. f_equal. lia.
    - f_equal. lia. }
  unfold binary_round_aux. rewrite H.
  cbn [shr_m loc_of_shr_record round_nearest_even]. rewrite H. reflexivity.
Qed.

(** When the first shift leaves a mantissa that rounds to 53 bits, the
    rounding step returns it with the shifted exponent. *)
Lemma binary_round_aux_normal sx q e l mrs1 e1 :
  shr_fexp F64.prec F64.emax q e l = (mrs1, e1) ->
  let m2 := round_nearest_even (shr_m mrs1) (loc_of_shr_record mrs1) in
  2 ^ 52 <= m2 < 2 ^ 53 -> -1074 <= e1 <= 971 ->
  binary_round_aux F64.prec F64.emax sx q e l = S754_finite sx (Z.to_pos m2) e1.
Proof.
  intros H1 m2 Hm2 He1. unfold binary_round_aux. rewrite H1. fold m2.
  rewrite shr_fexp_normal by lia. cbn [shr_m].
  destruct m2 as [|p|p]; [lia| |lia].
  change (F64.emax - F64.prec) with 971.
  destruct (Z.leb_spec e1 971); [reflexivity|lia].
Qed.

Lemma en_unidad_finito m e :
  e < -52 -> F64.en_unidad (S754_finite false m e) = true.
Proof.
  intros He. unfold F64.en_unidad, F64.leb, F64.ltb, SFleb, SFltb.
  cbn [SFcompare F64.cero F64.uno].
  change F64.uno with (S754_finite false 4503599627370496 (-52)).
  cbn [SFcompare]. apply Z.compare_lt_iff in He. rewrite He. reflexivity.
Qed.

Lemma Zdigits2_min z k : 0 <= k -> 2 ^ k <= z -> k < Zdigits2 z.
Proof.
  intros Hk Hz.
  assert (Hz0 : 0 < z) by (pose proof (Z.pow_pos_nonneg 2 k); lia).
  pose proof (Zdigits2_sup z ltac:(lia)) as Hs.
  destruct (Z_lt_le_dec k (Zdigits2 z)); [assumption|].
  assert (2 ^ Zdigits2 z <= 2 ^ k)
    by (apply Z.pow_le_mono_r; [lia | assumption]).
  lia.
Qed.

Lemma new_location_cero m : new_location m 0 = loc_Exact.
Proof.
  unfold new_location, new_location_even, new_location_odd.
  destruct (Z.even m); reflexivity.
Qed.

(** The integer quotient that the division hands to the rounding step
    has 53 or 54 bits. *)
Lemma cota_cociente_entero A B P C x m q r :
  0 < C -> 0 < A <= x -> x < 2 * A -> 0 < B <= m -> m < 2 * B ->
  A * P = 2 * C * B -> x * P = m * q + r -> 0 <= r < m -> x < m ->
  C <= q < 4 * C /\ q < P.
Proof.
  intros HC HA HA2 HB HB2 HP Hq Hr Hxm.
  assert (HP0 : 0 < P) by nia.
  assert (H1 : A * P <= x * P) by nia.
  assert (H2 : x * P < 2 * A * P) by nia.
  assert (H3 : x * P < m * P) by nia.
  assert (H4 : C * m < 2 * C * B) by nia.
  assert (H5 : 4 * C * B <= 4 * C * m) by nia.
  split; [split|]; nia.
Qed.

Lemma cota_cociente_tope m q x P G r :
  0 < G -> 0 < m -> m * G <= P -> x * P = m * q + r -> 0 <= r -> x < m ->
  q <= P - G /\ (q = P - G -> r = 0).
Proof.
  intros HG Hm HP Hq Hr Hxm.
  assert (HP0 : 0 < P) by nia.
  assert (H1 : x * P <= m * P - P) by nia.
  assert (H2 : m * q <= m * P - m * G) by lia.
  split; [nia|]. intros ->. nia.
Qed.

(** For a modulus up to [2^53] the quotient of a remainder by the
    modulus is a float of [[0, 1)]. *)
Lemma cociente_en_unidad x m :
  0 <= x < m -> m <= 2 ^ 53 -> F64.en_unidad (F64.cociente x m) = true.
Proof.
  intros [Hx Hxm] Hm. unfold F64.cociente.
  destruct (Z.ltb_spec x 0); [lia|]. destruct (Z.ltb_spec m 0); [lia|].
  rewrite (Z.abs_eq x), (Z.abs_eq m) by lia. cbn [xorb].
  unfold SFdiv_core_binary.
  destruct (Z.eq_dec x 0) as [->|Hx0].
  { match goal with
    | |- context [match ?s with
                  | 0 => 0
                  | Z.pos _ => Z.shiftl 0 ?s'
                  | Z.neg _ => 0
                  end] =>
        assert (Hm' : match s with
                      | 0 => 0
                      | Z.pos _ => Z.shiftl 0 s'
                      | Z.neg _ => 0
                      end = 0)
          by (destruct s; [reflexivity | apply Z.shiftl_0_l | reflexivity]);
        rewrite Hm'
    end.
    change (Z.div_eucl 0 m) with (0, 0). cbv iota beta zeta.
    rewrite new_location_cero, binary_round_aux_cero_exacto. reflexivity. }
  set (d1 := Zdigits2 x). set (d2 := Zdigits2 m).
  pose proof (Zdigits2_inf x ltac:(lia)) as [Hx1 Hd1].
  pose proof (Zdigits2_sup x ltac:(lia)) as Hx2.
  pose proof (Zdigits2_inf m ltac:(lia)) as [Hm1 Hd2].
  pose proof (Zdigits2_sup m ltac:(lia)) as Hm2.
  fold d1 in Hx1, Hx2, Hd1. fold d2 in Hm1, Hm2, Hd2.
  assert (Hd12 : d1 <= d2) by (apply Zdigits2_cota; lia).
  assert (Hd54 : d2 <= 54) by (apply Zdigits2_cota; lia).
  set (e0 := Z.min (fexp (d1 + 0 - (d2 + 0))) (0 - 0)).
  assert (He0 : e0 = d1 - d2 - 53) by (unfold e0; rewrite fexp_eq; lia).
  set (s := 0 - 0 - e0). assert (Hs : s = 53 + d2 - d1) by (unfold s; lia).
  set (m' := match s with
             | 0 => x
             | Z.pos _ => Z.shiftl x s
             | Z.neg _ => 0
             end).
  assert (Hm' : m' = x * 2 ^ s).
  { unfold m'. destruct s as [|p|p] eqn:Es; [lia | | lia].
    rewrite Z.shiftl_mul_pow2 by lia. reflexivity. }
  pose proof (Z_div_mod m' m ltac:(lia)) as Hdm.
  destruct (Z.div_eucl m' m) as [q r]. destruct Hdm as [Heq Hr].
  rewrite Hm' in Heq. clearbody e0 s. clear m' Hm'. subst e0.
  assert (HP : 2 ^ (d1 - 1) * 2 ^ s = 2 * 2 ^ 52 * 2 ^ (d2 - 1)).
  { change 2 with (2 ^ 1) at 3.
    rewrite <- !Z.pow_add_r by lia. f_equal. lia. }
  assert (HA2 : 2 ^ d1 = 2 * 2 ^ (d1 - 1)).
  { replace d1 with (1 + (d1 - 1)) at 1 by lia.
    rewrite Z.pow_add_r by lia. reflexivity. }
  assert (HB2 : 2 ^ d2 = 2 * 2 ^ (d2 - 1)).
  { replace d2 with (1 + (d2 - 1)) at 1 by lia.
    rewrite Z.pow_add_r by lia. reflexivity. }
  assert (HA0 : 0 < 2 ^ (d1 - 1)) by (apply Z.pow_pos_nonneg; lia).
  assert (HB0 : 0 < 2 ^ (d2 - 1)) by (apply Z.pow_pos_nonneg; lia).
  destruct (cota_cociente_entero (2 ^ (d1 - 1)) (2 ^ (d2 - 1)) (2 ^ s)
              (2 ^ 52) x m q r) as [[Hq52 Hq54] HqP]; try lia.
  set (dq := Zdigits2 q).
  assert (Hdq53 : 53 <= dq)
    by (pose proof (Zdigits2_min q 52 ltac:(lia) Hq52); unfold dq; lia).
  assert (Hdqs : dq <= s) by (apply Zdigits2_cota; lia).
  destruct (Z.eq_dec dq s) as [Hdq|Hdq].
  2:{ destruct (binary_round_aux_exponente false q (d1 - d2 - 53)
                  (new_location m r)) as (m3 & e3 & -> & _ & He3);
        [lia | lia | fold dq; lia |].
      apply en_unidad_finito. fold dq in He3. lia. }
  (* the quotient fills all [s] bits: the result is just below one *)
  set (G := 2 ^ (s - 53)).
  assert (HG : 0 < G) by (apply Z.pow_pos_nonneg; lia).
  assert (HPG : 2 ^ s = 2 ^ 53 * G).
  { unfold G. rewrite <- Z.pow_add_r by lia. f_equal. lia. }
  destruct (cota_cociente_tope m q x (2 ^ s) G r) as [Htope Hexacto];
    try lia; [rewrite HPG; nia|].
  destruct (shr_fexp F64.prec F64.emax q (d1 - d2 - 53) (new_location m r))
    as [mrs1 e1] eqn:E1.
  pose proof (shr_fexp_exacto q (d1 - d2 - 53) (new_location m r) ltac:(lia))
    as Hex.
  rewrite E1 in Hex. fold dq in Hex. rewrite fexp_eq in Hex.
  destruct Hex as [He1 Hm1'].
  assert (He1' : e1 = -53) by lia.
  replace (e1 - (d1 - d2 - 53)) with (s - 53) in Hm1' by lia. fold G in Hm1'.
  assert (Hq1 : 2 ^ 52 * G <= q).
  { pose proof (Zdigits2_inf q ltac:(lia)) as [Hqi _]. fold dq in Hqi.
    rewrite Hdq in Hqi. replace (s - 1) with (52 + (s - 53)) in Hqi by lia.
    rewrite Z.pow_add_r in Hqi by lia. exact Hqi. }
  assert (Hm1lo : 2 ^ 52 <= shr_m mrs1).
  { rewrite Hm1'. apply Z.div_le_lower_bound; lia. }
  set (m2 := round_nearest_even (shr_m mrs1) (loc_of_shr_record mrs1)).
  assert (Hred : shr_m mrs1 <= m2 <= shr_m mrs1 + 1).
  { unfold m2, round_nearest_even.
    destruct (loc_of_shr_record mrs1) as [|[]]; try lia.
    destruct (Z.even (shr_m mrs1)); lia. }
  assert (Hm2hi : m2 < 2 ^ 53).
  { destruct (Z.eq_dec q (2 ^ s - G)) as [Hqe|Hqne].
    - specialize (Hexacto Hqe). subst r. rewrite new_location_cero in E1.
      assert (Hqk : q = (2 ^ 53 - 1) * 2 ^ (s - 53)) by (fold G; lia).
      rewrite Hqk in E1. rewrite shr_fexp_multiplo in E1.
      + injection E1 as <- <-. vm_compute. reflexivity.
      + lia.
      + lia.
      + rewrite <- Hqk. fold dq. rewrite fexp_eq. lia.
    - assert (shr_m mrs1 < 2 ^ 53 - 1); [|lia].
      rewrite Hm1'. apply Z.div_lt_upper_bound; [lia|].
      rewrite HPG in Htope. lia. }
  rewrite (binary_round_aux_normal false q (d1 - d2 - 53) (new_location m r)
             mrs1 e1 E1) by (fold m2; lia).
  apply en_unidad_finito. lia.
Qed.

End Redondeo.

Lemma py_truediv_resto x m :
  m <> 0 -> py_truediv (x mod m) m = Ok (F64.cociente (x mod m) m).
Proof.
  intros Hm. unfold py_truediv.
  destruct (Z.eqb_spec m 0) as [|_]; [contradiction|].
  rewrite cociente_finito; [reflexivity|].
  pose proof (Z.mod_pos_bound x m). pose proof (Z.mod_neg_bound x m). lia.
Qed.

(** ** The three generators share one loop *)

Section BucleLemas.

Variable f : Z -> Z.
Variable m : Z.

Lemma length_estados k x : length (estados f m k x) = k.
Proof. revert x. induction k as [|k IH]; intros x; simpl; [|rewrite IH]; done. Qed.

Lemma estados_en_rango k x :
  0 < m -> Forall (fun z => 0 <= z < m) (estados f m k x).
Proof.
  intros Hm. revert x. induction k as [|k IH]; intros x; simpl.
  - constructor.
  - constructor; [apply Z.mod_pos_bound, Hm | apply IH].
Qed.

Lemma repetir_paso k : forall x numeros,
  m <> 0 ->
  repetir k (paso f m) (x, numeros) =
    Ok (estado_final f m k x,
        numeros ++ map (fun z => F64.cociente z m) (estados f m k x)).
Proof.
  induction k as [|k IH]; intros x numeros Hm; simpl.
  - rewrite app_nil_r. reflexivity.
  - unfold py_mod. destruct (Z.eqb_spec m 0) as [|_]; [contradiction|].
    simpl. rewrite py_truediv_resto by assumption. simpl.
    rewrite IH by assumption. rewrite <- app_assoc. reflexivity.
Qed.

Lemma repetir_paso_modulo_cero k st :
  m = 0 -> repetir (S k) (paso f m) st = Lanza ZeroDivisionError.
Proof.
  intros Hm. destruct st as [x numeros]. simpl.
  unfold py_mod. rewrite Hm. reflexivity.
Qed.

End BucleLemas.

Lemma bucle_normalizado f semilla m n :
  0 < m ->
  salida_normalizada m n
    (st ← for_range n (paso f m) (semilla, []); Ok (snd st)).
Proof.
  intros Hm. exists (estados f m (Z.to_nat n) semilla).
  unfold for_range. rewrite repetir_paso by lia. simpl.
  split; [reflexivity|]. split; [apply length_estados|].
  apply estados_en_rango, Hm.
Qed.

Lemma bucle_retorna f semilla m n :
  m <> 0 \/ n <= 0 ->
  retorna (st ← for_range n (paso f m) (semilla, []); Ok (snd st)).
Proof.
  intros [Hm|Hn]; unfold for_range.
  - rewrite repetir_paso by assumption. eexists. reflexivity.
  - replace (Z.to_nat n) with O by lia. eexists. reflexivity.
Qed.

Lemma bucle_lanza f semilla n :
  0 < n ->
  (st ← for_range n (paso f 0) (semilla, []); Ok (snd st))
    = Lanza ZeroDivisionError.
Proof.
  intros Hn. unfold for_range.
  destruct (Z.to_nat n) as [|k] eqn:E; [lia|].
  rewrite repetir_paso_modulo_cero; reflexivity.
Qed.

Lemma lineal_es_bucle semilla a c m n :
  congruencial_lineal semilla a c m n =
    (st ← for_range n (paso (fun x => a * x + c) m) (semilla, []); Ok (snd st)).
Proof. reflexivity. Qed.

Lemma multiplicativo_es_bucle semilla a m n :
  congruencial_multiplicativo semilla a m n =
    (st ← for_range n (paso (fun x => a * x) m) (semilla, []); Ok (snd st)).
Proof. reflexivity. Qed.

Lemma cuadratico_es_bucle semilla a b c m n :
  congruencial_cuadratico semilla a b c m n =
    (st ← for_range n (paso (fun x => a * x ^ 2 + b * x + c) m) (semilla, []);
     Ok (snd st)).
Proof. reflexivity. Qed.

(** ** Properties of the generators *)

(** C1. [congruencial_lineal(semilla=1, a=5, c=3, m=16, n=5)] returns
    exactly [[0.5, 0.6875, 0.625, 0.3125, 0.75]]: the states of the
    recurrence [x := (5*x + 3) mod 16] from [x0 = 1] are [8, 11, 10, 5, 12],
    and each output is the state divided by 16. The five floats are
    written as binary64 numbers, mantissa and exponent: 2^52 * 2^-53,
    11 * 2^49 * 2^-53, 5 * 2^50 * 2^-53, 5 * 2^50 * 2^-54 and
    3 * 2^51 * 2^-53. *)
Theorem lineal_escenario_concreto :
  estados (fun x => 5 * x + 3) 16 5 1 = [8; 11; 10; 5; 12] /\
  congruencial_lineal 1 5 3 16 5 =
    Ok [S754_finite false 4503599627370496 (-53);
        S754_finite false 6192449487634432 (-53);
        S754_finite false 5629499534213120 (-53);
        S754_finite false 5629499534213120 (-54);
        S754_finite false 6755399441055744 (-53)].
Proof. split; vm_compute; reflexivity. Qed.

Lemma normalizada_en_unidad m n r :
  m <= 2 ^ 53 -> salida_normalizada m n r -> salida_en_unidad r.
Proof.
  intros Hm (xs & -> & _ & Hxs). eexists. split; [reflexivity|].
  induction Hxs as [|x xs Hx _ IH]; simpl; constructor; [|exact IH].
  apply cociente_en_unidad; assumption.
Qed.

(** C2, as the code has it. For a positive modulus and any other integer
    parameters, each generator returns the quotients by [m] of
    [max n 0] integers of [0 .. m-1]: the list has length [n] when
    [n >= 0] and is empty when [n < 0], and every element is the float
    nearest to a rational of [[0, 1)]. For a modulus up to [2^53] every
    element, as a float, lies in [[0, 1)]. *)
Theorem generadores_salida_normalizada semilla a b c m n :
  0 < m ->
  (salida_normalizada m n (congruencial_lineal semilla a c m n) /\
   salida_normalizada m n (congruencial_multiplicativo semilla a m n) /\
   salida_normalizada m n (congruencial_cuadratico semilla a b c m n)) /\
  (m <= 2 ^ 53 ->
   salida_en_unidad (congruencial_lineal semilla a c m n) /\
   salida_en_unidad (congruencial_multiplicativo semilla a m n) /\
   salida_en_unidad (congruencial_cuadratico semilla a b c m n)).
Proof.
  intros Hm.
  rewrite lineal_es_bucle, multiplicativo_es_bucle, cuadratico_es_bucle.
  split; [auto using bucle_normalizado|].
  intros Hm53.
  repeat split; apply (normalizada_en_unidad m n);
    auto using bucle_normalizado.
Qed.

Lemma generadores_salida_normalizada_testigo :
  (salida_normalizada 16 5 (congruencial_lineal 1 5 3 16 5) /\
   salida_normalizada 16 5 (congruencial_multiplicativo 1 5 16 5) /\
   salida_normalizada 16 5 (congruencial_cuadratico 1 5 7 3 16 5)) /\
  (salida_en_unidad (congruencial_lineal 1 5 3 16 5) /\
   salida_en_unidad (congruencial_multiplicativo 1 5 16 5) /\
   salida_en_unidad (congruencial_cuadratico 1 5 7 3 16 5)).
Proof.
  destruct (generadores_salida_normalizada 1 5 7 3 16 5) as [H1 H2]; [lia|].
  split; [exact H1 | apply H2; lia].
Defined.

(** C2 as written fails on the length: a negative count gives the empty
    list, whose length is not [n]. *)
Lemma longitud_con_cantidad_negativa :
  ~ (forall semilla a c m n : Z, 0 < m ->
       exists l, congruencial_lineal semilla a c m n = Ok l /\
                 Z.of_nat (length l) = n /\
                 Forall (fun q => F64.en_unidad q = true) l).
Proof.
  intros H. destruct (H 1 5 3 16 (-1) ltac:(lia)) as (l & Hl & Hlen & _).
  vm_compute in Hl. injection Hl as <-. simpl in Hlen. lia.
Qed.

(** Rounding can reach 1.0: with [m = 2^54] the state [2^54 - 1] is
    divided to a quotient halfway between the two nearest floats, and the
    tie goes to 1.0. *)
Lemma cociente_redondea_a_uno :
  congruencial_lineal (2 ^ 54 - 2) 1 1 (2 ^ 54) 1 = Ok [F64.uno] /\
  F64.en_unidad F64.uno = false.
Proof. split; vm_compute; reflexivity. Qed.

(** C3, as the code has it. For every integer input with a non-zero
    modulus, or with a count [n <= 0], each generator returns a list;
    with [m = 0] and [n >= 1] the first [%] raises [ZeroDivisionError]. *)
Theorem generadores_terminan semilla a b c m n :
  (m <> 0 \/ n <= 0 ->
     retorna (congruencial_lineal semilla a c m n) /\
     retorna (congruencial_multiplicativo semilla a m n) /\
     retorna (congruencial_cuadratico semilla a b c m n)) /\
  (m = 0 -> 0 < n ->
     congruencial_lineal semilla a c m n = Lanza ZeroDivisionError /\
     congruencial_multiplicativo semilla a m n = Lanza ZeroDivisionError /\
     congruencial_cuadratico semilla a b c m n = Lanza ZeroDivisionError).
Proof.
  rewrite lineal_es_bucle, multiplicativo_es_bucle, cuadratico_es_bucle.
  split.
  - intros H. auto using bucle_retorna.
  - intros -> Hn. auto using bucle_lanza.
Qed.

Lemma generadores_terminan_testigo :
  (retorna (congruencial_lineal (-7) (-5) 0 (-16) 4) /\
   retorna (congruencial_multiplicativo (-7) (-5) (-16) 4) /\
   retorna (congruencial_cuadratico (-7) (-5) (-2) 0 (-16) 4)) /\
  (congruencial_lineal 1 5 3 0 2 = Lanza ZeroDivisionError /\
   congruencial_multiplicativo 1 5 0 2 = Lanza ZeroDivisionError /\
   congruencial_cuadratico 1 5 2 3 0 2 = Lanza ZeroDivisionError).
Proof.
  split.
  - apply (proj1 (generadores_terminan (-7) (-5) (-2) 0 (-16) 4)). lia.
  - apply (proj2 (generadores_terminan 1 5 2 3 0 2)); [reflexivity | lia].
Defined.

(** C3 as written fails at a zero modulus. *)
Lemma modulo_cero_lanza :
  ~ retorna (congruencial_lineal 1 5 3 0 1) /\
  ~ retorna (congruencial_multiplicativo 1 5 0 1) /\
  ~ retorna (congruencial_cuadratico 1 5 2 3 0 1).
Proof. repeat split; intros [l Hl]; vm_compute in Hl; discriminate. Qed.

(** *** The code against the rules *)

Lemma anexar_si_si cond msg errores :
  anexar_si cond msg errores = (errores ++ si cond msg)%list.
Proof. destruct cond; simpl; [reflexivity | by rewrite app_nil_r]. Qed.

Lemma anexar_si_uno msg errores : anexar msg errores = (errores ++ si true msg)%list.
Proof. reflexivity. Qed.

Lemma none_o_regla (p : gmap string Z) k cond cond' :
  (forall z, cond z = cond' z) ->
  none_o (p !! k) cond = falta k p || presente_y k cond' p.
Proof.
  intros H. unfold none_o, falta, presente_y.
  destruct (p !! k); simpl; auto.
Qed.

Lemma requerido_y (p : gmap string Z) k cond cond' msg1 msg2 errores :
  (forall z, cond z = cond' z) ->
  match p !! k with
  | None => anexar msg1 errores
  | Some v => anexar_si (cond v) msg2 errores
  end = (errores ++ si (falta k p) msg1 ++ si (presente_y k cond' p) msg2)%list.
Proof.
  intros H. unfold falta, presente_y.
  destruct (p !! k) as [v|]; simpl.
  - rewrite anexar_si_si, H. reflexivity.
  - reflexivity.
Qed.

Lemma cantidad_regla (p : gmap string Z) :
  let n := default (default 1 (p !! "n")) (p !! "cantidad") in
  (n <? 10) || (n >? 100000) =
  match cantidad_pedida p with
  | Some n => negb ((10 <=? n) && (n <=? 100000))
  | None => true
  end.
Proof.
  unfold cantidad_pedida.
  destruct (p !! "cantidad") as [n|]; simpl; [|destruct (p !! "n") as [n|]; simpl];
    try reflexivity; rewrite Z.gtb_ltb;
    destruct (Z.ltb_spec n 10), (Z.ltb_spec 100000 n),
      (Z.leb_spec 10 n), (Z.leb_spec n 100000); simpl; lia || reflexivity.
Qed.

(** The guard of the code agrees with the rule when neither the modulus
    nor the seed is zero, and is off otherwise. *)
Lemma modulo_no_supera_regla (p : gmap string Z) :
  modulo_no_supera (p !! "m") (p !! "semilla") =
    no_supera_semilla p && negb (presente_y "m" (fun m => m =? 0) p)
      && negb (presente_y "semilla" (fun s => s =? 0) p).
Proof.
  unfold modulo_no_supera, no_supera_semilla, presente_y, verdadero.
  destruct (p !! "m") as [m|], (p !! "semilla") as [s|]; simpl; try reflexivity.
  - destruct (Z.eqb_spec m 0), (Z.eqb_spec s 0), (Z.leb_spec m s),
      (Z.ltb_spec s m); simpl; lia || reflexivity.
  - destruct (m =? 0); reflexivity.
Qed.

Lemma violaciones_es_reporte tipo p :
  violaciones_parametros tipo p = reporte_parametros (no_supera_semilla p) tipo p.
Proof. reflexivity. Qed.

Lemma validar_parametros_reporte tipo p :
  snd (validar_parametros_congruencial tipo p) =
    reporte_parametros (modulo_no_supera (p !! "m") (p !! "semilla")) tipo p.
Proof.
  unfold validar_parametros_congruencial, reporte_parametros. cbv zeta.
  unfold snd.
  rewrite (none_o_regla p "semilla" _ (fun s => negb (0 <? s)))
    by (intros; apply Z.leb_antisym).
  rewrite (none_o_regla p "m" _ (fun s => negb (0 <? s)))
    by (intros; apply Z.leb_antisym).
  rewrite (cantidad_regla p).
  rewrite !anexar_si_si. simpl app at 1.
  destruct (String.eqb_spec tipo "lineal") as [->|Hl].
  { rewrite decide_True by reflexivity.
    rewrite (requerido_y p "a" _ (fun a => negb (0 <? a)))
      by (intros; apply Z.leb_antisym).
    rewrite (requerido_y p "c" _ (fun c => negb (0 <=? c)))
      by (intros; apply Z.ltb_antisym).
    rewrite ?anexar_si_si. rewrite <- !app_assoc. reflexivity. }
  rewrite (decide_False (P := tipo = "lineal")) by assumption.
  destruct (String.eqb_spec tipo "multiplicativo") as [->|Hm].
  { rewrite decide_True by reflexivity.
    rewrite (requerido_y p "a" _ (fun a => negb (0 <? a)))
      by (intros; apply Z.leb_antisym).
    rewrite ?anexar_si_si. rewrite <- !app_assoc. reflexivity. }
  rewrite (decide_False (P := tipo = "multiplicativo")) by assumption.
  destruct (String.eqb_spec tipo "cuadratico") as [->|Hc].
  { rewrite decide_True by reflexivity.
    rewrite (none_o_regla p "a" _ (fun a => a =? 0)) by reflexivity.
    rewrite (none_o_regla p "b" _ (fun _ => false)) by reflexivity.
    rewrite (none_o_regla p "c_const" _ (fun _ => false)) by reflexivity.
    assert (Hf : forall k, presente_y k (fun _ => false) p = false)
      by (intros k; unfold presente_y; destruct (p !! k); reflexivity).
    rewrite !Hf, !orb_false_r.
    rewrite ?anexar_si_si. rewrite <- !app_assoc. reflexivity. }
  rewrite (decide_False (P := tipo = "cuadratico")) by assumption.
  rewrite anexar_si_uno. rewrite <- !app_assoc. reflexivity.
Qed.

Lemma validar_parametros_valido tipo p :
  fst (validar_parametros_congruencial tipo p) = true <->
  snd (validar_parametros_congruencial tipo p) = [].
Proof.
  unfold validar_parametros_congruencial. cbv zeta. unfold fst, snd.
  match goal with |- context [length ?l] => generalize l end.
  intros l. destruct l; simpl; split; congruence.
Qed.

Lemma validar_parametros_sin_ceros tipo (p : gmap string Z) :
  p !! "m" <> Some 0 -> p !! "semilla" <> Some 0 ->
  snd (validar_parametros_congruencial tipo p) = violaciones_parametros tipo p.
Proof.
  intros Hm Hs.
  rewrite validar_parametros_reporte, violaciones_es_reporte.
  rewrite modulo_no_supera_regla. f_equal.
  unfold presente_y.
  destruct (p !! "m") as [m|]; [destruct (Z.eqb_spec m 0); [congruence|]|];
    (destruct (p !! "semilla") as [s|];
       [destruct (Z.eqb_spec s 0); [congruence|]|]);
    simpl; rewrite ?andb_true_r; reflexivity.
Qed.

Lemma fold_requeridas df requeridas : forall errores,
  fold_left
    (fun errores col =>
       anexar_si (negb (en_columnas col df))
         ("Columna requerida no encontrada: " +:+ col) errores)
    requeridas errores =
  (errores ++ map (fun col => "Columna requerida no encontrada: " +:+ col)
                (filter (fun col => en_columnas col df = false) requeridas))%list.
Proof.
  induction requeridas as [|col cols IH]; intros errores; simpl.
  - by rewrite app_nil_r.
  - rewrite IH, filter_cons. case_decide as E; rewrite E || idtac.
    + simpl. unfold anexar. rewrite <- app_assoc. reflexivity.
    + destruct (en_columnas col df); [reflexivity | congruence].
Qed.

Lemma sin_numericas df :
  Nat.eqb (filas df) 0 = false ->
  df_empty (select_dtypes_number df) =
    forallb (fun c => negb (numerica c)) (columnas df).
Proof.
  intros Hf. unfold df_empty, select_dtypes_number. simpl. rewrite Hf. simpl.
  induction (columnas df) as [|c cs IH]; [reflexivity|].
  rewrite filter_cons. simpl. case_decide as E.
  - rewrite E. reflexivity.
  - destruct (numerica c); [congruence | exact IH].
Qed.

Lemma validar_dataframe_no_vacio df requeridas :
  df_empty df = false ->
  snd (validar_dataframe df requeridas) = violaciones_dataframe df requeridas.
Proof.
  intros He. unfold validar_dataframe, violaciones_dataframe. rewrite He.
  cbv zeta. unfold snd.
  assert (Hf : Nat.eqb (filas df) 0 = false).
  { unfold df_empty in He. apply orb_false_elim in He. tauto. }
  rewrite fold_requeridas, anexar_si_si, sin_numericas by assumption.
  destruct (existsb tiene_nulos (columnas df)); simpl.
  - unfold anexar. rewrite <- !app_assoc. reflexivity.
  - rewrite !app_nil_r. reflexivity.
Qed.

Lemma validar_dataframe_vacio df requeridas :
  df_empty df = true ->
  validar_dataframe df requeridas = (false, ["El DataFrame está vacío"]).
Proof. intros He. unfold validar_dataframe. rewrite He. reflexivity. Qed.

Lemma validar_dataframe_valido df requeridas :
  fst (validar_dataframe df requeridas) = true <->
  snd (validar_dataframe df requeridas) = [].
Proof.
  unfold validar_dataframe. destruct (df_empty df).
  - simpl. split; discriminate.
  - cbv zeta. unfold fst, snd.
    match goal with |- context [length ?l] => generalize l end.
    intros l. destruct l; simpl; split; congruence.
Qed.

(** ** Properties of the validators *)

(** C7, as the code has it. Both validators report valid exactly when the
    error list is empty. The parameter validator evaluates every rule of
    the generator type and returns the messages of all violated rules, in
    rule order, except that "the modulus must exceed the seed" is not
    reported when the modulus or the seed is zero. The tabular validator
    returns all violations of a non-empty dataset; for an empty dataset it
    returns the emptiness error alone. *)
Theorem validadores_contrato :
  (forall tipo (p : gmap string Z),
     (fst (validar_parametros_congruencial tipo p) = true <->
      snd (validar_parametros_congruencial tipo p) = []) /\
     snd (validar_parametros_congruencial tipo p) =
       reporte_parametros
         (no_supera_semilla p && negb (presente_y "m" (fun m => m =? 0) p)
            && negb (presente_y "semilla" (fun s => s =? 0) p)) tipo p /\
     (p !! "m" <> Some 0 -> p !! "semilla" <> Some 0 ->
      snd (validar_parametros_congruencial tipo p) =
        violaciones_parametros tipo p)) /\
  (forall df requeridas,
     (fst (validar_dataframe df requeridas) = true <->
      snd (validar_dataframe df requeridas) = []) /\
     (df_empty df = false ->
      snd (validar_dataframe df requeridas) =
        violaciones_dataframe df requeridas) /\
     (df_empty df = true ->
      snd (validar_dataframe df requeridas) = ["El DataFrame está vacío"])).
Proof.
  split.
  - intros tipo p. split; [apply validar_parametros_valido|]. split.
    + rewrite validar_parametros_reporte, modulo_no_supera_regla. reflexivity.
    + apply validar_parametros_sin_ceros.
  - intros df requeridas. split; [apply validar_dataframe_valido|]. split.
    + apply validar_dataframe_no_vacio.
    + intros He. rewrite validar_dataframe_vacio by assumption. reflexivity.
Qed.

Lemma validadores_contrato_testigo :
  snd (validar_parametros_congruencial "lineal" (<["a" := -5]> ejemplo_lineal)) =
    violaciones_parametros "lineal" (<["a" := -5]> ejemplo_lineal) /\
  snd (validar_dataframe ejemplo_marco ["x"; "z"]) =
    violaciones_dataframe ejemplo_marco ["x"; "z"] /\
  snd (validar_dataframe (Marco 0 []) ["x"]) = ["El DataFrame está vacío"].
Proof.
  destruct validadores_contrato as [Hp Hd]. split; [|split].
  - apply (Hp "lineal" (<["a" := -5]> ejemplo_lineal));
      vm_compute; discriminate.
  - apply (Hd ejemplo_marco ["x"; "z"]). reflexivity.
  - apply (Hd (Marco 0 []) ["x"]). reflexivity.
Defined.

(** C7 as written fails for the tabular validator: on an empty dataset a
    missing required column is a violation that is not reported. *)
Lemma dataframe_vacio_reporte_parcial :
  ~ (forall df requeridas msg,
       msg ∈ violaciones_dataframe df requeridas ->
       msg ∈ snd (validar_dataframe df requeridas)).
Proof.
  intros H.
  specialize (H (Marco 0 []) ["x"] "Columna requerida no encontrada: x").
  vm_compute in H.
  assert (Hin : "Columna requerida no encontrada: x"
                  ∈ ["El DataFrame está vacío"]).
  { apply H. apply list_elem_of_further, list_elem_of_here. }
  apply list_elem_of_singleton in Hin. discriminate.
Qed.

(** The parameter validator misses the same way at a zero modulus. *)
Lemma modulo_cero_no_compara :
  msg_supera ∈ violaciones_parametros "lineal" (<["m" := 0]> ejemplo_lineal) /\
  snd (validar_parametros_congruencial "lineal" (<["m" := 0]> ejemplo_lineal))
    = ["El módulo m debe ser un número positivo"].
Proof.
  split; [|vm_compute; reflexivity].
  vm_compute. apply list_elem_of_further, list_elem_of_here.
Qed.

(** C8, as the code has it. A parameter set that the validator marks
    valid for the linear or the multiplicative generator has a positive
    seed and a modulus strictly greater than it. *)
Theorem valido_modulo_supera_semilla tipo (p : gmap string Z) :
  tipo = "lineal" \/ tipo = "multiplicativo" ->
  fst (validar_parametros_congruencial tipo p) = true ->
  exists semilla m,
    p !! "semilla" = Some semilla /\ p !! "m" = Some m /\ 0 < semilla < m.
Proof.
  intros Htipo Hv. apply validar_parametros_valido in Hv.
  rewrite validar_parametros_reporte, modulo_no_supera_regla in Hv.
  unfold reporte_parametros in Hv.
  apply app_eq_nil in Hv as [Hs Hv].
  apply app_eq_nil in Hv as [_ Hv].
  apply app_eq_nil in Hv as [Hm Hv].
  assert (Hsup : si (no_supera_semilla p
                     && negb (presente_y "m" (fun m => m =? 0) p)
                     && negb (presente_y "semilla" (fun s => s =? 0) p))
                   msg_supera = []).
  { destruct Htipo as [-> | ->]; simpl in Hv;
      repeat (apply app_eq_nil in Hv as [_ Hv]); exact Hv. }
  clear Hv Htipo.
  unfold falta, presente_y, no_supera_semilla in *.
  destruct (p !! "semilla") as [s|]; [|discriminate].
  destruct (p !! "m") as [m|]; [|discriminate].
  exists s, m. simpl in *.
  destruct (Z.ltb_spec 0 s); [|discriminate].
  destruct (Z.ltb_spec 0 m); [|discriminate].
  destruct (Z.ltb_spec s m); [auto with lia|].
  destruct (Z.eqb_spec m 0); [lia|].
  destruct (Z.eqb_spec s 0); [lia|].
  discriminate.
Qed.

Lemma valido_modulo_supera_semilla_testigo :
  exists semilla m,
    ejemplo_lineal !! "semilla" = Some semilla /\
    ejemplo_lineal !! "m" = Some m /\ 0 < semilla < m.
Proof.
  apply (valido_modulo_supera_semilla "lineal" ejemplo_lineal).
  - left. reflexivity.
  - vm_compute. reflexivity.
Defined.

(** C8 as written fails for the quadratic generator, whose rules do not
    compare the modulus with the seed. *)
Lemma cuadratico_valido_modulo_menor :
  ~ (forall tipo (p : gmap string Z),
       tipo = "lineal" \/ tipo = "multiplicativo" \/ tipo = "cuadratico" ->
       fst (validar_parametros_congruencial tipo p) = true ->
       exists semilla m,
         p !! "semilla" = Some semilla /\ p !! "m" = Some m /\ semilla < m).
Proof.
  intros H.
  destruct (H "cuadratico" ejemplo_cuadratico) as (s & m & Hs & Hm & Hlt).
  - right. right. reflexivity.
  - vm_compute. reflexivity.
  - vm_compute in Hs, Hm. injection Hs as <-. injection Hm as <-. lia.
Qed.

(** ** Properties of the basic statistics *)

(** C4, as the code has it. [calcular_estadisticos_basicos([])] is the
    empty report, and on [[5.0]] the report has mean, median, minimum,
    maximum and both quartiles equal to 5.0 and standard deviation,
    variance and range equal to 0; these nine entries are all it has, so
    the interquartile range is the difference of its quartiles, 0, and
    not an entry. *)
Theorem estadisticos_basicos_vacio_y_unitario :
  calcular_estadisticos_basicos [] = Ok [] /\
  calcular_estadisticos_basicos [cinco] = Ok reporte_unitario /\
  F64.sub cinco cinco = F64.cero /\
  dict_get reporte_unitario "rango_intercuartil" = None.
Proof. repeat split; vm_compute; reflexivity. Qed.

(** C4 as written fails on the interquartile range: no entry of the
    report of [[5.0]] other than the standard deviation, the variance and
    the range holds 0, under [rango_intercuartil] or any other name. *)
Lemma estadisticos_basicos_sin_iqr :
  ~ (exists (r : reporte) (iqr : string),
       calcular_estadisticos_basicos [cinco] = Ok r /\
       iqr <> "desviacion_estandar" /\ iqr <> "varianza" /\
       iqr <> "rango" /\
       dict_get r iqr = Some (VFloat F64.cero)).
Proof.
  intros (r & iqr & Hr & Hd & Hv & Hg & Hi).
  assert (Hu : calcular_estadisticos_basicos [cinco] = Ok reporte_unitario)
    by (vm_compute; reflexivity).
  rewrite Hu in Hr. injection Hr as <-.
  assert (Hc : cinco <> F64.cero) by (vm_compute; discriminate).
  unfold reporte_unitario in Hi. cbn [dict_get] in Hi.
  repeat match type of Hi with
         | (if String.eqb ?k iqr then _ else _) = _ =>
             destruct (String.eqb_spec k iqr) as [<-|_]; [congruence|]
         end.
  congruence.
Qed.

(** ** The statistics engine raises only where stated *)

Lemma contar_no_vacio contador x : contar contador x <> [].
Proof.
  destruct contador as [|[k c] resto]; simpl; [discriminate|].
  destruct (F64.eqb k x); discriminate.
Qed.

Lemma Counter_no_vacio numeros : numeros <> [] -> Counter numeros <> [].
Proof.
  unfold Counter.
  assert (H : forall l c, c <> [] -> fold_left contar l c <> []).
  { induction l as [|x l IH]; intros c Hc; simpl; [assumption|].
    apply IH, contar_no_vacio. }
  destruct numeros as [|x l]; [congruence|]. intros _. simpl.
  apply H. discriminate.
Qed.

Lemma calcular_moda_retorna numeros :
  numeros <> [] -> retorna (calcular_moda numeros).
Proof.
  intros Hn. unfold calcular_moda.
  pose proof (Counter_no_vacio numeros Hn) as Hc.
  destruct (Counter numeros) as [|[k c] resto]; [congruence|].
  eexists. reflexivity.
Qed.

Lemma calcular_moda_vacia : calcular_moda [] = Lanza ValueError.
Proof. reflexivity. Qed.

Lemma mbind_Ok {A B : Type} (a : A) (k : A -> resultado B) :
  (Ok a ≫= k) = k a.
Proof. reflexivity. Qed.

Lemma min_retorna a : a <> [] -> retorna (Np.min a).
Proof. destruct a; [congruence|]. intros _. eexists. reflexivity. Qed.

Lemma max_retorna a : a <> [] -> retorna (Np.max a).
Proof. destruct a; [congruence|]. intros _. eexists. reflexivity. Qed.

Lemma percentile_retorna a q : a <> [] -> retorna (Np.percentile a q).
Proof.
  destruct a as [|x l]; [congruence|]. intros _. unfold Np.percentile.
  destruct (existsb F64.es_nan (x :: l)); [eexists; reflexivity|].
  cbv zeta.
  match goal with
  | |- retorna (let '(_, _) := ?c in _) => destruct c as [previo siguiente]
  end.
  eexists. reflexivity.
Qed.


Lemma minimum_elige x y : Np.minimum x y = x \/ Np.minimum x y = y.
Proof.
  unfold Np.minimum.
  destruct (F64.es_nan x), (F64.es_nan y), (F64.ltb y x); auto.
Qed.

Lemma maximum_elige x y : Np.maximum x y = x \/ Np.maximum x y = y.
Proof.
  unfold Np.maximum.
  destruct (F64.es_nan x), (F64.es_nan y), (F64.ltb x y); auto.
Qed.

Lemma fold_elige (f : float -> float -> float) (P : float -> Prop) :
  (forall x y, f x y = x \/ f x y = y) ->
  forall l x, P x -> Forall P l -> P (fold_left f l x).
Proof.
  intros Hf. induction l as [|y l IH]; intros x Hx Hl; simpl; [assumption|].
  inversion Hl; subst. apply IH; [|assumption].
  destruct (Hf x y) as [-> | ->]; assumption.
Qed.

Lemma length_linspace start stop num :
  length (Np.linspace start stop num) = S (num - 1).
Proof.
  unfold Np.linspace. rewrite length_app, length_map, length_seq. simpl. lia.
Qed.

(** *** A value that is not finite *)

Lemma fold_absorbente (f : float -> float -> float) (z : float)
  (P : float -> Prop) :
  P z ->
  (forall y, P y -> f z y = z) -> (forall y, P y -> f y z = z) ->
  (forall x y, P x -> P y -> P (f x y)) ->
  forall l x, P x -> Forall P l -> z ∈ x :: l -> fold_left f l x = z.
Proof.
  intros Pz Hl Hr Hc. induction l as [|y l IH]; intros x Px Pl Hin.
  - apply list_elem_of_singleton in Hin. subst. reflexivity.
  - inversion Pl as [|? ? Py Pl']; subst. cbn [fold_left].
    apply elem_of_cons in Hin as [->|Hin].
    + rewrite Hl by assumption. apply IH; [assumption.. | apply list_elem_of_here].
    + apply elem_of_cons in Hin as [->|Hin].
      * rewrite Hr by assumption.
        apply IH; [assumption.. | apply list_elem_of_here].
      * apply IH; [apply Hc; assumption | assumption |
                   apply list_elem_of_further, Hin].
Qed.

Lemma fold_minimum_nan l x :
  Np.nan ∈ x :: l -> fold_left Np.minimum l x = Np.nan.
Proof.
  apply (fold_absorbente Np.minimum Np.nan (fun _ => True)); auto.
  - intros y _. destruct y; reflexivity.
  - apply Forall_forall. auto.
Qed.

Lemma maximum_no_nan x y : no_nan x -> no_nan y -> no_nan (Np.maximum x y).
Proof. destruct (maximum_elige x y) as [-> | ->]; auto. Qed.

Lemma minimum_no_nan x y : no_nan x -> no_nan y -> no_nan (Np.minimum x y).
Proof. destruct (minimum_elige x y) as [-> | ->]; auto. Qed.

Lemma fold_maximum_inf l x :
  Forall no_nan (x :: l) -> S754_infinity false ∈ x :: l ->
  fold_left Np.maximum l x = S754_infinity false.
Proof.
  intros Hn. inversion Hn; subst.
  apply (fold_absorbente Np.maximum (S754_infinity false) no_nan);
    try assumption; try reflexivity.
  - intros y Hy. destruct y as [s|s| |s m e]; try destruct s;
      (reflexivity || discriminate Hy).
  - intros y Hy. destruct y as [s|s| |s m e]; try destruct s;
      (reflexivity || discriminate Hy).
  - apply maximum_no_nan.
Qed.

Lemma fold_minimum_inf l x :
  Forall no_nan (x :: l) -> S754_infinity true ∈ x :: l ->
  fold_left Np.minimum l x = S754_infinity true.
Proof.
  intros Hn. inversion Hn; subst.
  apply (fold_absorbente Np.minimum (S754_infinity true) no_nan);
    try assumption; try reflexivity.
  - intros y Hy. destruct y as [s|s| |s m e]; try destruct s;
      (reflexivity || discriminate Hy).
  - intros y Hy. destruct y as [s|s| |s m e]; try destruct s;
      (reflexivity || discriminate Hy).
  - apply minimum_no_nan.
Qed.

Lemma outer_edges_lanza a :
  Exists (fun x => F64.es_finito x = false) a ->
  Np.outer_edges a = Lanza ValueError.
Proof.
  intros He. destruct a as [|x l]; [inversion He|].
  unfold Np.outer_edges, Np.min, Np.max. rewrite !mbind_Ok.
  assert (H : F64.es_finito (fold_left Np.minimum l x)
              && F64.es_finito (fold_left Np.maximum l x) = false).
  { destruct (existsb F64.es_nan (x :: l)) eqn:En.
    - apply existsb_exists in En as (y & Hy & Hnan).
      destruct y; try discriminate Hnan.
      rewrite fold_minimum_nan by (apply list_elem_of_In; exact Hy).
      reflexivity.
    - assert (Hnn : Forall no_nan (x :: l)).
      { apply Forall_forall. intros y Hy. unfold no_nan.
        destruct (F64.es_nan y) eqn:E; [|reflexivity].
        assert (existsb F64.es_nan (x :: l) = true)
          by (apply existsb_exists; exists y; split;
              [apply list_elem_of_In; exact Hy | exact E]).
        congruence. }
      apply Exists_exists in He as (y & Hy & Hf).
      destruct y as [s|s| |s m e]; try discriminate Hf.
      + destruct s.
        * rewrite fold_minimum_inf by assumption. reflexivity.
        * rewrite (fold_maximum_inf l x) by assumption.
          apply andb_false_r.
      + rewrite Forall_forall in Hnn. specialize (Hnn _ Hy). discriminate. }
  rewrite H. reflexivity.
Qed.

Lemma histogram_lanza a bins :
  a <> [] -> bins < 1 \/ Exists (fun x => F64.es_finito x = false) a ->
  Np.histogram a bins = Lanza ValueError.
Proof.
  intros Ha [Hb|He]; unfold Np.histogram.
  - destruct (Z.ltb_spec bins 1); [reflexivity | lia].
  - destruct (bins <? 1); [reflexivity|].
    rewrite outer_edges_lanza by assumption. reflexivity.
Qed.

(** *** The pairwise sum *)

Lemma pairwise_sum_combustible : forall c c' a,
  (length a <= c)%nat -> (length a <= c')%nat ->
  Np.pairwise_sum c a = Np.pairwise_sum c' a.
Proof.
  induction c as [|c IH]; intros c' a Hc Hc'.
  - destruct a; [|simpl in Hc; lia]. destruct c'; reflexivity.
  - destruct c' as [|c'].
    + destruct a; [reflexivity | simpl in Hc'; lia].
    + cbn [Np.pairwise_sum].
      destruct (Nat.ltb_spec (length a) 8); [reflexivity|].
      destruct (Nat.leb_spec (length a) 128); [reflexivity|].
      cbv zeta.
      set (n2 := (length a / 2 - (length a / 2) mod 8)%nat).
      assert (Hn2 : (57 <= n2 <= length a / 2)%nat).
      { subst n2.
        pose proof (Nat.mod_upper_bound (length a / 2) 8 ltac:(lia)).
        assert (64 <= length a / 2)%nat
          by (apply Nat.div_le_lower_bound; lia).
        lia. }
      assert (Hm : (length a / 2 < length a)%nat)
        by (apply Nat.div_lt; lia).
      rewrite (IH c' (firstn n2 a)), (IH c' (skipn n2 a));
        rewrite ?length_firstn, ?length_skipn; try lia.
      reflexivity.
Qed.

(** *** Constant sequences *)




















(** ** The statistical tests without their optional packages *)

(** C6, evaluated on the code. Without scipy, [prueba_uniformidad] and
    [prueba_bondad_ajuste] raise [ImportError]: their import stands
    before the [try], so the handler that builds the "unavailable"
    result is never reached. [prueba_aleatoriedad], whose imports stand
    inside the [try], returns the error field and the interpretation
    when statsmodels is missing. *)
Theorem pruebas_sin_paquete_opcional
  (formato : nat -> float -> string)
  (kstest_uniform : list float -> resultado (float * float))
  (chisquare : list Z -> list Z -> resultado (float * float))
  (shapiro : list float -> resultado (float * float))
  (norm_cdf : float -> float)
  (disponible : bool) (numeros : list float) (alpha : float)
  (distribucion : string) :
  prueba_uniformidad formato kstest_uniform (sin_scipy disponible)
    numeros alpha = Lanza ImportError /\
  prueba_bondad_ajuste formato chisquare shapiro (sin_scipy disponible)
    numeros distribucion = Lanza ImportError /\
  prueba_aleatoriedad formato norm_cdf (sin_statsmodels disponible) numeros =
    Ok ([("error", VStr "Statsmodels no disponible para prueba de rachas");
         ("interpretacion", VStr "No se pudo realizar la prueba de aleatoriedad")]).
Proof. repeat split. Qed.

(** ** Serial correlation *)

Lemma py_bound_no_negativo {A : Type} (l : list A) (i : Z) :
  0 <= i <= Z.of_nat (length l) -> py_bound l i = Z.to_nat i.
Proof.
  intros H. unfold py_bound. destruct (Z.ltb_spec i 0); lia.
Qed.

Lemma py_bound_negativo {A : Type} (l : list A) (i : Z) :
  - Z.of_nat (length l) <= i < 0 ->
  py_bound l i = Z.to_nat (Z.of_nat (length l) + i).
Proof.
  intros H. unfold py_bound. destruct (Z.ltb_spec i 0); lia.
Qed.

(** For a lag [0 < k < n] the two windows are [seq[0:n-k]] and
    [seq[k:n]], and the result is their coefficient; for [n <= k] it is
    0.0. *)
Lemma correlacion_serial_ventanas pearson (numeros : list float) (lag : Z) :
  let n := length numeros in
  (0 < lag < Z.of_nat n ->
   correlacion_serial pearson numeros lag =
     Ok (pearson (firstn (n - Z.to_nat lag) numeros)
                 (skipn (Z.to_nat lag) numeros))) /\
  (Z.of_nat n <= lag -> correlacion_serial pearson numeros lag = Ok F64.cero).
Proof.
  intros n. unfold correlacion_serial. fold n. split; intros H.
  - destruct (Z.leb_spec (Z.of_nat n) lag); [lia|].
    unfold slice_hasta, slice_desde, corrcoef_01.
    rewrite py_bound_negativo, py_bound_no_negativo by (fold n; lia).
    fold n. replace (Z.to_nat (Z.of_nat n + - lag)) with (n - Z.to_nat lag)%nat
      by lia.
    rewrite length_take, length_drop. fold n.
    replace ((n - Z.to_nat lag) `min` n)%nat with (n - Z.to_nat lag)%nat by lia.
    rewrite Nat.eqb_refl. reflexivity.
  - destruct (Z.leb_spec (Z.of_nat n) lag); [reflexivity|lia].
Qed.

(** C9, evaluated on the code. With lag 0 the slice [numeros[:-0]] is
    [numeros[:0]], the empty list, and not the whole sequence; the second
    window is the whole sequence, and [np.corrcoef] raises [ValueError]
    on rows of different lengths. *)
Theorem correlacion_serial_lag_cero
  (pearson : list float -> list float -> float) :
  slice_hasta uno_dos_tres (- 0) = [] /\
  slice_desde uno_dos_tres 0 = uno_dos_tres /\
  correlacion_serial pearson uno_dos_tres 0 = Lanza ValueError.
Proof. repeat split. Qed.

Lemma lag_cero_siempre_lanza pearson (numeros : list float) :
  numeros <> [] -> correlacion_serial pearson numeros 0 = Lanza ValueError.
Proof.
  intros Hn. destruct numeros as [|x l]; [congruence|]. reflexivity.
Qed.

(** ** The runs test *)

Lemma bucle_rachas_cons x y resto rachas :
  bucle_rachas (x :: y :: resto) rachas =
    bucle_rachas (y :: resto) (if y =? x then rachas else rachas + 1).
Proof. reflexivity. Qed.

Lemma bucle_rachas_alterna secuencia : forall rachas,
  secuencia <> [] -> alterna secuencia ->
  bucle_rachas secuencia rachas = rachas + Z.of_nat (length secuencia) - 1.
Proof.
  induction secuencia as [|x [|y resto] IH]; intros rachas Hn Ha.
  - congruence.
  - simpl. lia.
  - destruct Ha as [Hxy Ha]. rewrite bucle_rachas_cons.
    destruct (Z.eqb_spec y x); [contradiction|].
    rewrite IH by (assumption || discriminate). cbn [length]. lia.
Qed.

(** The run count of a non-empty sequence whose sign sequence alternates
    is its length. *)
Lemma rachas_de_alternante (numeros : list float) :
  numeros <> [] -> alterna (signos numeros) ->
  bucle_rachas (signos numeros) 1 = Z.of_nat (length numeros).
Proof.
  intros Hn Ha. rewrite bucle_rachas_alterna.
  - unfold signos. rewrite length_map. lia.
  - unfold signos. destruct numeros; [congruence | discriminate].
  - assumption.
Qed.

(** C10, evaluated on the code. On a sequence of one element, whose sign
    sequence alternates vacuously and has one run, the variance of the
    run count divides by [(n1 + n2)**2 * (n1 + n2 - 1) = 0]: the test
    raises [ZeroDivisionError] and reports no run count. *)
Theorem rachas_de_un_elemento
  (formato : nat -> float -> string) (norm_cdf : float -> float) (x : float) :
  alterna (signos [x]) /\
  bucle_rachas (signos [x]) 1 = 1 /\
  prueba_aleatoriedad formato norm_cdf todo_disponible [x] =
    Lanza ZeroDivisionError.
Proof.
  split; [exact I|]. split; [reflexivity|].
  unfold prueba_aleatoriedad, signos. cbn [map].
  destruct (F64.gtb x (Np.median [x])); vm_compute; reflexivity.
Qed.

(** On [[0.9, 0.1, 0.9, 0.1]] the test returns, with four runs. *)
Lemma rachas_de_cuatro
  (formato : nat -> float -> string) (norm_cdf : float -> float) :
  signos alternante = [1; 0; 1; 0] /\
  exists r : reporte,
    prueba_aleatoriedad formato norm_cdf todo_disponible alternante = Ok r /\
    dict_get r "numero_rachas" = Some (VInt 4).
Proof.
  assert (Hs : signos alternante = [1; 0; 1; 0]) by (vm_compute; reflexivity).
  assert (Hz : retorna (estadistico_rachas 4 2 2))
    by (eexists; vm_compute; reflexivity).
  destruct Hz as [z Hz].
  split; [assumption|].
  unfold prueba_aleatoriedad. rewrite Hs. cbn [todo_disponible
    statsmodels_disponible scipy_disponible importar]. rewrite mbind_Ok.
  change (bucle_rachas [1; 0; 1; 0] 1) with 4.
  change (suma [1; 0; 1; 0]) with 2.
  change (Z.of_nat (length [1; 0; 1; 0]) - 2) with 2.
  cbv zeta. rewrite Hz, !mbind_Ok.
  eexists. split; reflexivity.
Qed.

Lemma cota_media B n1 n2 :
  0 <= n1 -> 0 <= n2 -> 2 <= n1 + n2 < B ->
  0 <= 2 * n1 * n2 < B * (n1 + n2).
Proof. intros H1 H2 Hn. nia. Qed.

Lemma cota_varianza_aux B n p :
  2 <= n < B -> 0 <= p -> 4 * p <= n * n -> p = 0 \/ n <= 2 * p ->
  0 <= 2 * p * (2 * p - n) /\
  0 < n * n * (n - 1) /\
  2 * p * (2 * p - n) < B * (n * n * (n - 1)).
Proof.
  intros Hn Hp Hpq Hpn.
  assert (Hq : 4 <= n * n) by nia.
  assert (Ht : 0 < n * n * (n - 1)) by nia.
  split; [|split; [assumption|]].
  - destruct Hpn as [->|Hpn]; [lia|]. apply Z.mul_nonneg_nonneg; lia.
  - assert (HA : 2 * p * (2 * p - n) <= 4 * (p * p)) by nia.
    assert (HB : 16 * (p * p) <= (n * n) * (n * n)) by nia.
    assert (HC : n * n <= 2 * (n * (n - 1))) by nia.
    assert (HD : (n * n) * (n * n) <= 2 * (n * (n * n * (n - 1)))) by nia.
    assert (HE : n * (n * n * (n - 1)) < B * (n * n * (n - 1))).
    { apply Z.mul_lt_mono_pos_r; lia. }
    lia.
Qed.

Lemma cota_varianza B n1 n2 :
  0 <= n1 -> 0 <= n2 -> 2 <= n1 + n2 < B ->
  let x := 2 * n1 * n2 * (2 * n1 * n2 - n1 - n2) in
  let y := (n1 + n2) ^ 2 * (n1 + n2 - 1) in
  0 <= x /\ 0 < y /\ x < B * y.
Proof.
  intros H1 H2 Hn x y.
  assert (Hx : x = 2 * (n1 * n2) * (2 * (n1 * n2) - (n1 + n2)))
    by (unfold x; ring).
  assert (Hy : y = (n1 + n2) * (n1 + n2) * (n1 + n2 - 1))
    by (unfold y; ring).
  rewrite Hx, Hy. apply cota_varianza_aux; [assumption | nia | |].
  { pose proof (Z.square_nonneg (n1 - n2)). nia. }
  destruct (Z.eq_dec n1 0) as [->|]; [left; lia|].
  destruct (Z.eq_dec n2 0) as [->|]; [left; lia|].
  right. assert (0 <= (n1 - 1) * (n2 - 1)) by nia. nia.
Qed.

(** The statistic of the runs test is defined from two values on, for
    any counts of ones and zeros. *)
Lemma estadistico_rachas_retorna rachas n1 n2 :
  0 <= n1 -> 0 <= n2 -> 2 <= n1 + n2 < 2 ^ 1000 ->
  retorna (estadistico_rachas rachas n1 n2).
Proof.
  intros H1 H2 Hn. unfold estadistico_rachas.
  pose proof (cota_media _ n1 n2 H1 H2 Hn) as [Hm0 Hm1].
  pose proof (cota_varianza _ n1 n2 H1 H2 Hn) as (Hx & Hy & Hxy).
  cbv zeta in Hx, Hy, Hxy.
  assert (Hn0 : 0 < n1 + n2) by (destruct Hn as [Hn _]; clear - Hn; lia).
  assert (Hq : retorna (py_truediv (2 * n1 * n2) (n1 + n2))).
  { unfold py_truediv. destruct (Z.eqb_spec (n1 + n2) 0) as [E|_].
    - exfalso. clear - E Hn0. lia.
    - destruct (cociente_no_negativo _ _ Hm0 Hn0 Hm1)
        as [->|(m & e & -> & _)]; eexists; reflexivity. }
  destruct Hq as [q ->]. rewrite mbind_Ok. cbv zeta.
  unfold py_truediv.
  destruct (Z.eqb_spec ((n1 + n2) ^ 2 * (n1 + n2 - 1)) 0) as [E|_].
  { exfalso. clear - E Hy. lia. }
  destruct (cociente_no_negativo _ _ Hx Hy Hxy) as [->|(m & e & -> & He)].
  - eexists. reflexivity.
  - cbn [F64.es_finito]. rewrite mbind_Ok.
    change (F64.eqb (S754_finite false m e) F64.cero) with false. cbv iota.
    unfold math_sqrt.
    change (F64.ltb (S754_finite false m e) F64.cero) with false. cbv iota.
    rewrite mbind_Ok. unfold py_fdiv. rewrite sqrt_no_cero by assumption.
    eexists. reflexivity.
Qed.

Lemma suma_signos_cota (numeros : list float) :
  0 <= suma (signos numeros) <= Z.of_nat (length numeros).
Proof.
  unfold suma, signos.
  generalize (Np.median numeros). intros mediana.
  assert (H : forall l acc,
             acc <= fold_left Z.add
                      (map (fun x => if F64.gtb x mediana then 1 else 0) l) acc
                 <= acc + Z.of_nat (length l)).
  { induction l as [|x l IH]; intros acc; simpl; [lia|].
    specialize (IH (acc + (if F64.gtb x mediana then 1 else 0))).
    destruct (F64.gtb x mediana); lia. }
  specialize (H numeros 0). lia.
Qed.

(** From two values on the runs test returns its report, and on a
    sequence whose sign sequence alternates the reported run count is
    the length of the sequence. *)
Lemma rachas_de_alternante_reportadas
  (formato : nat -> float -> string) (norm_cdf : float -> float)
  (numeros : list float) :
  2 <= Z.of_nat (length numeros) < 2 ^ 1000 ->
  alterna (signos numeros) ->
  exists r : reporte,
    prueba_aleatoriedad formato norm_cdf todo_disponible numeros = Ok r /\
    dict_get r "numero_rachas" = Some (VInt (Z.of_nat (length numeros))).
Proof.
  intros Hn Ha. unfold prueba_aleatoriedad.
  cbn [todo_disponible statsmodels_disponible scipy_disponible importar].
  rewrite mbind_Ok. cbv zeta.
  pose proof (suma_signos_cota numeros) as Hs.
  assert (Hl : length (signos numeros) = length numeros)
    by (unfold signos; apply length_map).
  destruct (estadistico_rachas_retorna
              (bucle_rachas (signos numeros) 1) (suma (signos numeros))
              (Z.of_nat (length (signos numeros)) - suma (signos numeros)))
    as [z Hz]; [lia | rewrite Hl; lia | rewrite Hl; lia |].
  rewrite Hz, !mbind_Ok.
  rewrite rachas_de_alternante
    by (assumption || (destruct numeros; [simpl in Hn; lia | discriminate])).
  eexists. split; reflexivity.
Qed.

(** * Part IV: further properties of the code *)

(** ** The loop of the generators, further *)

Section BucleMas.

Variable f : Z -> Z.
Variable m : Z.

Lemma repetir_paso_congruente k x y numeros :
  f x mod m = f y mod m ->
  (st ← repetir k (paso f m) (x, numeros); Ok (snd st)) =
  (st ← repetir k (paso f m) (y, numeros); Ok (snd st)).
Proof.
  intros H. destruct k as [|k]; [reflexivity|].
  simpl. unfold py_mod. destruct (m =? 0); [reflexivity|].
  rewrite H. reflexivity.
Qed.

Lemma estados_suma j k x :
  estados f m (j + k) x =
    estados f m j x ++ estados f m k (estado_final f m j x).
Proof.
  revert x. induction j as [|j IH]; intros x; simpl; [reflexivity|].
  rewrite IH. reflexivity.
Qed.

Lemma estados_prefijo j k x :
  (j <= k)%nat -> estados f m j x = firstn j (estados f m k x).
Proof.
  intros H. replace k with (j + (k - j))%nat by lia.
  rewrite estados_suma, take_app_length'; [reflexivity|].
  symmetry. apply length_estados.
Qed.

Lemma estado_final_suma j k x :
  estado_final f m (j + k) x = estado_final f m k (estado_final f m j x).
Proof.
  revert x. induction j as [|j IH]; intros x; simpl; [reflexivity|].
  apply IH.
Qed.

Lemma estados_lookup k t x :
  (t < k)%nat -> estados f m k x !! t = Some (estado_final f m (S t) x).
Proof.
  revert t x. induction k as [|k IH]; intros t x Ht; [lia|].
  destruct t as [|t]; simpl; [reflexivity|].
  apply IH. lia.
Qed.

End BucleMas.

Lemma repetir_paso_ext f g m k st :
  (forall x, f x = g x) ->
  repetir k (paso f m) st = repetir k (paso g m) st.
Proof.
  intros H. revert st. induction k as [|k IH]; intros [x numeros];
    [reflexivity|].
  simpl. rewrite H. destruct (py_mod (g x) m) as [x'|e]; [|reflexivity].
  simpl. destruct (py_truediv x' m) as [q|e]; [|reflexivity].
  simpl. apply IH.
Qed.

Lemma bucle_congruente f m n x y :
  f x mod m = f y mod m -> bucle f x m n = bucle f y m n.
Proof.
  intros H. unfold bucle, for_range.
  apply repetir_paso_congruente, H.
Qed.

Lemma bucle_ext f g semilla m n :
  (forall x, f x = g x) -> bucle f semilla m n = bucle g semilla m n.
Proof.
  intros H. unfold bucle, for_range.
  rewrite (repetir_paso_ext f g) by assumption. reflexivity.
Qed.

Lemma bucle_salida f semilla m n :
  m <> 0 ->
  bucle f semilla m n =
    Ok (map (fun z => F64.cociente z m) (estados f m (Z.to_nat n) semilla)).
Proof.
  intros Hm. unfold bucle, for_range. rewrite repetir_paso by assumption.
  reflexivity.
Qed.

Lemma bucle_modulo_cero f semilla n l :
  bucle f semilla 0 n = Ok l -> n <= 0 /\ l = [].
Proof.
  intros H. destruct (Z_le_gt_dec n 0) as [Hn|Hn].
  - split; [assumption|]. unfold bucle, for_range in H.
    replace (Z.to_nat n) with O in H by lia. simpl in H. congruence.
  - unfold bucle in H. rewrite bucle_lanza in H by lia. discriminate.
Qed.

(** X1. The output of each generator depends on the seed only through
    its residue modulo [m]: shifting the seed by a multiple of the modulus
    changes nothing, neither the numbers nor the exception. *)
Theorem semilla_modulo semilla k a b c m n :
  congruencial_lineal (semilla + k * m) a c m n =
    congruencial_lineal semilla a c m n /\
  congruencial_multiplicativo (semilla + k * m) a m n =
    congruencial_multiplicativo semilla a m n /\
  congruencial_cuadratico (semilla + k * m) a b c m n =
    congruencial_cuadratico semilla a b c m n.
Proof.
  rewrite !lineal_es_bucle, !multiplicativo_es_bucle, !cuadratico_es_bucle.
  destruct (Z.eq_dec m 0) as [->|Hm].
  { rewrite Z.mul_0_r, Z.add_0_r. auto. }
  repeat split; apply bucle_congruente.
  - replace (a * (semilla + k * m) + c) with (a * semilla + c + a * k * m)
      by ring.
    apply Z.mod_add, Hm.
  - replace (a * (semilla + k * m)) with (a * semilla + a * k * m) by ring.
    apply Z.mod_add, Hm.
  - replace (a * (semilla + k * m) ^ 2 + b * (semilla + k * m) + c)
      with (a * semilla ^ 2 + b * semilla + c
            + (a * (2 * semilla * k + k * k * m) + b * k) * m) by ring.
    apply Z.mod_add, Hm.
Qed.

Lemma bucle_prefijo f semilla m n k l :
  0 <= k <= n ->
  bucle f semilla m n = Ok l ->
  bucle f semilla m k = Ok (firstn (Z.to_nat k) l).
Proof.
  intros Hk H. destruct (Z.eq_dec m 0) as [->|Hm].
  - apply bucle_modulo_cero in H as [Hn ->].
    replace k with 0 by lia. reflexivity.
  - rewrite bucle_salida in * by assumption. injection H as <-.
    rewrite firstn_map, <- estados_prefijo by lia. reflexivity.
Qed.

(** X2. Asking a generator for fewer numbers gives a prefix: when a run
    of [n] numbers returns [l], the run of [k <= n] numbers with the same
    parameters returns the first [k] elements of [l]. *)
Theorem generadores_prefijo semilla a b c m n k :
  0 <= k <= n ->
  (forall l, congruencial_lineal semilla a c m n = Ok l ->
     congruencial_lineal semilla a c m k = Ok (firstn (Z.to_nat k) l)) /\
  (forall l, congruencial_multiplicativo semilla a m n = Ok l ->
     congruencial_multiplicativo semilla a m k = Ok (firstn (Z.to_nat k) l)) /\
  (forall l, congruencial_cuadratico semilla a b c m n = Ok l ->
     congruencial_cuadratico semilla a b c m k =
       Ok (firstn (Z.to_nat k) l)).
Proof.
  intros Hk.
  rewrite !lineal_es_bucle, !multiplicativo_es_bucle, !cuadratico_es_bucle.
  repeat split; intros l; apply bucle_prefijo; assumption.
Qed.

(** ** The period *)

Lemma repetido_indices (l : list Z) :
  ~ NoDup l ->
  exists (i j : nat) (x : Z), (i < j)%nat /\ l !! i = Some x /\ l !! j = Some x.
Proof.
  induction l as [|x l IH]; intros H.
  - destruct H. constructor.
  - destruct (decide (x ∈ l)) as [Hin|Hnin].
    + apply list_elem_of_lookup_1 in Hin as [j Hj].
      exists O, (S j), x. split; [lia|]. split; [reflexivity | exact Hj].
    + destruct IH as (i & j & y & Hij & Hi & Hj).
      { intros Hnd. apply H. apply NoDup_cons_2; assumption. }
      exists (S i), (S j), y. split; [lia|]. split; assumption.
Qed.

Lemma palomar (l : list Z) (m : Z) :
  Forall (fun z => 0 <= z < m) l -> (Z.to_nat m < length l)%nat ->
  exists (i j : nat) (x : Z), (i < j)%nat /\ l !! i = Some x /\ l !! j = Some x.
Proof.
  intros Hr Hlen. apply repetido_indices. intros Hnd.
  assert (Hsub : l ⊆+ seqZ 0 m).
  { apply NoDup_submseteq; [assumption|]. intros x Hx.
    rewrite Forall_forall in Hr. apply elem_of_seqZ.
    specialize (Hr x Hx). lia. }
  apply submseteq_length in Hsub. rewrite length_seqZ in Hsub. lia.
Qed.

Section Periodo.

Variable f : Z -> Z.
Variable m : Z.

Lemma estado_final_periodo x i p t :
  estado_final f m (i + p) x = estado_final f m i x ->
  (i <= t)%nat ->
  estado_final f m (t + p) x = estado_final f m t x.
Proof.
  intros H Ht.
  replace (t + p)%nat with ((i + p) + (t - i))%nat by lia.
  replace t with (i + (t - i))%nat at 2 by lia.
  rewrite (estado_final_suma f m (i + p) (t - i)).
  rewrite (estado_final_suma f m i (t - i)), H. reflexivity.
Qed.

Lemma estados_periodo x :
  0 < m ->
  exists i p : nat,
    (1 <= i)%nat /\ (1 <= p)%nat /\ (i + p <= Z.to_nat m + 1)%nat /\
    estado_final f m (i + p) x = estado_final f m i x.
Proof.
  intros Hm.
  destruct (palomar (estados f m (S (Z.to_nat m)) x) m)
    as (i & j & y & Hij & Hi & Hj).
  { apply estados_en_rango, Hm. }
  { rewrite length_estados. lia. }
  assert (Hjm : (j < S (Z.to_nat m))%nat).
  { apply lookup_lt_Some in Hj. rewrite length_estados in Hj. exact Hj. }
  rewrite estados_lookup in Hi, Hj by lia.
  exists (S i), (j - i)%nat. split; [lia|]. split; [lia|]. split; [lia|].
  replace (S i + (j - i))%nat with (S j) by lia. congruence.
Qed.

End Periodo.

Lemma lookup_map {A B : Type} (g : A -> B) (l : list A) (i : nat) :
  map g l !! i = g <$> l !! i.
Proof. exact (list_lookup_fmap g l i). Qed.

Lemma bucle_periodico f semilla m :
  0 < m ->
  exists i p : nat,
    (1 <= p)%nat /\ (i + p <= Z.to_nat m)%nat /\
    forall n l, bucle f semilla m n = Ok l ->
    forall t, (i <= t)%nat -> (t + p < length l)%nat ->
      l !! (t + p)%nat = l !! t.
Proof.
  intros Hm.
  destruct (estados_periodo f m semilla Hm) as (i & p & Hi & Hp & Hip & H).
  exists (i - 1)%nat, p. split; [assumption|]. split; [lia|].
  intros n l Hl t Ht Htp.
  rewrite bucle_salida in Hl by lia. injection Hl as <-.
  rewrite length_map, length_estados in Htp.
  rewrite !lookup_map.
  rewrite !estados_lookup by lia.
  do 2 f_equal.
  change (S (t + p)) with (S t + p)%nat.
  apply (estado_final_periodo f m semilla i p); [assumption | lia].
Qed.

(** X3. With a positive modulus the output of each generator is
    ultimately periodic, and the start of the cycle plus its period is at
    most [m]: there are [i] and [p >= 1] with [i + p <= m] such that every
    returned list has [l[t + p] = l[t]] from index [i] on. *)
Theorem generadores_periodicos semilla a b c m :
  0 < m ->
  ultimamente_periodico m (congruencial_lineal semilla a c m) /\
  ultimamente_periodico m (congruencial_multiplicativo semilla a m) /\
  ultimamente_periodico m (congruencial_cuadratico semilla a b c m).
Proof.
  intros Hm. repeat split.
  - exact (bucle_periodico (fun x => a * x + c) semilla m Hm).
  - exact (bucle_periodico (fun x => a * x) semilla m Hm).
  - exact (bucle_periodico (fun x => a * x ^ 2 + b * x + c) semilla m Hm).
Qed.

Lemma generadores_periodicos_testigo :
  ultimamente_periodico 16 (congruencial_lineal 1 5 3 16) /\
  ultimamente_periodico 16 (congruencial_multiplicativo 1 5 16) /\
  ultimamente_periodico 16 (congruencial_cuadratico 1 5 7 3 16).
Proof. apply (generadores_periodicos 1 5 7 3 16). lia. Defined.

Lemma cociente_cero m : 0 < m -> F64.cociente 0 m = F64.cero.
Proof.
  intros Hm. unfold F64.cociente, SFdiv_core_binary.
  destruct (Z.ltb_spec m 0); [lia|].
  change (Z.abs 0) with 0. change (Zdigits2 0) with 0.
  match goal with
  | |- context [match ?s with
                | 0 => 0
                | Z.pos _ => Z.shiftl 0 ?s'
                | Z.neg _ => 0
                end] =>
      replace (match s with
               | 0 => 0
               | Z.pos _ => Z.shiftl 0 s'
               | Z.neg _ => 0
               end)
        with 0
        by (destruct s;
            [reflexivity | symmetry; apply Z.shiftl_0_l | reflexivity])
  end.
  cbn [Z.div_eucl]. rewrite new_location_cero.
  apply binary_round_aux_cero_exacto.
Qed.

Lemma estados_nulos a m k :
  estados (fun x => a * x) m k 0 = replicate k 0.
Proof.
  induction k as [|k IH]; simpl; [reflexivity|].
  rewrite Z.mul_0_r, Zmod_0_l, IH. reflexivity.
Qed.

(** X4. A seed that is a multiple of the positive modulus makes the
    multiplicative generator, and [lehmer_generator] with it, return
    [0.0] only. *)
Theorem multiplicativo_semilla_nula k a m n :
  0 < m ->
  congruencial_multiplicativo (k * m) a m n =
    Ok (replicate (Z.to_nat n) F64.cero) /\
  lehmer_generator (k * m) a m n = Ok (replicate (Z.to_nat n) F64.cero).
Proof.
  intros Hm. unfold lehmer_generator.
  assert (H : congruencial_multiplicativo (k * m) a m n =
              Ok (replicate (Z.to_nat n) F64.cero)); [|split; exact H].
  rewrite multiplicativo_es_bucle.
  change (bucle (fun x => a * x) (k * m) m n
          = Ok (replicate (Z.to_nat n) F64.cero)).
  rewrite (bucle_congruente _ m n (k * m) 0).
  - rewrite bucle_salida by lia. rewrite estados_nulos.
    f_equal. induction (Z.to_nat n) as [|j IH]; simpl; [reflexivity|].
    rewrite cociente_cero by assumption. f_equal. exact IH.
  - rewrite Z.mul_0_r, Z.mul_assoc. apply Z_mod_mult.
Qed.

Lemma multiplicativo_semilla_nula_testigo :
  congruencial_multiplicativo (3 * 16) 5 16 4 =
    Ok (replicate (Z.to_nat 4) F64.cero) /\
  lehmer_generator (3 * 16) 5 16 4 = Ok (replicate (Z.to_nat 4) F64.cero).
Proof. apply (multiplicativo_semilla_nula 3 5 16 4). lia. Defined.

(** X5. The generators degenerate into each other: the linear generator
    with increment 0 is the multiplicative one, and the quadratic
    generator with quadratic coefficient 0 is the linear one with
    multiplier [b]. *)
Theorem generadores_coinciden semilla a b c m n :
  congruencial_lineal semilla a 0 m n =
    congruencial_multiplicativo semilla a m n /\
  congruencial_cuadratico semilla 0 b c m n =
    congruencial_lineal semilla b c m n.
Proof.
  rewrite !lineal_es_bucle, multiplicativo_es_bucle, cuadratico_es_bucle.
  split; apply bucle_ext; intros x; ring.
Qed.

Lemma generadores_prefijo_testigo :
  exists l1 l2 l3,
    (congruencial_lineal 1 5 3 16 5 = Ok l1 /\
     congruencial_lineal 1 5 3 16 2 = Ok (firstn (Z.to_nat 2) l1)) /\
    (congruencial_multiplicativo 1 5 16 5 = Ok l2 /\
     congruencial_multiplicativo 1 5 16 2 = Ok (firstn (Z.to_nat 2) l2)) /\
    (congruencial_cuadratico 1 5 7 3 16 5 = Ok l3 /\
     congruencial_cuadratico 1 5 7 3 16 2 = Ok (firstn (Z.to_nat 2) l3)).
Proof.
  assert (E1 : exists l, congruencial_lineal 1 5 3 16 5 = Ok l)
    by (vm_compute; eexists; reflexivity).
  assert (E2 : exists l, congruencial_multiplicativo 1 5 16 5 = Ok l)
    by (vm_compute; eexists; reflexivity).
  assert (E3 : exists l, congruencial_cuadratico 1 5 7 3 16 5 = Ok l)
    by (vm_compute; eexists; reflexivity).
  destruct E1 as [l1 E1], E2 as [l2 E2], E3 as [l3 E3].
  destruct (generadores_prefijo 1 5 7 3 16 5 2) as (H1 & H2 & H3); [lia|].
  exists l1, l2, l3. auto.
Defined.

(** ** The loop of the lot generator *)

Lemma calcular_estadisticos_basicos_retorna numeros :
  retorna (calcular_estadisticos_basicos numeros).
Proof.
  destruct numeros as [|x l] eqn:E; [eexists; reflexivity|].
  rewrite <- E. assert (Hn : numeros <> []) by (rewrite E; discriminate).
  unfold calcular_estadisticos_basicos.
  destruct (min_retorna numeros Hn) as [mn Hmn].
  destruct (max_retorna numeros Hn) as [mx Hmx].
  destruct (percentile_retorna numeros 25 Hn) as [q1 Hq1].
  destruct (percentile_retorna numeros 75 Hn) as [q3 Hq3].
  rewrite E at 1. cbv zeta. rewrite Hmn, Hmx, Hq1, Hq3, !mbind_Ok.
  eexists. reflexivity.
Qed.

Lemma length_rango n : length (rango n) = Z.to_nat n.
Proof. unfold rango. rewrite length_map, length_seq. reflexivity. Qed.

Lemma rango_lookup n (i : nat) :
  (i < Z.to_nat n)%nat -> rango n !! i = Some (Z.of_nat i).
Proof.
  intros Hi. unfold rango. rewrite lookup_map, lookup_seq_lt by assumption.
  reflexivity.
Qed.

Lemma para_cada_lotes tipo p : forall indices res res',
  para_cada indices (paso_lote tipo p) res = Ok res' ->
  exists ls ss,
    lotes res' = lotes res ++ ls /\
    estadisticas_por_lote res' = estadisticas_por_lote res ++ ss /\
    estadisticas_globales res' = estadisticas_globales res /\
    Forall2 (fun i l => numeros_del_lote tipo p i = Ok l) indices ls /\
    Forall2 (fun l s => calcular_estadisticos_basicos l = Ok s) ls ss.
Proof.
  induction indices as [|i indices IH]; intros res res' H; simpl in H.
  - injection H as <-. exists [], []. rewrite !app_nil_r.
    repeat split; constructor.
  - unfold paso_lote in H at 1.
    destruct (numeros_del_lote tipo p i) as [l|e] eqn:El; [|discriminate].
    rewrite mbind_Ok in H.
    destruct (calcular_estadisticos_basicos l) as [s|e] eqn:Es;
      [|discriminate].
    rewrite mbind_Ok in H. cbn [ligar] in H.
    apply IH in H as (ls & ss & Hl & Hs & Hg & Hls & Hss).
    cbn [lotes estadisticas_por_lote estadisticas_globales] in Hl, Hs, Hg.
    exists (l :: ls), (s :: ss).
    rewrite Hl, Hs, Hg, <- !app_assoc.
    repeat split; constructor; assumption.
Qed.

Lemma para_cada_retorna tipo p : forall indices res,
  Forall (fun i => retorna (numeros_del_lote tipo p i)) indices ->
  retorna (para_cada indices (paso_lote tipo p) res).
Proof.
  induction indices as [|i indices IH]; intros res H; simpl.
  - eexists. reflexivity.
  - inversion H as [|? ? [l Hl] Hresto]; subst.
    unfold paso_lote at 1. rewrite Hl, mbind_Ok.
    destruct (calcular_estadisticos_basicos_retorna l) as [s Hs].
    rewrite Hs, mbind_Ok. cbn [ligar]. apply IH, Hresto.
Qed.

Lemma generar_lote_contenido tipo p n_lotes res :
  generar_lote_congruencial tipo p n_lotes = Ok res ->
  contenido_del_lote tipo p n_lotes res.
Proof.
  unfold generar_lote_congruencial. cbv zeta. intros H.
  destruct (para_cada (rango n_lotes) (paso_lote tipo p) (Resultados [] [] []))
    as [r|e] eqn:E; [|discriminate].
  rewrite mbind_Ok in H.
  apply para_cada_lotes in E as (ls & ss & Hl & Hs & _ & Hls & Hss).
  cbn [lotes estadisticas_por_lote app] in Hl, Hs.
  destruct (calcular_estadisticos_basicos (concat (lotes r))) as [g|e] eqn:Eg;
    [|discriminate].
  rewrite mbind_Ok in H. injection H as <-.
  unfold contenido_del_lote.
  cbn [lotes estadisticas_por_lote estadisticas_globales].
  rewrite Hl, Hs in *. auto.
Qed.

Lemma generar_lote_retorna tipo p n_lotes :
  Forall (fun i => retorna (numeros_del_lote tipo p i)) (rango n_lotes) ->
  retorna (generar_lote_congruencial tipo p n_lotes).
Proof.
  intros H. unfold generar_lote_congruencial. cbv zeta.
  destruct (para_cada_retorna tipo p _ (Resultados [] [] []) H) as [r Hr].
  rewrite Hr, mbind_Ok.
  destruct (calcular_estadisticos_basicos_retorna (concat (lotes r)))
    as [g Hg].
  rewrite Hg, mbind_Ok. eexists. reflexivity.
Qed.

(** ** What the validators accept *)

Lemma si_nil cond msg : si cond msg = [] -> cond = false.
Proof. destruct cond; [discriminate | reflexivity]. Qed.

Lemma valido_reporte tipo p :
  fst (validar_parametros_congruencial tipo p) = true ->
  reporte_parametros (modulo_no_supera (p !! "m") (p !! "semilla")) tipo p
    = [].
Proof.
  intros Hv. apply validar_parametros_valido in Hv.
  rewrite validar_parametros_reporte in Hv. exact Hv.
Qed.

Lemma valido_comunes tipo (p : gmap string Z) :
  fst (validar_parametros_congruencial tipo p) = true ->
  exists semilla m n,
    p !! "semilla" = Some semilla /\ 0 < semilla /\
    p !! "m" = Some m /\ 0 < m /\
    cantidad_pedida p = Some n /\ 10 <= n <= 100000.
Proof.
  intros Hv. apply valido_reporte in Hv. unfold reporte_parametros in Hv.
  apply app_eq_nil in Hv as [Hs Hv].
  apply app_eq_nil in Hv as [Hn Hv].
  apply app_eq_nil in Hv as [Hm _].
  apply si_nil in Hs, Hn, Hm.
  unfold falta, presente_y in *.
  destruct (p !! "semilla") as [s|]; [|discriminate].
  destruct (p !! "m") as [m|]; [|discriminate].
  destruct (cantidad_pedida p) as [n|]; [|discriminate].
  exists s, m, n. simpl in *.
  destruct (Z.ltb_spec 0 s); [|discriminate].
  destruct (Z.ltb_spec 0 m); [|discriminate].
  destruct (Z.leb_spec 10 n); [|discriminate].
  destruct (Z.leb_spec n 100000); [|discriminate].
  repeat split; (reflexivity || assumption).
Qed.

Lemma valido_tipo tipo (p : gmap string Z) :
  fst (validar_parametros_congruencial tipo p) = true ->
  tipo = "lineal" \/ tipo = "multiplicativo" \/ tipo = "cuadratico".
Proof.
  intros Hv. apply valido_reporte in Hv. unfold reporte_parametros in Hv.
  repeat case_decide; auto.
  do 3 apply app_eq_nil in Hv as [_ Hv]. discriminate.
Qed.

Lemma valido_lineal (p : gmap string Z) :
  fst (validar_parametros_congruencial "lineal" p) = true ->
  exists a c, p !! "a" = Some a /\ 0 < a /\ p !! "c" = Some c /\ 0 <= c.
Proof.
  intros Hv. apply valido_reporte in Hv. unfold reporte_parametros in Hv.
  do 3 apply app_eq_nil in Hv as [_ Hv].
  rewrite decide_True in Hv by reflexivity.
  apply app_eq_nil in Hv as [Ha Hv].
  apply app_eq_nil in Hv as [Ha' Hv].
  apply app_eq_nil in Hv as [Hc Hv].
  apply app_eq_nil in Hv as [Hc' _].
  apply si_nil in Ha, Ha', Hc, Hc'.
  unfold falta, presente_y in *.
  destruct (p !! "a") as [a|]; [|discriminate].
  destruct (p !! "c") as [c|]; [|discriminate].
  exists a, c.
  destruct (Z.ltb_spec 0 a); [|discriminate].
  destruct (Z.leb_spec 0 c); [|discriminate].
  auto.
Qed.

Lemma valido_multiplicativo (p : gmap string Z) :
  fst (validar_parametros_congruencial "multiplicativo" p) = true ->
  exists a, p !! "a" = Some a /\ 0 < a.
Proof.
  intros Hv. apply valido_reporte in Hv. unfold reporte_parametros in Hv.
  do 3 apply app_eq_nil in Hv as [_ Hv].
  rewrite decide_False, decide_True in Hv by (reflexivity || discriminate).
  apply app_eq_nil in Hv as [Ha Hv].
  apply app_eq_nil in Hv as [Ha' _].
  apply si_nil in Ha, Ha'.
  unfold falta, presente_y in *.
  destruct (p !! "a") as [a|]; [|discriminate].
  exists a.
  destruct (Z.ltb_spec 0 a); [|discriminate].
  auto.
Qed.

Lemma valido_cuadratico (p : gmap string Z) :
  fst (validar_parametros_congruencial "cuadratico" p) = true ->
  exists a b c,
    p !! "a" = Some a /\ a <> 0 /\ p !! "b" = Some b /\
    p !! "c_const" = Some c.
Proof.
  intros Hv. apply valido_reporte in Hv. unfold reporte_parametros in Hv.
  do 3 apply app_eq_nil in Hv as [_ Hv].
  rewrite decide_False in Hv by discriminate.
  rewrite decide_False in Hv by discriminate.
  rewrite decide_True in Hv by reflexivity.
  apply app_eq_nil in Hv as [Ha Hv].
  apply app_eq_nil in Hv as [Hb Hc].
  apply si_nil in Ha, Hb, Hc.
  unfold falta, presente_y in *.
  destruct (p !! "a") as [a|]; [|discriminate].
  destruct (p !! "b") as [b|]; [|discriminate].
  destruct (p !! "c_const") as [c|]; [|discriminate].
  exists a, b, c. simpl in Ha.
  destruct (Z.eqb_spec a 0); [discriminate|]. auto.
Qed.

Lemma bucle_longitud f semilla m n :
  0 < m ->
  exists l, bucle f semilla m n = Ok l /\ length l = Z.to_nat n /\
    (m <= 2 ^ 53 -> Forall (fun q => F64.en_unidad q = true) l).
Proof.
  intros Hm.
  destruct (bucle_normalizado f semilla m n Hm) as (xs & Hl & Hlen & Hxs).
  eexists. split; [exact Hl|]. split; [rewrite length_map; exact Hlen|].
  intros Hm53. clear Hl Hlen.
  induction Hxs as [|x xs' Hx _ IH]; simpl; constructor;
    [apply cociente_en_unidad; lia | exact IH].
Qed.

Lemma bucle_genera f semilla m n :
  0 < m -> 0 <= n -> genera (bucle f semilla m n) m n.
Proof.
  intros Hm Hn.
  destruct (bucle_longitud f semilla m n Hm) as (l & Hl & Hlen & Hu).
  exists l. split; [assumption|]. split; [lia | assumption].
Qed.

(** X6. Parameters that the validator accepts make the generator of
    their type return: called with the validated seed, coefficients and
    modulus and with the validated count [n], it returns exactly [n]
    numbers, which lie in [[0, 1)] when the modulus is at most [2^53]. *)
Theorem parametros_validos_generan (p : gmap string Z) :
  (fst (validar_parametros_congruencial "lineal" p) = true ->
   exists semilla a c m n,
     p !! "semilla" = Some semilla /\ p !! "a" = Some a /\
     p !! "c" = Some c /\ p !! "m" = Some m /\
     cantidad_pedida p = Some n /\
     genera (congruencial_lineal semilla a c m n) m n) /\
  (fst (validar_parametros_congruencial "multiplicativo" p) = true ->
   exists semilla a m n,
     p !! "semilla" = Some semilla /\ p !! "a" = Some a /\
     p !! "m" = Some m /\ cantidad_pedida p = Some n /\
     genera (congruencial_multiplicativo semilla a m n) m n) /\
  (fst (validar_parametros_congruencial "cuadratico" p) = true ->
   exists semilla a b c m n,
     p !! "semilla" = Some semilla /\ p !! "a" = Some a /\
     p !! "b" = Some b /\ p !! "c_const" = Some c /\
     p !! "m" = Some m /\ cantidad_pedida p = Some n /\
     genera (congruencial_cuadratico semilla a b c m n) m n).
Proof.
  repeat split; intros Hv;
    destruct (valido_comunes _ p Hv)
      as (s & m & n & Hs & _ & Hm & Hm0 & Hn & Hn10 & _).
  - destruct (valido_lineal p Hv) as (a & c & Ha & _ & Hc & _).
    exists s, a, c, m, n. repeat (split; [assumption|]).
    apply (bucle_genera (fun x => a * x + c)); lia.
  - destruct (valido_multiplicativo p Hv) as (a & Ha & _).
    exists s, a, m, n. repeat (split; [assumption|]).
    apply (bucle_genera (fun x => a * x)); lia.
  - destruct (valido_cuadratico p Hv) as (a & b & c & Ha & _ & Hb & Hc).
    exists s, a, b, c, m, n. repeat (split; [assumption|]).
    apply (bucle_genera (fun x => a * x ^ 2 + b * x + c)); lia.
Qed.

Lemma parametros_validos_generan_testigo :
  (exists semilla a c m n,
     ejemplo_lineal !! "semilla" = Some semilla /\
     ejemplo_lineal !! "a" = Some a /\
     ejemplo_lineal !! "c" = Some c /\ ejemplo_lineal !! "m" = Some m /\
     cantidad_pedida ejemplo_lineal = Some n /\
     genera (congruencial_lineal semilla a c m n) m n) /\
  (exists semilla a b c m n,
     ejemplo_cuadratico !! "semilla" = Some semilla /\
     ejemplo_cuadratico !! "a" = Some a /\
     ejemplo_cuadratico !! "b" = Some b /\
     ejemplo_cuadratico !! "c_const" = Some c /\
     ejemplo_cuadratico !! "m" = Some m /\
     cantidad_pedida ejemplo_cuadratico = Some n /\
     genera (congruencial_cuadratico semilla a b c m n) m n).
Proof.
  split.
  - apply (proj1 (parametros_validos_generan ejemplo_lineal)).
    vm_compute. reflexivity.
  - apply (proj2 (proj2 (parametros_validos_generan ejemplo_cuadratico))).
    vm_compute. reflexivity.
Defined.

Lemma valido_supera tipo (p : gmap string Z) semilla m :
  tipo = "lineal" \/ tipo = "multiplicativo" ->
  fst (validar_parametros_congruencial tipo p) = true ->
  p !! "semilla" = Some semilla -> p !! "m" = Some m ->
  0 < semilla -> 0 < m -> semilla < m.
Proof.
  intros Htipo Hv Hs Hm Hs0 Hm0. apply valido_reporte in Hv.
  unfold reporte_parametros in Hv.
  do 3 apply app_eq_nil in Hv as [_ Hv].
  assert (Hsup : si (modulo_no_supera (p !! "m") (p !! "semilla"))
                   msg_supera = []).
  { destruct Htipo as [-> | ->]; simpl in Hv;
      repeat (apply app_eq_nil in Hv as [_ Hv]); exact Hv. }
  apply si_nil in Hsup. rewrite Hs, Hm in Hsup.
  unfold modulo_no_supera, verdadero in Hsup.
  destruct (Z.eqb_spec m 0); [lia|]. destruct (Z.eqb_spec semilla 0); [lia|].
  simpl in Hsup. destruct (Z.leb_spec m semilla); [discriminate | assumption].
Qed.

Lemma cantidad_valida (p : gmap string Z) n :
  cantidad_pedida p = Some n -> 10 <= n <= 100000 ->
  let n' := default (default 1 (p !! "n")) (p !! "cantidad") in
  (n' <? 10) || (n' >? 100000) = false.
Proof.
  intros Hn Hr. cbv zeta.
  pose proof (cantidad_regla p) as H. cbv zeta in H. rewrite H, Hn.
  destruct (Z.leb_spec 10 n), (Z.leb_spec n 100000); simpl; lia || reflexivity.
Qed.

Lemma requisitos_validos tipo (p : gmap string Z) :
  requisitos tipo p -> fst (validar_parametros_congruencial tipo p) = true.
Proof.
  intros (s & m & (Hs & Hs0 & Hm & Hm0 & n & Hn & Hr) & Htipo).
  apply validar_parametros_valido.
  unfold validar_parametros_congruencial. cbv zeta. unfold snd.
  pose proof (cantidad_valida p n Hn Hr) as Hcant. cbv zeta in Hcant.
  rewrite Hcant. rewrite Hs, Hm. cbn [none_o].
  destruct (Z.leb_spec s 0); [lia|]. destruct (Z.leb_spec m 0); [lia|].
  cbn [anexar_si].
  destruct Htipo as [(-> & Hsm & a & c & Ha & Ha0 & Hc & Hc0)
                    |[(-> & Hsm & a & Ha & Ha0)
                     |(-> & a & b & c & Ha & Ha0 & Hb & Hc)]];
    cbn [String.eqb Ascii.eqb Bool.eqb]; rewrite ?Ha, ?Hb, ?Hc;
    unfold modulo_no_supera, verdadero; cbn [none_o].
  - destruct (Z.leb_spec a 0); [lia|]. destruct (Z.ltb_spec c 0); [lia|].
    destruct (Z.leb_spec m s); [lia|]. rewrite !andb_false_r. reflexivity.
  - destruct (Z.leb_spec a 0); [lia|].
    destruct (Z.leb_spec m s); [lia|]. rewrite !andb_false_r. reflexivity.
  - destruct (Z.eqb_spec a 0); [lia|]. reflexivity.
Qed.

(** X7. The parameter validator accepts exactly the parameter sets with
    a positive seed, a positive modulus and a count between 10 and 100000
    (read from ['cantidad'], or else from ['n']) that, for the linear
    type, have a modulus above the seed, a positive ['a'] and a
    non-negative ['c']; for the multiplicative type, a modulus above the
    seed and a positive ['a']; for the quadratic type, a non-zero ['a'],
    a ['b'] and a ['c_const']. No other type is ever valid. *)
Theorem validez_caracterizada tipo (p : gmap string Z) :
  fst (validar_parametros_congruencial tipo p) = true <-> requisitos tipo p.
Proof.
  split; [|apply requisitos_validos].
  intros Hv.
  destruct (valido_comunes tipo p Hv)
    as (s & m & n & Hs & Hs0 & Hm & Hm0 & Hn & Hr).
  exists s, m. split.
  { unfold requisitos_comunes. repeat split; try assumption.
    exists n. split; [assumption | lia]. }
  destruct (valido_tipo tipo p Hv) as [->| [->| ->]].
  - left. split; [reflexivity|].
    split; [apply (valido_supera "lineal" p); auto|].
    destruct (valido_lineal p Hv) as (a & c & H). exists a, c. exact H.
  - right. left. split; [reflexivity|].
    split; [apply (valido_supera "multiplicativo" p); auto|].
    destruct (valido_multiplicativo p Hv) as (a & H). exists a. exact H.
  - right. right. split; [reflexivity|].
    destruct (valido_cuadratico p Hv) as (a & b & c & H).
    exists a, b, c. exact H.
Qed.

Lemma violaciones_dataframe_nil df requeridas :
  df_empty df = false ->
  violaciones_dataframe df requeridas = [] <->
  Forall (fun col => en_columnas col df = true) requeridas /\
  existsb numerica (columnas df) = true /\
  existsb tiene_nulos (columnas df) = false.
Proof.
  intros He. unfold violaciones_dataframe. rewrite He. cbn [si app].
  assert (Hreq : map (fun col => "Columna requerida no encontrada: " +:+ col)
                   (filter (fun col => en_columnas col df = false) requeridas)
                 = [] <->
                 Forall (fun col => en_columnas col df = true) requeridas).
  { induction requeridas as [|col cols IH]; [split; auto|].
    rewrite filter_cons. destruct (en_columnas col df) eqn:E.
    - rewrite decide_False by discriminate. rewrite IH.
      split; intros H; [constructor; assumption | inversion H; assumption].
    - rewrite decide_True by reflexivity. cbn [map].
      split; [discriminate | intros H; inversion H; congruence]. }
  assert (Hnum : forallb (fun c => negb (numerica c)) (columnas df)
                 = negb (existsb numerica (columnas df))).
  { induction (columnas df) as [|c cs IH]; [reflexivity|].
    simpl. rewrite IH. destruct (numerica c); reflexivity. }
  rewrite Hnum. split.
  - intros H. apply app_eq_nil in H as [H1 H]. apply app_eq_nil in H as [H2 H3].
    apply Hreq in H1. apply si_nil in H2, H3.
    destruct (existsb numerica (columnas df)); [|discriminate]. auto.
  - intros (H1 & H2 & H3). apply Hreq in H1. rewrite H1, H2, H3. reflexivity.
Qed.

(** X8. [validar_dataframe] accepts exactly the datasets that have rows
    and columns, hold every required column and at least one numeric
    column, and have no missing value. *)
Theorem validez_dataframe_caracterizada df requeridas :
  fst (validar_dataframe df requeridas) = true <->
  requisitos_dataframe df requeridas.
Proof.
  rewrite validar_dataframe_valido. unfold requisitos_dataframe.
  destruct (df_empty df) eqn:He.
  - rewrite validar_dataframe_vacio by assumption. simpl.
    split; [discriminate | intros [H _]; discriminate].
  - rewrite validar_dataframe_no_vacio by assumption.
    rewrite violaciones_dataframe_nil by assumption. tauto.
Qed.

(** ** Properties of the lot generator *)

Lemma para_cada_ext {S A : Type} (f g : A -> S -> resultado S) :
  (forall i st, f i st = g i st) ->
  forall l st, para_cada l f st = para_cada l g st.
Proof.
  intros H. induction l as [|i l IH]; intros st; simpl; [reflexivity|].
  rewrite H. destruct (g i st); simpl; [apply IH | reflexivity].
Qed.

Lemma generar_lote_ext tipo p p' n_lotes :
  (forall i, numeros_del_lote tipo p i = numeros_del_lote tipo p' i) ->
  generar_lote_congruencial tipo p n_lotes =
    generar_lote_congruencial tipo p' n_lotes.
Proof.
  intros H. unfold generar_lote_congruencial.
  rewrite (para_cada_ext (paso_lote tipo p) (paso_lote tipo p'));
    [reflexivity|].
  intros i st. unfold paso_lote. rewrite H. reflexivity.
Qed.

Lemma numeros_del_lote_claves tipo (p p' : gmap string Z) i :
  (forall k, k <> "cantidad" -> p !! k = p' !! k) ->
  numeros_del_lote tipo p i = numeros_del_lote tipo p' i.
Proof.
  intros H. unfold numeros_del_lote.
  rewrite !(H "semilla"), !(H "a"), !(H "b"), !(H "c"), !(H "c_const"),
    !(H "m"), !(H "n") by discriminate.
  reflexivity.
Qed.

(** X9. The lot generator does not read ['cantidad'], the key that the
    validator reads first: setting or deleting it changes nothing. *)
Theorem lote_ignora_cantidad tipo (p : gmap string Z) v n_lotes :
  generar_lote_congruencial tipo (<["cantidad" := v]> p) n_lotes =
    generar_lote_congruencial tipo p n_lotes /\
  generar_lote_congruencial tipo (delete "cantidad" p) n_lotes =
    generar_lote_congruencial tipo p n_lotes.
Proof.
  split; apply generar_lote_ext; intros i;
    apply numeros_del_lote_claves; intros k Hk.
  - apply lookup_insert_ne. congruence.
  - apply lookup_delete_ne. congruence.
Qed.

Lemma rango_vacio n : n <= 0 -> rango n = [].
Proof.
  intros H. unfold rango. replace (Z.to_nat n) with O by lia. reflexivity.
Qed.

Lemma rango_cons n : 1 <= n -> exists resto, rango n = 0 :: resto.
Proof.
  intros H. unfold rango. destruct (Z.to_nat n) as [|k] eqn:E; [lia|].
  eexists. reflexivity.
Qed.

Lemma generar_lote_primero tipo p n_lotes e :
  1 <= n_lotes -> numeros_del_lote tipo p 0 = Lanza e ->
  generar_lote_congruencial tipo p n_lotes = Lanza e.
Proof.
  intros Hn H. unfold generar_lote_congruencial.
  destruct (rango_cons n_lotes Hn) as [resto ->].
  cbv zeta. cbn [para_cada]. unfold paso_lote at 1. rewrite H. reflexivity.
Qed.

(** X10. The lot generator checks nothing before its loop. With
    [n_lotes <= 0] it returns the empty result for every type and every
    parameter set; with [n_lotes >= 1] an unknown type raises
    [ValueError], and a known type without ['semilla'] raises
    [TypeError]. *)
Theorem lote_errores tipo (p : gmap string Z) n_lotes :
  (n_lotes <= 0 ->
   generar_lote_congruencial tipo p n_lotes = Ok (Resultados [] [] [])) /\
  (1 <= n_lotes ->
   tipo <> "lineal" -> tipo <> "multiplicativo" -> tipo <> "cuadratico" ->
   generar_lote_congruencial tipo p n_lotes = Lanza ValueError) /\
  (1 <= n_lotes ->
   tipo = "lineal" \/ tipo = "multiplicativo" \/ tipo = "cuadratico" ->
   p !! "semilla" = None ->
   generar_lote_congruencial tipo p n_lotes = Lanza TypeError).
Proof.
  split; [|split].
  - intros Hn. unfold generar_lote_congruencial.
    rewrite rango_vacio by assumption. reflexivity.
  - intros Hn H1 H2 H3. apply generar_lote_primero; [assumption|].
    unfold numeros_del_lote.
    destruct (String.eqb_spec tipo "lineal"); [contradiction|].
    destruct (String.eqb_spec tipo "multiplicativo"); [contradiction|].
    destruct (String.eqb_spec tipo "cuadratico"); [contradiction|].
    reflexivity.
  - intros Hn Ht Hs. apply generar_lote_primero; [assumption|].
    unfold numeros_del_lote. rewrite Hs.
    destruct Ht as [->|[->| ->]]; reflexivity.
Qed.

Lemma lote_errores_testigo :
  generar_lote_congruencial "lineal" ejemplo_lineal 0 =
    Ok (Resultados [] [] []) /\
  generar_lote_congruencial "mixto" ejemplo_lineal 5 = Lanza ValueError /\
  generar_lote_congruencial "lineal" (delete "semilla" ejemplo_lineal) 5 =
    Lanza TypeError.
Proof.
  split; [|split].
  - apply (proj1 (lote_errores "lineal" ejemplo_lineal 0)). lia.
  - apply (proj1 (proj2 (lote_errores "mixto" ejemplo_lineal 5)));
      [lia | discriminate | discriminate | discriminate].
  - apply (proj2 (proj2 (lote_errores "lineal"
                           (delete "semilla" ejemplo_lineal) 5)));
      [lia | left; reflexivity | vm_compute; reflexivity].
Defined.

(** The lot of index [i] as a run of the shared loop. *)
Lemma numeros_del_lote_congruente tipo (p : gmap string Z) m i j :
  p !! "m" = Some m -> i mod m = j mod m ->
  numeros_del_lote tipo p i = numeros_del_lote tipo p j.
Proof.
  intros Hm Hij.
  assert (Hc : forall f s, (forall x k, f (x + k * m) mod m = f x mod m) ->
                 forall n, bucle f (s + i) m n = bucle f (s + j) m n).
  { intros f s Hf n. destruct (Z.eq_dec m 0) as [E|E].
    - rewrite E, !Z.mod_0_r in Hij. rewrite Hij. reflexivity.
    - apply bucle_congruente.
      assert (Hk : j = i + ((j - i) / m) * m).
      { pose proof (Z.div_mod i m E). pose proof (Z.div_mod j m E).
        assert (Hd : j - i = (j / m - i / m) * m) by lia.
        assert (Hq : (j - i) / m = j / m - i / m)
          by (rewrite Hd; apply Z.div_mul; assumption).
        rewrite Hq. lia. }
      rewrite Hk, Z.add_assoc. symmetry. apply Hf. }
  unfold numeros_del_lote, mas. rewrite Hm.
  destruct (p !! "semilla") as [s|]; [|reflexivity].
  cbn [mbind resultado_bind ligar].
  unfold llamar_lineal, llamar_multiplicativo, llamar_cuadratico.
  destruct (String.eqb tipo "lineal").
  { destruct (p !! "a") as [a|], (p !! "c") as [c|]; try reflexivity.
    apply (Hc (fun x => a * x + c)). intros x k.
    replace (a * (x + k * m) + c) with (a * x + c + a * k * m) by ring.
    apply Z_mod_plus_full. }
  destruct (String.eqb tipo "multiplicativo").
  { destruct (p !! "a") as [a|]; try reflexivity.
    apply (Hc (fun x => a * x)). intros x k.
    replace (a * (x + k * m)) with (a * x + a * k * m) by ring.
    apply Z_mod_plus_full. }
  destruct (String.eqb tipo "cuadratico"); [|reflexivity].
  destruct (p !! "a") as [a|], (p !! "b") as [b|], (p !! "c_const") as [c|];
    try reflexivity.
  apply (Hc (fun x => a * x ^ 2 + b * x + c)). intros x k.
  replace (a * (x + k * m) ^ 2 + b * (x + k * m) + c)
    with (a * x ^ 2 + b * x + c
          + (a * (2 * x * k + k * k * m) + b * k) * m) by ring.
  apply Z_mod_plus_full.
Qed.

Lemma contenido_lookup tipo p n_lotes res (i : nat) :
  contenido_del_lote tipo p n_lotes res ->
  (i < Z.to_nat n_lotes)%nat ->
  exists l, lotes res !! i = Some l /\
            numeros_del_lote tipo p (Z.of_nat i) = Ok l.
Proof.
  intros (H & _ & _) Hi.
  destruct (Forall2_lookup_l _ _ _ i (Z.of_nat i) H) as (l & Hl & Hnl).
  { apply rango_lookup, Hi. }
  exists l. split; assumption.
Qed.

(** X11. Lots whose indices are congruent modulo [m] are identical:
    from [n_lotes > m] on, the lots repeat. *)
Theorem lotes_congruentes tipo (p : gmap string Z) m n_lotes res (i j : nat) :
  p !! "m" = Some m ->
  generar_lote_congruencial tipo p n_lotes = Ok res ->
  (i < Z.to_nat n_lotes)%nat -> (j < Z.to_nat n_lotes)%nat ->
  Z.of_nat i mod m = Z.of_nat j mod m ->
  lotes res !! i = lotes res !! j.
Proof.
  intros Hm Hres Hi Hj Hij. apply generar_lote_contenido in Hres.
  destruct (contenido_lookup _ _ _ _ i Hres Hi) as (li & -> & Hli).
  destruct (contenido_lookup _ _ _ _ j Hres Hj) as (lj & -> & Hlj).
  rewrite (numeros_del_lote_congruente tipo p m _ (Z.of_nat j)) in Hli
    by assumption.
  congruence.
Qed.

Lemma lotes_congruentes_testigo :
  exists res,
    generar_lote_congruencial "lineal" ejemplo_lote 3 = Ok res /\
    lotes res !! 0%nat = lotes res !! 2%nat.
Proof.
  assert (E : exists res,
             generar_lote_congruencial "lineal" ejemplo_lote 3 = Ok res).
  { vm_compute. eexists. reflexivity. }
  destruct E as [res E]. exists res. split; [exact E|].
  apply (lotes_congruentes "lineal" ejemplo_lote 2 3 res 0 2);
    [reflexivity | exact E | vm_compute; lia | vm_compute; lia | reflexivity].
Defined.

Lemma numeros_del_lote_valido tipo (p : gmap string Z) i :
  fst (validar_parametros_congruencial tipo p) = true ->
  exists l, numeros_del_lote tipo p i = Ok l /\
            length l = Z.to_nat (default 100 (p !! "n")).
Proof.
  intros Hv.
  destruct (valido_comunes _ p Hv)
    as (s & m & n & Hs & _ & Hm & Hm0 & _).
  unfold numeros_del_lote, mas. rewrite Hs, Hm.
  cbn [mbind resultado_bind ligar].
  destruct (valido_tipo tipo p Hv) as [->| [->| ->]];
    cbn [String.eqb Ascii.eqb Bool.eqb].
  - destruct (valido_lineal p Hv) as (a & c & -> & _ & -> & _).
    destruct (bucle_longitud (fun x => a * x + c) (s + i) m
                (default 100 (p !! "n")) Hm0) as (l & Hl & Hlen & _).
    exists l. split; assumption.
  - destruct (valido_multiplicativo p Hv) as (a & -> & _).
    destruct (bucle_longitud (fun x => a * x) (s + i) m
                (default 100 (p !! "n")) Hm0) as (l & Hl & Hlen & _).
    exists l. split; assumption.
  - destruct (valido_cuadratico p Hv) as (a & b & c & -> & _ & -> & ->).
    destruct (bucle_longitud (fun x => a * x ^ 2 + b * x + c) (s + i) m
                (default 100 (p !! "n")) Hm0) as (l & Hl & Hlen & _).
    exists l. split; assumption.
Qed.

(** X12. For parameters that the validator accepts,
    [generar_lote_congruencial] returns for every [n_lotes], with
    [max n_lotes 0] lots and as many statistics; each lot has the count
    read from ['n'], 100 when the key is missing, whatever ['cantidad']
    says. *)
Theorem lotes_de_parametros_validos tipo (p : gmap string Z) n_lotes :
  fst (validar_parametros_congruencial tipo p) = true ->
  exists res,
    generar_lote_congruencial tipo p n_lotes = Ok res /\
    length (lotes res) = Z.to_nat n_lotes /\
    length (estadisticas_por_lote res) = Z.to_nat n_lotes /\
    Forall (fun l => length l = Z.to_nat (default 100 (p !! "n")))
      (lotes res).
Proof.
  intros Hv.
  destruct (generar_lote_retorna tipo p n_lotes) as [res Hres].
  { apply Forall_forall. intros i _.
    destruct (numeros_del_lote_valido tipo p i Hv) as (l & Hl & _).
    exists l. exact Hl. }
  exists res. split; [exact Hres|].
  apply generar_lote_contenido in Hres as (Hl & Hs & _).
  pose proof (Forall2_length _ _ _ Hl) as Hlen.
  pose proof (Forall2_length _ _ _ Hs) as Hlen'.
  rewrite length_rango in Hlen.
  split; [lia|]. split; [lia|].
  apply Forall_forall. intros l Hin.
  apply list_elem_of_lookup_1 in Hin as [k Hk].
  destruct (Forall2_lookup_r _ _ _ _ _ Hl Hk) as (i & _ & Hi).
  destruct (numeros_del_lote_valido tipo p i Hv) as (l' & Hl' & Hlen'').
  congruence.
Qed.

Lemma lotes_de_parametros_validos_testigo :
  exists res,
    generar_lote_congruencial "lineal" ejemplo_lineal 5 = Ok res /\
    length (lotes res) = Z.to_nat 5 /\
    length (estadisticas_por_lote res) = Z.to_nat 5 /\
    Forall (fun l => length l = Z.to_nat (default 100 (ejemplo_lineal !! "n")))
      (lotes res).
Proof.
  apply (lotes_de_parametros_validos "lineal" ejemplo_lineal 5).
  vm_compute. reflexivity.
Defined.

(** X13. Whenever [generar_lote_congruencial] returns, it holds one lot
    per index of [range(n_lotes)]: lot [i] is the output of the generator
    for the seed shifted by [i], its entry of ['estadisticas_por_lote'] is
    the basic statistics of that lot, and ['estadisticas_globales'] is the
    basic statistics of all lots concatenated. *)
Theorem lote_contenido tipo (p : gmap string Z) n_lotes res :
  generar_lote_congruencial tipo p n_lotes = Ok res ->
  length (lotes res) = Z.to_nat n_lotes /\
  (forall (i : nat) l, lotes res !! i = Some l ->
     numeros_del_lote tipo p (Z.of_nat i) = Ok l /\
     exists s, estadisticas_por_lote res !! i = Some s /\
               calcular_estadisticos_basicos l = Ok s) /\
  calcular_estadisticos_basicos (concat (lotes res)) =
    Ok (estadisticas_globales res).
Proof.
  intros Hres. apply generar_lote_contenido in Hres as (Hl & Hs & Hg).
  pose proof (Forall2_length _ _ _ Hl) as Hlen.
  rewrite length_rango in Hlen.
  split; [lia|]. split; [|exact Hg].
  intros i l Hi.
  destruct (Forall2_lookup_r _ _ _ _ _ Hl Hi) as (z & Hz & Hnum).
  assert (Hlt : (i < Z.to_nat n_lotes)%nat)
    by (apply lookup_lt_Some in Hi; lia).
  rewrite rango_lookup in Hz by assumption. injection Hz as <-.
  split; [exact Hnum|].
  destruct (Forall2_lookup_l _ _ _ _ _ Hs Hi) as (s & Hsi & Hcalc).
  exists s. split; assumption.
Qed.

Lemma lote_contenido_testigo :
  exists res,
    generar_lote_congruencial "lineal" ejemplo_lote 3 = Ok res /\
    length (lotes res) = Z.to_nat 3 /\
    (forall (i : nat) l, lotes res !! i = Some l ->
       numeros_del_lote "lineal" ejemplo_lote (Z.of_nat i) = Ok l /\
       exists s, estadisticas_por_lote res !! i = Some s /\
                 calcular_estadisticos_basicos l = Ok s) /\
    calcular_estadisticos_basicos (concat (lotes res)) =
      Ok (estadisticas_globales res).
Proof.
  assert (E : exists res,
             generar_lote_congruencial "lineal" ejemplo_lote 3 = Ok res).
  { vm_compute. eexists. reflexivity. }
  destruct E as [res E]. exists res. split; [exact E|].
  apply (lote_contenido "lineal" ejemplo_lote 3 res E).
Defined.

(** ** The API that generates numbers *)

Lemma np_min_elemento a x : Np.min a = Ok x -> x ∈ a.
Proof.
  destruct a as [|y l]; [discriminate|]. simpl. intros H. injection H as <-.
  apply (fold_elige Np.minimum (fun z => z ∈ y :: l)).
  - apply minimum_elige.
  - apply list_elem_of_here.
  - apply Forall_forall. intros z Hz. apply list_elem_of_further, Hz.
Qed.

Lemma np_max_elemento a x : Np.max a = Ok x -> x ∈ a.
Proof.
  destruct a as [|y l]; [discriminate|]. simpl. intros H. injection H as <-.
  apply (fold_elige Np.maximum (fun z => z ∈ y :: l)).
  - apply maximum_elige.
  - apply list_elem_of_here.
  - apply Forall_forall. intros z Hz. apply list_elem_of_further, Hz.
Qed.

(** The answer to a request whose generator returned or raised. *)
Lemma api_respuesta_bucle f semilla m n :
  let generado := bucle f semilla m n in
  let respuesta :=
    capturar
      (numeros ← generado;
       let media := Np.mean numeros in
       let desviacion := Np.std numeros in
       minimo ← Np.min numeros;
       maximo ← Np.max numeros;
       Ok (CuerpoNumeros numeros
             (EstadisticasApi media desviacion minimo maximo), 200))
      (fun e => (CuerpoExcepcion e, 500)) in
  (m <> 0 -> 1 <= n ->
   exists numeros est,
     respuesta = (CuerpoNumeros numeros est, 200) /\
     generado = Ok numeros /\ Z.of_nat (length numeros) = n /\
     api_min est ∈ numeros /\ api_max est ∈ numeros) /\
  (m = 0 -> 1 <= n -> respuesta = (CuerpoExcepcion ZeroDivisionError, 500)) /\
  (n <= 0 -> respuesta = (CuerpoExcepcion ValueError, 500)).
Proof.
  intros generado respuesta. unfold respuesta, generado. clear.
  split; [|split].
  - intros Hm Hn. rewrite bucle_salida by assumption.
    set (numeros := map _ _).
    assert (Hlen : length numeros = Z.to_nat n)
      by (unfold numeros; rewrite length_map; apply length_estados).
    assert (Hne : numeros <> [])
      by (intros E; rewrite E in Hlen; simpl in Hlen; lia).
    destruct (min_retorna numeros Hne) as [mn Hmn].
    destruct (max_retorna numeros Hne) as [mx Hmx].
    rewrite mbind_Ok. cbv zeta. rewrite Hmn, Hmx, !mbind_Ok.
    eexists _, _. split; [reflexivity|]. split; [reflexivity|].
    split; [lia|]. cbn [api_min api_max].
    split; [apply np_min_elemento | apply np_max_elemento]; assumption.
  - intros -> Hn. unfold bucle. rewrite bucle_lanza by lia. reflexivity.
  - intros Hn. unfold bucle, for_range.
    replace (Z.to_nat n) with O by lia. reflexivity.
Qed.

(** X14. The API answers 400 with 'Método no válido' for every method
    but ['lineal'] and ['multiplicativo'] (the quadratic one included).
    For these two, with the parameters defaulted to [m = 16] and
    [n = 10]: status 200 with exactly [n] numbers, whose reported minimum
    and maximum are among them, when [m <> 0] and [n >= 1]; status 500
    from [ZeroDivisionError] when [m = 0] and [n >= 1]; status 500 from
    [ValueError] when [n <= 0], since [np.min] of no numbers raises. *)
Theorem api_generar_numeros_estado metodo
  (parametros_json : option (gmap string Z)) :
  let p := default ∅ parametros_json in
  let m := default 16 (p !! "m") in
  let n := default 10 (p !! "n") in
  let respuesta := api_generar_numeros metodo parametros_json in
  let conocido :=
    metodo = Some "lineal" \/ metodo = Some "multiplicativo" in
  (~ conocido -> respuesta = (CuerpoError "Método no válido", 400)) /\
  (conocido -> m <> 0 -> 1 <= n ->
   exists numeros est,
     respuesta = (CuerpoNumeros numeros est, 200) /\
     Z.of_nat (length numeros) = n /\
     api_min est ∈ numeros /\ api_max est ∈ numeros) /\
  (conocido -> m = 0 -> 1 <= n ->
   respuesta = (CuerpoExcepcion ZeroDivisionError, 500)) /\
  (conocido -> n <= 0 -> respuesta = (CuerpoExcepcion ValueError, 500)).
Proof.
  intros p m n respuesta conocido. unfold respuesta, conocido.
  split.
  { intros H. unfold api_generar_numeros. cbv zeta.
    rewrite !decide_False by tauto. reflexivity. }
  assert (H : metodo = Some "lineal" \/ metodo = Some "multiplicativo" ->
              exists f semilla,
                api_generar_numeros metodo parametros_json =
                capturar
                  (numeros ← bucle f semilla m n;
                   let media := Np.mean numeros in
                   let desviacion := Np.std numeros in
                   minimo ← Np.min numeros;
                   maximo ← Np.max numeros;
                   Ok (CuerpoNumeros numeros
                         (EstadisticasApi media desviacion minimo maximo),
                       200))
                  (fun e => (CuerpoExcepcion e, 500))).
  { intros [->| ->]; unfold api_generar_numeros; cbv zeta; fold p m n.
    - rewrite decide_True by reflexivity.
      exists (fun x => default 5 (p !! "a") * x + default 3 (p !! "c")),
        (default 1 (p !! "semilla")). reflexivity.
    - rewrite decide_False by discriminate.
      rewrite decide_True by reflexivity.
      exists (fun x => default 5 (p !! "a") * x),
        (default 1 (p !! "semilla")). reflexivity. }
  repeat split; intros Hc; destruct (H Hc) as (f & semilla & ->);
    destruct (api_respuesta_bucle f semilla m n) as (H1 & H2 & H3);
    [|assumption..].
  intros Hm Hn. destruct (H1 Hm Hn) as (l & est & E & _ & Hl & Hmin & Hmax).
  exists l, est. auto.
Qed.

Lemma api_generar_numeros_estado_testigo :
  api_generar_numeros (Some "cuadratico") None =
    (CuerpoError "Método no válido", 400) /\
  (exists numeros est,
     api_generar_numeros (Some "lineal") None =
       (CuerpoNumeros numeros est, 200) /\
     Z.of_nat (length numeros) = 10 /\
     api_min est ∈ numeros /\ api_max est ∈ numeros) /\
  api_generar_numeros (Some "lineal") (Some (<["m" := 0]> ∅)) =
    (CuerpoExcepcion ZeroDivisionError, 500) /\
  api_generar_numeros (Some "multiplicativo") (Some (<["n" := 0]> ∅)) =
    (CuerpoExcepcion ValueError, 500).
Proof.
  pose proof (api_generar_numeros_estado (Some "cuadratico") None)
    as (H1 & _).
  pose proof (api_generar_numeros_estado (Some "lineal") None)
    as (_ & H2 & _).
  pose proof (api_generar_numeros_estado (Some "lineal")
                (Some (<["m" := 0]> ∅))) as (_ & _ & H3 & _).
  pose proof (api_generar_numeros_estado (Some "multiplicativo")
                (Some (<["n" := 0]> ∅))) as (_ & _ & _ & H4).
  split; [|split; [|split]].
  - apply H1. intros [H|H]; discriminate H.
  - apply H2; [left; reflexivity | discriminate | vm_compute; discriminate].
  - apply H3; [left; reflexivity | reflexivity | vm_compute; discriminate].
  - apply H4; [right; reflexivity | vm_compute; discriminate].
Defined.

(** ** File names *)

Section SanitizarLemas.

Variable unicode_alnum : N -> bool.

Local Abbreviation permitido := (permitido unicode_alnum).
Local Abbreviation sanitizar := (sanitizar_nombre_archivo unicode_alnum).

Lemma sanitizar_permitidos nombre :
  Forall (fun c => permitido c = true) (sanitizar nombre).
Proof.
  unfold sanitizar_nombre_archivo. cbv zeta.
  assert (H : Forall (fun c => permitido c = true)
                (filter (fun c => permitido c = true) nombre)).
  { apply Forall_forall. intros c Hc. apply list_elem_of_filter in Hc. tauto. }
  destruct (255 <? _)%nat; [apply Forall_take|]; exact H.
Qed.

Lemma sanitizar_longitud nombre : (length (sanitizar nombre) <= 255)%nat.
Proof.
  unfold sanitizar_nombre_archivo. cbv zeta.
  destruct (Nat.ltb_spec 255
              (length (filter (fun c => permitido c = true) nombre))).
  - rewrite length_take. lia.
  - assumption.
Qed.

Lemma sanitizar_fijo nombre :
  Forall (fun c => permitido c = true) nombre ->
  (length nombre <= 255)%nat ->
  sanitizar nombre = nombre.
Proof.
  intros Hp Hl. unfold sanitizar_nombre_archivo. cbv zeta.
  assert (Hf : filter (fun c => permitido c = true) nombre = nombre).
  { clear Hl. induction Hp as [|c l Hc _ IH]; [reflexivity|].
    rewrite filter_cons, decide_True by assumption. f_equal. exact IH. }
  rewrite Hf. destruct (Nat.ltb_spec 255 (length nombre)); [lia|reflexivity].
Qed.

(** X15. A sanitized file name has at most 255 characters, all of the
    class [[\w\-_.]]; it holds no slash, no backslash, no NUL and no
    space. *)
Theorem sanitizar_nombre_seguro nombre :
  let r := sanitizar nombre in
  (length r <= 255)%nat /\
  Forall (fun c => permitido c = true) r /\
  (47%N ∉ r) /\ (92%N ∉ r) /\ (0%N ∉ r) /\ (32%N ∉ r).
Proof.
  intros r. split; [apply sanitizar_longitud|].
  pose proof (sanitizar_permitidos nombre) as H. fold r in H.
  split; [exact H|].
  rewrite Forall_forall in H.
  repeat split; intros Hin; apply H in Hin; discriminate Hin.
Qed.

(** X16. Sanitizing is idempotent and only deletes characters; it returns
    the name unchanged exactly when the name has at most 255 characters,
    all of the class [[\w\-_.]]: dots are kept, so a name of dots
    alone, as [..], passes unchanged. *)
Theorem sanitizar_nombre_idempotente nombre :
  sanitizar (sanitizar nombre) = sanitizar nombre /\
  sanitizar nombre `sublist_of` nombre /\
  (sanitizar nombre = nombre <->
   Forall (fun c => permitido c = true) nombre /\
   (length nombre <= 255)%nat).
Proof.
  split; [|split].
  - apply sanitizar_fijo; [apply sanitizar_permitidos | apply sanitizar_longitud].
  - unfold sanitizar_nombre_archivo. cbv zeta.
    destruct (255 <? _)%nat.
    + etransitivity; [apply sublist_take | apply sublist_filter].
    + apply sublist_filter.
  - split.
    + intros H. rewrite <- H.
      split; [apply sanitizar_permitidos | apply sanitizar_longitud].
    + intros [Hp Hl]. apply sanitizar_fijo; assumption.
Qed.

End SanitizarLemas.

(** ** Numeric ranges *)

Ltac casos_de_orden :=
  repeat match goal with
         | H : context [PosDef.Pos.compare_cont Eq ?a ?b] |- _ =>
             change (PosDef.Pos.compare_cont Eq a b) with (Pos.compare a b)
               in H
         | |- context [PosDef.Pos.compare_cont Eq ?a ?b] =>
             change (PosDef.Pos.compare_cont Eq a b) with (Pos.compare a b)
         | H : context [(?a ?= ?b)%Z] |- _ =>
             destruct (Z.compare_spec a b); cbn [CompOpp] in H
         | H : context [(?a ?= ?b)%positive] |- _ =>
             destruct (Pos.compare_spec a b); cbn [CompOpp] in H
         | |- context [(?a ?= ?b)%Z] =>
             destruct (Z.compare_spec a b); cbn [CompOpp]
         | |- context [(?a ?= ?b)%positive] =>
             destruct (Pos.compare_spec a b); cbn [CompOpp]
         end.

Section RangoLemas.

Variable float_de_cadena : string -> option float.
Variable str_float : float -> string.

Local Abbreviation validar_rango :=
  (validar_rango_numerico float_de_cadena str_float).

Lemma comprobar_maximo_nan max_val :
  comprobar_maximo str_float Np.nan max_val = (true, "Valor válido").
Proof. destruct max_val as [mx|]; [destruct mx|]; reflexivity. Qed.

Lemma validar_rango_de_float valor num min_val max_val :
  py_float float_de_cadena valor = Ok num ->
  validar_rango valor min_val max_val =
    match min_val with
    | Some mn =>
        if F64.ltb num mn
        then Ok (false, "El valor debe ser mayor o igual a " +:+ str_float mn)
        else Ok (comprobar_maximo str_float num max_val)
    | None => Ok (comprobar_maximo str_float num max_val)
    end.
Proof.
  intros H. unfold validar_rango_numerico. cbv zeta. rewrite H, mbind_Ok.
  destruct min_val as [mn|]; [destruct (F64.ltb num mn)|]; reflexivity.
Qed.

Lemma ltb_irreflexiva x : F64.ltb x x = false.
Proof.
  unfold F64.ltb, SFltb.
  destruct x as [s|s| |s m e]; simpl; try destruct s; try reflexivity;
    rewrite Z.compare_refl, ?Pos.compare_refl; reflexivity.
Qed.

Lemma compare_cont_eq m1 m2 :
  PosDef.Pos.compare_cont Eq m1 m2 = Pos.compare m1 m2.
Proof. reflexivity. Qed.

(** With the maximum below the minimum no number is in range. *)
Lemma rango_invertido num mn mx :
  F64.ltb mx mn = true -> F64.es_nan num = false ->
  F64.ltb num mn = true \/ F64.gtb num mx = true.
Proof.
  unfold F64.gtb, F64.ltb, SFltb.
  destruct num as [s|s| |s m e]; try discriminate;
    destruct mn as [s1|s1| |s1 m1 e1]; destruct mx as [s2|s2| |s2 m2 e2];
    cbn [SFcompare F64.es_nan]; try discriminate;
    repeat match goal with s : bool |- _ => destruct s end;
    try discriminate; auto;
    rewrite ?compare_cont_eq; intros H _;
    casos_de_orden; try discriminate; auto; try lia.
Qed.

(** X17. The bounds of [validar_rango_numerico] are inclusive: a float
    is accepted in the range from itself to itself. A range whose
    maximum is below its minimum rejects every value that [float] reads
    as a number other than [NaN]. [NaN] is accepted in every range, as a
    float and as a string that [float] reads as [NaN]: both comparisons
    are false on it. *)
Theorem rango_limites_y_nan (min_val max_val : option float) :
  (forall x,
     validar_rango (OFloat x) (Some x) (Some x) = Ok (true, "Valor válido")) /\
  (forall valor num mn mx,
     py_float float_de_cadena valor = Ok num -> F64.es_nan num = false ->
     F64.ltb mx mn = true ->
     exists msg, validar_rango valor (Some mn) (Some mx) = Ok (false, msg)) /\
  validar_rango (OFloat Np.nan) min_val max_val = Ok (true, "Valor válido") /\
  (forall s, float_de_cadena s = Some Np.nan ->
     validar_rango (OStr s) min_val max_val = Ok (true, "Valor válido")).
Proof.
  split.
  { intros x. rewrite (validar_rango_de_float (OFloat x) x) by reflexivity.
    rewrite ltb_irreflexiva. unfold comprobar_maximo, F64.gtb.
    fold (F64.ltb x x). rewrite ltb_irreflexiva. reflexivity. }
  split.
  { intros valor num mn mx Hv Hn Hinv.
    rewrite (validar_rango_de_float valor num) by assumption.
    destruct (F64.ltb num mn) eqn:E1; [eexists; reflexivity|].
    destruct (rango_invertido num mn mx Hinv Hn) as [H|H]; [congruence|].
    unfold comprobar_maximo. rewrite H. eexists. reflexivity. }
  assert (H : forall valor, py_float float_de_cadena valor = Ok Np.nan ->
                validar_rango valor min_val max_val = Ok (true, "Valor válido")).
  { intros valor Hv. rewrite (validar_rango_de_float valor Np.nan) by assumption.
    rewrite comprobar_maximo_nan.
    destruct min_val as [mn|]; [destruct mn|]; reflexivity. }
  split; [apply H; reflexivity|].
  intros s Hs. apply H. simpl. rewrite Hs. reflexivity.
Qed.

(** X18. [None] and a string that [float] cannot read are answered with
    'El valor debe ser un número'. The only exception that escapes is the
    [OverflowError] of an integer beyond the range of a float, as
    [2^1024]: the handler catches [ValueError] and [TypeError] only. *)
Theorem rango_no_numerico valor (min_val max_val : option float) :
  (valor = ONone \/ (exists s, valor = OStr s /\ float_de_cadena s = None) ->
   validar_rango valor min_val max_val =
     Ok (false, "El valor debe ser un número")) /\
  (forall e, validar_rango valor min_val max_val = Lanza e ->
     e = OverflowError /\
     exists z, valor = OInt z /\ F64.es_finito (F64.of_Z z) = false) /\
  validar_rango (OInt (2 ^ 1024)) min_val max_val = Lanza OverflowError.
Proof.
  split; [|split].
  - intros [->|(s & -> & Hs)]; unfold validar_rango_numerico; simpl;
      [|rewrite Hs]; reflexivity.
  - intros e H.
    destruct (py_float float_de_cadena valor) as [num|e'] eqn:E.
    + rewrite (validar_rango_de_float valor num) in H by assumption.
      destruct min_val as [mn|]; [destruct (F64.ltb num mn)|]; discriminate.
    + unfold validar_rango_numerico in H. cbv zeta in H. rewrite E in H.
      destruct valor as [|z|x|s]; simpl in E.
      * injection E as <-. discriminate.
      * destruct (F64.es_finito (F64.of_Z z)) eqn:Ef; [discriminate|].
        injection E as <-. simpl in H. injection H as <-.
        split; [reflexivity|]. exists z. split; [reflexivity | exact Ef].
      * discriminate.
      * destruct (float_de_cadena s); [discriminate|].
        injection E as <-. discriminate.
  - assert (E : py_float float_de_cadena (OInt (2 ^ 1024))
                = Lanza OverflowError) by (vm_compute; reflexivity).
    unfold validar_rango_numerico. cbv zeta. rewrite E. reflexivity.
Qed.

End RangoLemas.

(** ** Reports of a validation *)

(** X19. The report built from the error list of either validator
    agrees with that validator: its ['valido'] is the validator's verdict
    and its ['total_errores'] the number of messages, whatever the
    warnings. *)
Theorem reporte_concuerda_con_validadores
  tipo (p : gmap string Z) df requeridas advertencias :
  let de_parametros :=
    generar_reporte_validacion
      (snd (validar_parametros_congruencial tipo p)) advertencias in
  let de_datos :=
    generar_reporte_validacion
      (snd (validar_dataframe df requeridas)) advertencias in
  dict_get de_parametros "valido" =
    Some (VBool (fst (validar_parametros_congruencial tipo p))) /\
  dict_get de_datos "valido" =
    Some (VBool (fst (validar_dataframe df requeridas))) /\
  dict_get de_parametros "total_errores" =
    Some (VInt (Z.of_nat
                  (length (snd (validar_parametros_congruencial tipo p))))) /\
  dict_get de_datos "total_errores" =
    Some (VInt (Z.of_nat (length (snd (validar_dataframe df requeridas))))).
Proof.
  intros de_parametros de_datos.
  assert (Hd : fst (validar_dataframe df requeridas) =
               Nat.eqb (length (snd (validar_dataframe df requeridas))) 0).
  { unfold validar_dataframe. destruct (df_empty df); reflexivity. }
  split; [reflexivity|]. split; [|split; reflexivity].
  rewrite Hd. reflexivity.
Qed.

(** ** Uploaded files *)

Section ArchivoLemas.

Variable minusculas : string -> string.

Local Abbreviation validar_archivo := (validar_archivo_subido minusculas).

(** X20. An accepted upload has a name ending, in lower case, with an
    allowed extension, at most 16 MiB from the read position on, and is
    left rewound to position 0. A rejected upload is left untouched,
    unless it was rejected for its size: then the stream has been read
    and stays at its end. *)
Theorem archivo_validado_estado a extensiones :
  let permitidas :=
    default [".csv"; ".xlsx"; ".xls"; ".txt"; ".json"] extensiones in
  let '(veredicto, despues) := validar_archivo (Some a) extensiones in
  match veredicto with
  | (true, _) =>
      filename a <> "" /\
      (exists ext, ext ∈ permitidas /\
                   termina_en (minusculas (filename a)) ext = true) /\
      (tamano a - posicion a <= 16 * 1024 * 1024)%N /\
      despues = Some (Archivo (filename a) (tamano a) 0)
  | (false, _) =>
      despues = Some a \/
      ((16 * 1024 * 1024 < tamano a - posicion a)%N /\
       despues = Some (Archivo (filename a) (tamano a) (tamano a)))
  end.
Proof.
  intros permitidas. unfold validar_archivo_subido. fold permitidas.
  destruct (String.eqb_spec (filename a) "") as [E|E]; [left; reflexivity|].
  destruct (existsb _ permitidas) eqn:Ex; simpl negb; cbv iota.
  2: { left. reflexivity. }
  unfold leer.
  destruct (N.ltb_spec (16 * 1024 * 1024) (tamano a - posicion a)) as [Hg|Hg].
  - right. split; [assumption|]. do 2 f_equal. lia.
  - split; [assumption|]. split; [|split; [assumption | reflexivity]].
    apply existsb_exists in Ex as (ext & Hin & Hext).
    exists ext. split; [apply list_elem_of_In; assumption | assumption].
Qed.

End ArchivoLemas.

(** ** The two reports *)

(** X21. The two reports agree: for every sequence both
    [calcular_estadisticos_basicos] and [calcular_estadisticos] return,
    and every entry of the basic report is an entry of the full one,
    with the same value. *)
Theorem estadisticos_basicos_en_completos
  (potencia : float -> Z -> float) (numeros : list float) :
  exists basicos completos,
    calcular_estadisticos_basicos numeros = Ok basicos /\
    calcular_estadisticos potencia numeros = Ok completos /\
    forall k v, dict_get basicos k = Some v -> dict_get completos k = Some v.
Proof.
  destruct numeros as [|x l].
  { exists [], []. repeat split. intros k v H. discriminate. }
  assert (Hn : x :: l <> []) by discriminate.
  destruct (calcular_moda_retorna _ Hn) as [moda Hm].
  destruct (min_retorna _ Hn) as [mn Hmn].
  destruct (max_retorna _ Hn) as [mx Hmx].
  destruct (percentile_retorna _ 25 Hn) as [q1 Hq1].
  destruct (percentile_retorna _ 75 Hn) as [q3 Hq3].
  unfold calcular_estadisticos_basicos, calcular_estadisticos.
  cbv beta iota zeta.
  rewrite Hm, Hmn, Hmx, Hq1, Hq3, !mbind_Ok.
  eexists _, _. split; [reflexivity|]. split; [reflexivity|].
  intros k v. cbn [dict_get].
  repeat match goal with
         | |- context [String.eqb ?a k] =>
             destruct (String.eqb_spec a k) as [<-|_];
             [cbn [String.eqb Ascii.eqb Bool.eqb]; intros H;
              first [exact H | discriminate H]|]
         end.
  discriminate.
Qed.

(** X22. For a non-empty sequence the reported minimum and maximum are
    values of the sequence, and ['rango'] is their float difference. *)
Theorem estadisticos_extremos_de_la_muestra (numeros : list float) :
  numeros <> [] ->
  exists basicos minimo maximo,
    calcular_estadisticos_basicos numeros = Ok basicos /\
    dict_get basicos "minimo" = Some (VFloat minimo) /\
    dict_get basicos "maximo" = Some (VFloat maximo) /\
    dict_get basicos "rango" = Some (VFloat (F64.sub maximo minimo)) /\
    minimo ∈ numeros /\ maximo ∈ numeros.
Proof.
  intros Hn.
  destruct (min_retorna numeros Hn) as [mn Hmn].
  destruct (max_retorna numeros Hn) as [mx Hmx].
  destruct (percentile_retorna numeros 25 Hn) as [q1 Hq1].
  destruct (percentile_retorna numeros 75 Hn) as [q3 Hq3].
  unfold calcular_estadisticos_basicos.
  destruct numeros as [|x l]; [congruence|].
  cbv beta iota zeta. rewrite Hmn, Hmx, Hq1, Hq3, !mbind_Ok.
  eexists _, mn, mx. split; [reflexivity|].
  repeat split; try reflexivity.
  - apply np_min_elemento, Hmn.
  - apply np_max_elemento, Hmx.
Qed.

Lemma estadisticos_extremos_de_la_muestra_testigo :
  exists basicos minimo maximo,
    calcular_estadisticos_basicos uno_dos_tres = Ok basicos /\
    dict_get basicos "minimo" = Some (VFloat minimo) /\
    dict_get basicos "maximo" = Some (VFloat maximo) /\
    dict_get basicos "rango" = Some (VFloat (F64.sub maximo minimo)) /\
    minimo ∈ uno_dos_tres /\ maximo ∈ uno_dos_tres.
Proof.
  apply (estadisticos_extremos_de_la_muestra uno_dos_tres). discriminate.
Defined.

(** ** The mode *)

Lemma contar_claves contador x k :
  k ∈ map fst (contar contador x) -> k ∈ map fst contador \/ k = x.
Proof.
  induction contador as [|[k' c] resto IH]; simpl.
  - intros H. apply list_elem_of_singleton in H. auto.
  - destruct (F64.eqb k' x); simpl; [auto|].
    intros H. apply elem_of_cons in H as [->|H].
    + left. apply list_elem_of_here.
    + destruct (IH H) as [H'|H']; [left; apply list_elem_of_further, H' | auto].
Qed.

Lemma fold_contar_claves l : forall contador k,
  k ∈ map fst (fold_left contar l contador) ->
  k ∈ map fst contador \/ k ∈ l.
Proof.
  induction l as [|x l IH]; intros contador k H; simpl in H; [auto|].
  destruct (IH _ _ H) as [H'|H'].
  - destruct (contar_claves _ _ _ H') as [H''| ->]; [auto|].
    right. apply list_elem_of_here.
  - right. apply list_elem_of_further, H'.
Qed.

Lemma py_max_elemento xs mx : py_max xs = Ok mx -> mx ∈ xs.
Proof.
  destruct xs as [|x xs]; [discriminate|]. simpl. intros H. injection H as <-.
  revert x. induction xs as [|y xs IH]; intros x; simpl.
  - apply list_elem_of_here.
  - destruct (Z.max_spec x y) as [[_ ->]|[_ ->]].
    + apply list_elem_of_further, IH.
    + specialize (IH x). apply elem_of_cons in IH as [->|IH].
      * apply list_elem_of_here.
      * apply list_elem_of_further, list_elem_of_further, IH.
Qed.

Lemma contar_nuevo contador x :
  Forall (fun kc => F64.eqb (fst kc) x = false) contador ->
  contar contador x = contador ++ [(x, 1)].
Proof.
  induction 1 as [|[k c] resto Hk _ IH]; simpl; [reflexivity|].
  simpl in Hk. rewrite Hk, IH. reflexivity.
Qed.

Lemma fold_contar_distintos l : forall contador,
  Forall (fun kc => Forall (fun y => F64.eqb (fst kc) y = false) l) contador ->
  distintos l ->
  fold_left contar l contador = contador ++ map (fun x => (x, 1)) l.
Proof.
  induction l as [|x l IH]; intros contador Hc Hd; simpl.
  - rewrite app_nil_r. reflexivity.
  - destruct Hd as [Hx Hd]. rewrite contar_nuevo.
    + rewrite IH; [rewrite <- app_assoc; reflexivity | | assumption].
      apply Forall_app. split.
      * eapply Forall_impl; [exact Hc|]. intros kc H. simpl in H.
        inversion H; assumption.
      * constructor; [exact Hx | constructor].
    + eapply Forall_impl; [exact Hc|]. intros kc H. simpl in H.
      inversion H; assumption.
Qed.

Lemma py_max_unos (l : list float) :
  l <> [] -> py_max (map snd (map (fun x : float => (x, 1)) l)) = Ok 1.
Proof.
  destruct l as [|x l]; [congruence|]. intros _. simpl. f_equal.
  induction l as [|y l IH]; simpl; [reflexivity | exact IH].
Qed.

Lemma filtro_de_unos (l : list float) :
  map fst (filter (fun nf : float * Z => snd nf = 1)
             (map (fun x : float => (x, 1)) l)) = l.
Proof.
  induction l as [|y l IH]; [reflexivity|].
  cbn [map]. rewrite filter_cons, decide_True by reflexivity.
  cbn [map fst]. f_equal. exact IH.
Qed.

(** X23. For a non-empty sequence [calcular_moda] returns a non-empty
    list of values of the sequence; when no value is NaN and no two
    values are equal it returns the whole sequence, every value being a
    mode. (A NaN is left out of the second part: a dictionary finds a
    key by identity before [==], so the count of a NaN depends on
    whether its occurrences are one object.) *)
Theorem moda_de_la_muestra (numeros : list float) :
  numeros <> [] ->
  (exists modas,
     calcular_moda numeros = Ok modas /\ modas <> [] /\
     Forall (fun x => x ∈ numeros) modas) /\
  (Forall no_nan numeros -> distintos numeros ->
   calcular_moda numeros = Ok numeros).
Proof.
  intros Hn. split.
  - unfold calcular_moda.
    destruct (py_max (map snd (Counter numeros))) as [mx|e] eqn:E.
    2: { pose proof (Counter_no_vacio numeros Hn) as Hc.
         destruct (Counter numeros); [congruence | discriminate]. }
    rewrite mbind_Ok. eexists. split; [reflexivity|]. split.
    + apply py_max_elemento in E.
      apply list_elem_of_In, in_map_iff in E as ([k c] & Hc & Hin).
      simpl in Hc. subst c. apply list_elem_of_In in Hin.
      intros Hnil.
      assert (Hk : k ∈ map fst (filter (fun nf : float * Z => snd nf = mx)
                                  (Counter numeros))).
      { apply list_elem_of_In, in_map_iff. exists (k, mx).
        split; [reflexivity|]. apply list_elem_of_In, list_elem_of_filter.
        split; [reflexivity | exact Hin]. }
      rewrite Hnil in Hk. inversion Hk.
    + apply Forall_forall. intros k Hk.
      apply list_elem_of_In, in_map_iff in Hk as ([k' c] & <- & Hin).
      apply list_elem_of_In, list_elem_of_filter in Hin as [_ Hin].
      destruct (fold_contar_claves numeros [] k') as [H|H];
        [|inversion H|exact H].
      apply list_elem_of_In, in_map_iff. exists (k', c).
      split; [reflexivity | apply list_elem_of_In, Hin].
  - intros _ Hd. unfold calcular_moda, Counter.
    rewrite fold_contar_distintos by (constructor || assumption).
    cbn [app]. rewrite py_max_unos by assumption.
    rewrite mbind_Ok, filtro_de_unos. reflexivity.
Qed.

Lemma moda_de_la_muestra_testigo :
  (exists modas,
     calcular_moda uno_dos_tres = Ok modas /\ modas <> [] /\
     Forall (fun x => x ∈ uno_dos_tres) modas) /\
  calcular_moda uno_dos_tres = Ok uno_dos_tres.
Proof.
  destruct (moda_de_la_muestra uno_dos_tres) as [H1 H2]; [discriminate|].
  split; [exact H1|]. apply H2.
  - repeat constructor.
  - simpl. repeat constructor.
Defined.

(** ** Serial correlation, lag by lag *)

Lemma py_bound_tope {A : Type} (l : list A) (i : Z) :
  Z.of_nat (length l) <= i -> py_bound l i = length l.
Proof.
  intros H. unfold py_bound. destruct (Z.ltb_spec i 0); lia.
Qed.

Lemma py_bound_fondo {A : Type} (l : list A) (i : Z) :
  i <= - Z.of_nat (length l) -> i < 0 -> py_bound l i = O.
Proof.
  intros H H0. unfold py_bound. destruct (Z.ltb_spec i 0); lia.
Qed.

(** X24. [correlacion_serial] lag by lag, for a sequence of length [n]:
    0.0 for [lag >= n]; the coefficient of [seq[0:n-lag]] and [seq[lag:]]
    for [0 < lag < n]; for a negative lag [-n < lag < 0] the coefficient
    of the first and the last [-lag] values, which is the result for the
    lag [n + lag]; for [lag <= -n], negative, the coefficient of the
    sequence with itself. *)
Theorem correlacion_serial_por_lag
  (pearson : list float -> list float -> float)
  (numeros : list float) (lag : Z) :
  let n := length numeros in
  (Z.of_nat n <= lag -> correlacion_serial pearson numeros lag = Ok F64.cero) /\
  (0 < lag < Z.of_nat n ->
   correlacion_serial pearson numeros lag =
     Ok (pearson (firstn (n - Z.to_nat lag) numeros)
                 (skipn (Z.to_nat lag) numeros))) /\
  (- Z.of_nat n < lag < 0 ->
   correlacion_serial pearson numeros lag =
     Ok (pearson (firstn (Z.to_nat (- lag)) numeros)
                 (skipn (n - Z.to_nat (- lag)) numeros)) /\
   correlacion_serial pearson numeros lag =
     correlacion_serial pearson numeros (Z.of_nat n + lag)) /\
  (lag <= - Z.of_nat n -> lag < 0 ->
   correlacion_serial pearson numeros lag = Ok (pearson numeros numeros)).
Proof.
  intros n.
  pose proof (correlacion_serial_ventanas pearson numeros lag) as [Hpos Hge].
  fold n in Hpos, Hge.
  split; [exact Hge|]. split; [exact Hpos|]. split.
  - intros Hl.
    assert (E : correlacion_serial pearson numeros lag =
                Ok (pearson (firstn (Z.to_nat (- lag)) numeros)
                      (skipn (n - Z.to_nat (- lag)) numeros))).
    { unfold correlacion_serial. fold n.
      destruct (Z.leb_spec (Z.of_nat n) lag); [lia|].
      unfold slice_hasta, slice_desde, corrcoef_01.
      rewrite py_bound_no_negativo, py_bound_negativo by (fold n; lia).
      fold n.
      replace (Z.to_nat (Z.of_nat n + lag)) with (n - Z.to_nat (- lag))%nat
        by lia.
      rewrite length_take, length_drop. fold n.
      replace (Z.to_nat (- lag) `min` n)%nat with (Z.to_nat (- lag)) by lia.
      replace (n - (n - Z.to_nat (- lag)))%nat with (Z.to_nat (- lag)) by lia.
      rewrite Nat.eqb_refl. reflexivity. }
    split; [exact E|]. rewrite E.
    pose proof (correlacion_serial_ventanas pearson numeros
                  (Z.of_nat n + lag)) as [Hpos' _].
    fold n in Hpos'. rewrite Hpos' by lia.
    replace (n - Z.to_nat (Z.of_nat n + lag))%nat with (Z.to_nat (- lag))
      by lia.
    replace (Z.to_nat (Z.of_nat n + lag)) with (n - Z.to_nat (- lag))%nat
      by lia.
    reflexivity.
  - intros Hl H0. unfold correlacion_serial. fold n.
    destruct (Z.leb_spec (Z.of_nat n) lag); [lia|].
    unfold slice_hasta, slice_desde, corrcoef_01.
    rewrite py_bound_tope, py_bound_fondo by (fold n; lia).
    rewrite firstn_all, drop_0, Nat.eqb_refl. reflexivity.
Qed.

Lemma correlacion_serial_por_lag_testigo :
  let pearson := fun _ _ : list float => F64.uno in
  correlacion_serial pearson uno_dos_tres 3 = Ok F64.cero /\
  correlacion_serial pearson uno_dos_tres 1 =
    Ok (pearson (firstn 2 uno_dos_tres) (skipn 1 uno_dos_tres)) /\
  correlacion_serial pearson uno_dos_tres (-1) =
    correlacion_serial pearson uno_dos_tres 2 /\
  correlacion_serial pearson uno_dos_tres (-5) =
    Ok (pearson uno_dos_tres uno_dos_tres).
Proof.
  intros pearson.
  pose proof (correlacion_serial_por_lag pearson uno_dos_tres 3)
    as (H1 & _ & _ & _).
  pose proof (correlacion_serial_por_lag pearson uno_dos_tres 1)
    as (_ & H2 & _ & _).
  pose proof (correlacion_serial_por_lag pearson uno_dos_tres (-1))
    as (_ & _ & H3 & _).
  pose proof (correlacion_serial_por_lag pearson uno_dos_tres (-5))
    as (_ & _ & _ & H4).
  unfold uno_dos_tres in *. simpl length in *.
  split; [apply H1; lia|]. split; [apply H2; lia|].
  split; [apply H3; lia | apply H4; lia].
Defined.

(** ** The runs test, further *)

Lemma bucle_rachas_cota secuencia : forall rachas,
  rachas <= bucle_rachas secuencia rachas
         <= rachas + Z.max 0 (Z.of_nat (length secuencia) - 1).
Proof.
  induction secuencia as [|x [|y resto] IH]; intros rachas.
  - simpl. lia.
  - simpl. lia.
  - rewrite bucle_rachas_cons.
    specialize (IH (if y =? x then rachas else rachas + 1)).
    cbn [length] in *. destruct (y =? x); lia.
Qed.

Lemma prueba_aleatoriedad_reporta
  (formato : nat -> float -> string) (norm_cdf : float -> float)
  (numeros : list float) z :
  estadistico_rachas (bucle_rachas (signos numeros) 1)
    (suma (signos numeros))
    (Z.of_nat (length (signos numeros)) - suma (signos numeros)) = Ok z ->
  exists r,
    prueba_aleatoriedad formato norm_cdf todo_disponible numeros = Ok r /\
    dict_get r "numero_rachas" =
      Some (VInt (bucle_rachas (signos numeros) 1)) /\
    dict_get r "estadistico_z" = Some z.
Proof.
  intros Hz. unfold prueba_aleatoriedad.
  cbn [todo_disponible statsmodels_disponible scipy_disponible importar].
  rewrite mbind_Ok. cbv zeta. rewrite Hz, !mbind_Ok.
  eexists. repeat split.
Qed.

(** X25. With both packages installed the runs test raises
    [ZeroDivisionError] on the empty sequence, and on every sequence of
    [2 <= n < 2^1000] values it returns a report whose run count lies
    between 1 and [n]. *)
Theorem rachas_reportadas
  (formato : nat -> float -> string) (norm_cdf : float -> float)
  (numeros : list float) :
  prueba_aleatoriedad formato norm_cdf todo_disponible [] =
    Lanza ZeroDivisionError /\
  (2 <= Z.of_nat (length numeros) < 2 ^ 1000 ->
   exists r k,
     prueba_aleatoriedad formato norm_cdf todo_disponible numeros = Ok r /\
     dict_get r "numero_rachas" = Some (VInt k) /\
     1 <= k <= Z.of_nat (length numeros)).
Proof.
  split; [reflexivity|]. intros Hn.
  pose proof (suma_signos_cota numeros) as Hs.
  assert (Hl : length (signos numeros) = length numeros)
    by (unfold signos; apply length_map).
  destruct (estadistico_rachas_retorna
              (bucle_rachas (signos numeros) 1) (suma (signos numeros))
              (Z.of_nat (length (signos numeros)) - suma (signos numeros)))
    as [z Hz]; [lia | rewrite Hl; lia | rewrite Hl; lia |].
  destruct (prueba_aleatoriedad_reporta formato norm_cdf numeros z Hz)
    as (r & Hr & Hk & _).
  exists r, (bucle_rachas (signos numeros) 1).
  split; [exact Hr|]. split; [exact Hk|].
  pose proof (bucle_rachas_cota (signos numeros) 1) as Hc.
  rewrite Hl in Hc. lia.
Qed.

Lemma rachas_reportadas_testigo :
  exists r k,
    prueba_aleatoriedad (fun _ _ => "") (fun _ => F64.cero) todo_disponible
      alternante = Ok r /\
    dict_get r "numero_rachas" = Some (VInt k) /\
    1 <= k <= Z.of_nat (length alternante).
Proof.
  apply (rachas_reportadas (fun _ _ => "") (fun _ => F64.cero) alternante).
  unfold alternante. simpl length.
  split; [lia | vm_compute; reflexivity].
Defined.

Lemma signos_constante x n :
  exists b, (b = 0 \/ b = 1) /\ signos (replicate n x) = replicate n b.
Proof.
  unfold signos.
  exists (if F64.gtb x (Np.median (replicate n x)) then 1 else 0).
  split; [destruct (F64.gtb _ _); auto|].
  generalize (Np.median (replicate n x)). intros med.
  induction n as [|n IH]; simpl; [reflexivity | rewrite IH; reflexivity].
Qed.

Lemma bucle_rachas_constante b n rachas :
  bucle_rachas (replicate n b) rachas = rachas.
Proof.
  induction n as [|[|n] IH]; [reflexivity | reflexivity |].
  cbn [replicate] in *. rewrite bucle_rachas_cons, Z.eqb_refl. exact IH.
Qed.

Lemma suma_constante b n : suma (replicate n b) = Z.of_nat n * b.
Proof.
  unfold suma.
  assert (H : forall acc, fold_left Z.add (replicate n b) acc
                          = acc + Z.of_nat n * b).
  { induction n as [|n IH]; intros acc; simpl; [lia|]. rewrite IH. lia. }
  rewrite H. lia.
Qed.

Lemma py_truediv_cero m : 0 < m -> py_truediv 0 m = Ok F64.cero.
Proof.
  intros Hm. unfold py_truediv.
  destruct (Z.eqb_spec m 0); [lia|].
  rewrite cociente_cero by assumption. reflexivity.
Qed.

Lemma estadistico_rachas_nulo rachas n1 n2 :
  n1 * n2 = 0 -> 2 <= n1 + n2 ->
  estadistico_rachas rachas n1 n2 = Ok (VInt 0).
Proof.
  intros H0 Hn. unfold estadistico_rachas.
  replace (2 * n1 * n2) with 0 by (rewrite <- Z.mul_assoc, H0; reflexivity).
  rewrite Z.mul_0_l.
  rewrite (py_truediv_cero (n1 + n2)) by lia. rewrite mbind_Ok. cbv zeta.
  rewrite py_truediv_cero
    by (apply Z.mul_pos_pos; [apply Z.pow_pos_nonneg; lia | lia]).
  rewrite mbind_Ok. reflexivity.
Qed.

(** X26. On a constant sequence of two values or more the runs test
    reports one run and the integer statistic [z = 0]: the variance of
    the run count is zero and the guard applies. *)
Theorem rachas_de_constante
  (formato : nat -> float -> string) (norm_cdf : float -> float)
  (x : float) (n : nat) :
  (2 <= n)%nat ->
  exists r,
    prueba_aleatoriedad formato norm_cdf todo_disponible (replicate n x)
      = Ok r /\
    dict_get r "numero_rachas" = Some (VInt 1) /\
    dict_get r "estadistico_z" = Some (VInt 0).
Proof.
  intros Hn.
  destruct (signos_constante x n) as (b & Hb & Hs).
  destruct (prueba_aleatoriedad_reporta formato norm_cdf (replicate n x)
              (VInt 0)) as (r & Hr & Hk & Hz).
  { rewrite Hs, bucle_rachas_constante, suma_constante, length_replicate.
    apply estadistico_rachas_nulo; [|lia].
    destruct Hb as [-> | ->]; lia. }
  exists r. split; [exact Hr|]. split; [|exact Hz].
  rewrite Hk, Hs, bucle_rachas_constante. reflexivity.
Qed.

Lemma rachas_de_constante_testigo :
  exists r,
    prueba_aleatoriedad (fun _ _ => "") (fun _ => F64.cero) todo_disponible
      (replicate 3 cinco) = Ok r /\
    dict_get r "numero_rachas" = Some (VInt 1) /\
    dict_get r "estadistico_z" = Some (VInt 0).
Proof.
  apply (rachas_de_constante (fun _ _ => "") (fun _ => F64.cero) cinco 3).
  lia.
Defined.

(** ** The histogram, further *)

Lemma length_adyacentes edges :
  length (adyacentes edges) = (length edges - 1)%nat.
Proof.
  induction edges as [|x [|y resto] IH]; [reflexivity | reflexivity |].
  change (adyacentes (x :: y :: resto))
    with ((x, y) :: adyacentes (y :: resto)).
  cbn [length] in *. rewrite IH. lia.
Qed.

Lemma mapM_longitud {A B : Type} (f : A -> resultado B) : forall l k,
  mapM f l = Ok k -> length k = length l.
Proof.
  induction l as [|x l IH]; intros k H; cbn [mapM] in H.
  - injection H as <-. reflexivity.
  - destruct (f x) as [y|e]; [|discriminate]. rewrite mbind_Ok in H.
    destruct (mapM f l) as [k'|e]; [|discriminate]. rewrite mbind_Ok in H.
    injection H as <-. cbn [length]. f_equal. apply IH. reflexivity.
Qed.

Lemma length_indices_iniciales tmp_a first_edge norm_denom bins :
  length (Np.indices_iniciales tmp_a first_edge norm_denom bins)
  = length tmp_a.
Proof. unfold Np.indices_iniciales. apply length_map. Qed.

Lemma suma_desde l : forall acc, fold_left Z.add l acc = acc + suma l.
Proof.
  unfold suma. induction l as [|x l IH]; intros acc; cbn [fold_left]; [lia|].
  rewrite (IH (acc + x)), (IH (0 + x)). lia.
Qed.

Lemma suma_app l c : suma (l ++ [c]) = suma l + c.
Proof.
  unfold suma. rewrite fold_left_app. reflexivity.
Qed.

Lemma suma_no_negativa l : Forall (fun c => 0 <= c) l -> 0 <= suma l.
Proof.
  induction 1 as [|c l Hc Hl IH]; [reflexivity|].
  unfold suma. cbn [fold_left]. rewrite suma_desde. lia.
Qed.

(** The counts of [np.bincount] over the bins [0 .. k-1] add up to the
    number of indices in that range. *)
Lemma contar_por_bin indices (k : nat) :
  Z.of_nat (length (List.filter (fun i => (0 <=? i) && (i <? Z.of_nat k))
                      indices))
  + Z.of_nat (length (List.filter (Z.eqb (Z.of_nat k)) indices))
  = Z.of_nat (length (List.filter
                        (fun i => (0 <=? i) && (i <? Z.of_nat (S k)))
                        indices)).
Proof.
  induction indices as [|i l IH]; [reflexivity|]. cbn [List.filter].
  destruct (Z.leb_spec 0 i), (Z.ltb_spec i (Z.of_nat k)),
    (Z.ltb_spec i (Z.of_nat (S k))), (Z.eqb_spec (Z.of_nat k) i);
    cbn [andb length]; lia.
Qed.

Lemma contar_indices indices : forall k : nat,
  suma (map (fun j => Z.of_nat (length (List.filter (Z.eqb j) indices)))
          (seqZ 0 (Z.of_nat k)))
  = Z.of_nat (length (List.filter (fun i => (0 <=? i) && (i <? Z.of_nat k))
                        indices)).
Proof.
  induction k as [|k IH].
  - assert (Hv : List.filter (fun i => (0 <=? i) && (i <? Z.of_nat 0)) indices
                 = []).
    { induction indices as [|i l IHl]; [reflexivity|]. cbn [List.filter].
      destruct (Z.leb_spec 0 i), (Z.ltb_spec i (Z.of_nat 0)); cbn [andb];
        (exact IHl || lia). }
    rewrite Hv. reflexivity.
  - rewrite seqZ_S, map_app. cbn [map]. rewrite suma_app, IH, Z.add_0_l.
    apply contar_por_bin.
Qed.

Lemma filter_todos {A : Type} (f : A -> bool) l :
  forallb f l = true -> List.filter f l = l.
Proof.
  induction l as [|x l IH]; [reflexivity|]. cbn [forallb List.filter].
  intros H. apply andb_prop in H as [-> H]. f_equal. apply IH, H.
Qed.

Lemma bincount_forma indices bins h :
  0 <= bins -> Np.bincount indices bins = Ok h ->
  length h = Z.to_nat bins /\
  Forall (fun c => 0 <= c) h /\
  suma h = Z.of_nat (length indices).
Proof.
  intros Hb. unfold Np.bincount.
  destruct (existsb (fun i => i <? 0) indices) eqn:E1; [discriminate|].
  destruct (existsb (fun i => bins <=? i) indices) eqn:E2; [discriminate|].
  intros H. injection H as <-. split; [|split].
  - rewrite length_map, length_seqZ. reflexivity.
  - apply Forall_fmap, Forall_forall. intros j _. cbn. lia.
  - rewrite <- (Z2Nat.id bins Hb) at 1. rewrite contar_indices.
    rewrite filter_todos; [reflexivity|].
    apply forallb_forall. intros i Hi.
    assert (H1 : (i <? 0) = false).
    { destruct (i <? 0) eqn:E; [|reflexivity].
      rewrite <- E1. symmetry. apply existsb_exists. eauto. }
    assert (H2 : (bins <=? i) = false).
    { destruct (bins <=? i) eqn:E; [|reflexivity].
      rewrite <- E2. symmetry. apply existsb_exists. eauto. }
    rewrite Z2Nat.id by assumption. lia.
Qed.

(** What a returned histogram holds. *)
Lemma histogram_forma a bins hist edges :
  Np.histogram a bins = Ok (hist, edges) ->
  1 <= bins /\
  Forall (fun x => F64.es_finito x = true) a /\
  length hist = Z.to_nat bins /\
  length edges = S (Z.to_nat bins) /\
  Forall (fun c => 0 <= c) hist /\
  suma hist <= Z.of_nat (length a) /\
  Forall (fun '(x, y) => F64.leb y x = false) (adyacentes edges).
Proof.
  unfold Np.histogram. destruct (Z.ltb_spec bins 1) as [|Hb]; [discriminate|].
  intros H. split; [assumption|].
  assert (Hf : Forall (fun x => F64.es_finito x = true) a).
  { apply Forall_forall. intros x Hx.
    destruct (F64.es_finito x) eqn:E; [reflexivity|]. exfalso.
    rewrite outer_edges_lanza in H; [discriminate|].
    apply Exists_exists. eauto. }
  split; [exact Hf|].
  destruct (Np.outer_edges a) as [[first_edge last_edge]|]; [|discriminate].
  rewrite mbind_Ok in H.
  set (bin_edges := Np.linspace first_edge last_edge (Z.to_nat bins + 1)) in *.
  destruct (existsb _ (adyacentes bin_edges)) eqn:Ec; [discriminate|].
  set (tmp_a := List.filter _ a) in *.
  destruct (mapM (Np.decrementar bin_edges) _) as [i1|] eqn:E1;
    [|discriminate].
  rewrite mbind_Ok in H.
  destruct (mapM (Np.incrementar bin_edges bins) _) as [i2|] eqn:E2;
    [|discriminate].
  rewrite mbind_Ok in H.
  destruct (Np.bincount i2 bins) as [n|] eqn:E3; [|discriminate].
  rewrite mbind_Ok in H. injection H as <- <-.
  apply bincount_forma in E3 as (Hl & Hp & Hs); [|lia].
  apply mapM_longitud in E1, E2.
  assert (Hlen : length i2 = length tmp_a).
  { rewrite E2, length_zip, E1, length_zip, length_indices_iniciales. lia. }
  split; [exact Hl|]. split.
  { subst bin_edges. rewrite length_linspace. lia. }
  split; [exact Hp|]. split.
  { rewrite Hs, Hlen. subst tmp_a.
    pose proof (filter_length_le
      (fun x => F64.leb first_edge x && F64.leb x last_edge) a). lia. }
  apply Forall_forall. intros [x y] Hxy.
  destruct (F64.leb y x) eqn:E; [|reflexivity].
  rewrite <- Ec. symmetry. apply existsb_exists. exists (x, y).
  split; [apply list_elem_of_In, Hxy | exact E].
Qed.

(** *** The order of the floats *)

Lemma leb_reflexiva x : no_nan x -> F64.leb x x = true.
Proof.
  unfold no_nan, F64.leb, SFleb.
  destruct x as [s|s| |s m e]; simpl; try destruct s; try reflexivity;
    try discriminate; intros _;
    rewrite Z.compare_refl, ?Pos.compare_refl; reflexivity.
Qed.

Lemma leb_total x y :
  no_nan x -> no_nan y -> F64.ltb y x = false -> F64.leb x y = true.
Proof.
  unfold no_nan, F64.leb, F64.ltb, SFleb, SFltb.
  destruct x as [s1|s1| |s1 m1 e1]; try discriminate;
    destruct y as [s2|s2| |s2 m2 e2]; try discriminate;
    cbn [SFcompare F64.es_nan];
    repeat match goal with s : bool |- _ => destruct s end;
    try discriminate; try reflexivity; intros _ _ H;
    casos_de_orden; try discriminate; try reflexivity; try lia.
Qed.

Lemma ltb_leb x y : F64.ltb x y = true -> F64.leb x y = true.
Proof.
  unfold F64.leb, F64.ltb, SFleb, SFltb.
  destruct (SFcompare x y) as [[]|]; try discriminate; reflexivity.
Qed.

Lemma leb_transitiva x y z :
  F64.leb x y = true -> F64.leb y z = true -> F64.leb x z = true.
Proof.
  unfold F64.leb, SFleb.
  destruct x as [s1|s1| |s1 m1 e1]; try discriminate;
    destruct y as [s2|s2| |s2 m2 e2]; try discriminate;
    destruct z as [s3|s3| |s3 m3 e3]; try discriminate;
    cbn [SFcompare];
    repeat match goal with s : bool |- _ => destruct s end;
    try discriminate; try reflexivity; intros H1 H2;
    casos_de_orden; try discriminate; try reflexivity; try lia.
Qed.

Lemma minimum_cota x y :
  no_nan x -> no_nan y ->
  F64.leb (Np.minimum x y) x = true /\ F64.leb (Np.minimum x y) y = true.
Proof.
  intros Hx Hy. unfold Np.minimum. rewrite Hx, Hy.
  destruct (F64.ltb y x) eqn:E.
  - split; [apply ltb_leb, E | apply leb_reflexiva, Hy].
  - split; [apply leb_reflexiva, Hx | apply leb_total; assumption].
Qed.

Lemma maximum_cota x y :
  no_nan x -> no_nan y ->
  F64.leb x (Np.maximum x y) = true /\ F64.leb y (Np.maximum x y) = true.
Proof.
  intros Hx Hy. unfold Np.maximum. rewrite Hx, Hy.
  destruct (F64.ltb x y) eqn:E.
  - split; [apply ltb_leb, E | apply leb_reflexiva, Hy].
  - split; [apply leb_reflexiva, Hx | apply leb_total; assumption].
Qed.

Lemma fold_minimum_cota l : forall x,
  no_nan x -> Forall no_nan l ->
  Forall (fun y => F64.leb (fold_left Np.minimum l x) y = true) (x :: l).
Proof.
  induction l as [|y l IH]; intros x Hx Hl; cbn [fold_left].
  - constructor; [apply leb_reflexiva, Hx | constructor].
  - inversion Hl as [|? ? Hy Hl']; subst.
    destruct (minimum_cota x y Hx Hy) as [H1 H2].
    specialize (IH (Np.minimum x y) (minimum_no_nan x y Hx Hy) Hl').
    inversion IH as [|? ? Hm Hr]; subst.
    constructor; [eapply leb_transitiva; eassumption|].
    constructor; [eapply leb_transitiva; eassumption | exact Hr].
Qed.

Lemma fold_maximum_cota l : forall x,
  no_nan x -> Forall no_nan l ->
  Forall (fun y => F64.leb y (fold_left Np.maximum l x) = true) (x :: l).
Proof.
  induction l as [|y l IH]; intros x Hx Hl; cbn [fold_left].
  - constructor; [apply leb_reflexiva, Hx | constructor].
  - inversion Hl as [|? ? Hy Hl']; subst.
    destruct (maximum_cota x y Hx Hy) as [H1 H2].
    specialize (IH (Np.maximum x y) (maximum_no_nan x y Hx Hy) Hl').
    inversion IH as [|? ? Hm Hr]; subst.
    constructor; [eapply leb_transitiva; eassumption|].
    constructor; [eapply leb_transitiva; eassumption | exact Hr].
Qed.

Lemma finito_no_nan x : F64.es_finito x = true -> no_nan x.
Proof. destruct x; (reflexivity || discriminate). Qed.

(** With values that are not all equal, every value lies between the
    outer edges. *)
Lemma outer_edges_cotas a minimo maximo :
  Forall (fun x => F64.es_finito x = true) a ->
  Np.min a = Ok minimo -> Np.max a = Ok maximo ->
  F64.eqb minimo maximo = false ->
  Np.outer_edges a = Ok (minimo, maximo) /\
  forallb (fun x => F64.leb minimo x && F64.leb x maximo) a = true.
Proof.
  intros Hf Hmin Hmax Hd. destruct a as [|x l]; [discriminate|].
  assert (Hn : Forall no_nan (x :: l))
    by (eapply Forall_impl; [exact Hf | apply finito_no_nan]).
  inversion Hn as [|? ? Hx Hl]; subst.
  pose proof (fold_minimum_cota l x Hx Hl) as Hlo.
  pose proof (fold_maximum_cota l x Hx Hl) as Hhi.
  inversion Hf as [|? ? Hfx Hfl]; subst.
  unfold Np.outer_edges. rewrite Hmin, Hmax, !mbind_Ok.
  cbn [Np.min Np.max] in Hmin, Hmax.
  injection Hmin as <-. injection Hmax as <-.
  rewrite (fold_elige Np.minimum (fun x => F64.es_finito x = true)
             minimum_elige l x), 
          (fold_elige Np.maximum (fun x => F64.es_finito x = true)
             maximum_elige l x) by assumption.
  cbn [andb negb]. rewrite Hd. split; [reflexivity|].
  apply forallb_forall. intros y Hy. apply list_elem_of_In in Hy.
  rewrite Forall_forall in Hlo, Hhi.
  rewrite (Hlo y Hy), (Hhi y Hy). reflexivity.
Qed.

Lemma histogram_suma a bins hist edges minimo maximo :
  Np.histogram a bins = Ok (hist, edges) ->
  Np.min a = Ok minimo -> Np.max a = Ok maximo ->
  F64.eqb minimo maximo = false ->
  suma hist = Z.of_nat (length a).
Proof.
  intros H Hmin Hmax Hd.
  pose proof (histogram_forma a bins hist edges H) as (Hb & Hf & _).
  destruct (outer_edges_cotas a minimo maximo Hf Hmin Hmax Hd) as [He Hk].
  unfold Np.histogram in H. destruct (Z.ltb_spec bins 1); [lia|].
  rewrite He, mbind_Ok in H.
  set (bin_edges := Np.linspace minimo maximo (Z.to_nat bins + 1)) in *.
  destruct (existsb _ (adyacentes bin_edges)); [discriminate|].
  rewrite (filter_todos _ a Hk) in H.
  destruct (mapM (Np.decrementar bin_edges) _) as [i1|] eqn:E1;
    [|discriminate].
  rewrite mbind_Ok in H.
  destruct (mapM (Np.incrementar bin_edges bins) _) as [i2|] eqn:E2;
    [|discriminate].
  rewrite mbind_Ok in H.
  destruct (Np.bincount i2 bins) as [n|] eqn:E3; [|discriminate].
  rewrite mbind_Ok in H. injection H as <- <-.
  apply bincount_forma in E3 as (_ & _ & Hs); [|lia].
  apply mapM_longitud in E1, E2.
  rewrite Hs, E2, length_zip, E1, length_zip, length_indices_iniciales. lia.
Qed.

(** *** What the histogram raises and returns *)

Lemma mapM_lanza {A B : Type} (f : A -> resultado B) : forall l e,
  mapM f l = Lanza e -> exists x, f x = Lanza e.
Proof.
  induction l as [|x l IH]; intros e H; cbn [mapM] in H; [discriminate|].
  destruct (f x) as [y|e'] eqn:E; [|injection H as <-; eauto].
  rewrite mbind_Ok in H.
  destruct (mapM f l) as [k|e'] eqn:Ek; [discriminate|].
  injection H as <-. eapply IH. reflexivity.
Qed.

Lemma elemento_lanza a i e : Np.elemento a i = Lanza e -> e = IndexError.
Proof.
  unfold Np.elemento. cbv zeta. destruct (_ && _); [discriminate|].
  intros H. injection H as <-. reflexivity.
Qed.

(** [np.histogram] raises nothing but [ValueError] and [IndexError]. *)
Lemma histogram_excepciones a bins e :
  Np.histogram a bins = Lanza e -> e = ValueError \/ e = IndexError.
Proof.
  unfold Np.histogram. destruct (bins <? 1).
  { intros H. injection H as <-. auto. }
  destruct (Np.outer_edges a) as [[first_edge last_edge]|e'] eqn:Eo.
  2: { intros H. injection H as <-. left.
       unfold Np.outer_edges in Eo. destruct a as [|x l]; [discriminate|].
       cbn [Np.min Np.max] in Eo. rewrite !mbind_Ok in Eo.
       destruct (negb _); [congruence|]. destruct (F64.eqb _ _); discriminate. }
  rewrite mbind_Ok.
  destruct (existsb _ _). { intros H. injection H as <-. auto. }
  destruct (mapM (Np.decrementar _) _) as [i1|e1] eqn:E1.
  2: { intros H. injection H as <-. right.
       apply mapM_lanza in E1 as [[x i] E1]. unfold Np.decrementar in E1.
       destruct (Np.elemento _ i) eqn:Ee; [discriminate|].
       injection E1 as <-. eapply elemento_lanza, Ee. }
  rewrite mbind_Ok.
  destruct (mapM (Np.incrementar _ _) _) as [i2|e2] eqn:E2.
  2: { intros H. injection H as <-. right.
       apply mapM_lanza in E2 as [[x i] E2]. unfold Np.incrementar in E2.
       destruct (Np.elemento _ (i + 1)) eqn:Ee; [discriminate|].
       injection E2 as <-. eapply elemento_lanza, Ee. }
  rewrite mbind_Ok.
  destruct (Np.bincount i2 bins) as [n|e3] eqn:E3; [discriminate|].
  intros H. injection H as <-. left.
  unfold Np.bincount in E3.
  destruct (existsb _ i2); [congruence|].
  destruct (existsb _ i2); [congruence | discriminate].
Qed.

(** X27. Whenever [generar_histograma] returns on a non-empty sequence,
    [bins >= 1] and every value is finite. The report has [bins]
    frequencies, none negative, whose sum is at most the number of
    values, and is that number when the values are not all equal;
    [bins + 1] edges, none of which reaches the next one; [bins] centers
    and [bins] labels; and the width is the second edge less the first.
    Finite values and [bins >= 1] do not make it return: on the single
    value 2^60 the range, widened by one half on each side, is still
    empty, and ten edges that do not increase raise [ValueError]. *)
Theorem histograma_dimensiones
  (formato : nat -> float -> string) (numeros : list float) (bins : Z)
  (r : reporte) :
  (numeros <> [] -> generar_histograma formato numeros bins = Ok r ->
   1 <= bins /\
   Forall (fun x => F64.es_finito x = true) numeros /\
   exists hist e0 e1 resto centers ranges,
     r = [("frecuencias", VInts hist);
          ("bins_edges", VFloats (e0 :: e1 :: resto));
          ("bins_centers", VFloats centers);
          ("bins_ranges", VStrs ranges);
          ("ancho_bin", VFloat (F64.sub e1 e0))] /\
     Z.of_nat (length hist) = bins /\
     Z.of_nat (length (e0 :: e1 :: resto)) = bins + 1 /\
     Z.of_nat (length centers) = bins /\
     Z.of_nat (length ranges) = bins /\
     Forall (fun c => 0 <= c) hist /\
     suma hist <= Z.of_nat (length numeros) /\
     (forall minimo maximo,
        Np.min numeros = Ok minimo -> Np.max numeros = Ok maximo ->
        F64.eqb minimo maximo = false ->
        suma hist = Z.of_nat (length numeros)) /\
     Forall (fun '(x, y) => F64.leb y x = false)
       (adyacentes (e0 :: e1 :: resto))) /\
  generar_histograma formato [F64.lit 1 60] 10 = Lanza ValueError.
Proof.
  split; [|vm_compute; reflexivity].
  intros Hn H. destruct numeros as [|x l]; [congruence|].
  unfold generar_histograma in H. cbv beta iota zeta in H.
  destruct (Np.histogram (x :: l) bins) as [[hist edges]|] eqn:Hh;
    [|discriminate].
  rewrite mbind_Ok in H.
  pose proof (histogram_forma _ _ _ _ Hh)
    as (Hb & Hf & Hl & Hle & Hp & Hs & Hc).
  destruct edges as [|e0 [|e1 resto]]; [simpl in Hle; lia.. |].
  cbn [py_index lookup list_lookup] in H. rewrite !mbind_Ok in H.
  split; [exact Hb|]. split; [exact Hf|].
  exists hist, e0, e1, resto,
    (map (fun '(x, y) => F64.div (F64.add x y) (F64.of_Z 2))
       (adyacentes (e0 :: e1 :: resto))),
    (map (fun '(x, y) => formato 3%nat x +:+ "-" +:+ formato 3%nat y)
       (adyacentes (e0 :: e1 :: resto))).
  split; [injection H as <-; reflexivity|].
  rewrite !length_map, length_adyacentes, Hl, Hle.
  repeat split; try lia; try assumption.
  intros minimo maximo Hmin Hmax Hd.
  eapply histogram_suma; eassumption.
Qed.

Lemma histograma_dimensiones_testigo :
  exists r,
    generar_histograma (fun _ _ => "") uno_dos_tres 4 = Ok r /\
    exists hist e0 e1 resto centers ranges,
     r = [("frecuencias", VInts hist);
          ("bins_edges", VFloats (e0 :: e1 :: resto));
          ("bins_centers", VFloats centers);
          ("bins_ranges", VStrs ranges);
          ("ancho_bin", VFloat (F64.sub e1 e0))] /\
     suma hist = 3.
Proof.
  assert (E : exists r, generar_histograma (fun _ _ => "") uno_dos_tres 4
                        = Ok r) by (vm_compute; eexists; reflexivity).
  destruct E as [r E]. exists r. split; [exact E|].
  destruct (histograma_dimensiones (fun _ _ => "") uno_dos_tres 4 r)
    as [H _].
  destruct (H ltac:(discriminate) E)
    as (_ & _ & hist & e0 & e1 & resto & centers & ranges & Hr & _ & _ & _
        & _ & _ & _ & Hs & _).
  exists hist, e0, e1, resto, centers, ranges. split; [exact Hr|].
  apply (Hs (F64.of_Z 1) (F64.of_Z 3)); vm_compute; reflexivity.
Defined.

(** ** The shipped configuration *)

Lemma despues_del_punto_sin s : sin_punto s -> despues_del_punto s = None.
Proof.
  induction s as [|c s IH]; [reflexivity|]. intros [Hc Hs]. simpl.
  rewrite IH by assumption.
  destruct (Ascii.eqb_spec c "."%char); [contradiction | reflexivity].
Qed.

Lemma despues_del_punto_ultimo base ext :
  sin_punto ext -> despues_del_punto (base +:+ "." +:+ ext) = Some ext.
Proof.
  intros He. induction base as [|c base IH]; simpl.
  - rewrite despues_del_punto_sin by assumption. reflexivity.
  - rewrite IH. reflexivity.
Qed.

(** X28. [allowed_file] looks at the text after the last dot only: a
    name without a dot is refused, and a name [base.ext], where [ext] has
    no dot, is allowed exactly when [ext] in lower case is one of
    [ALLOWED_EXTENSIONS], whatever [base] holds, other extensions
    included. *)
Theorem allowed_file_ultima_extension (minusculas : string -> string) :
  (forall filename, sin_punto filename ->
     allowed_file minusculas filename = false) /\
  (forall base ext, sin_punto ext ->
     allowed_file minusculas (base +:+ "." +:+ ext) =
       existsb (String.eqb (minusculas ext)) ALLOWED_EXTENSIONS).
Proof.
  split.
  - intros filename H. unfold allowed_file.
    rewrite despues_del_punto_sin by assumption. reflexivity.
  - intros base ext H. unfold allowed_file.
    rewrite despues_del_punto_ultimo by assumption. reflexivity.
Qed.

Lemma allowed_file_ultima_extension_testigo :
  allowed_file (fun s => s) "datos" = false /\
  allowed_file (fun s => s) ("datos.exe" +:+ "." +:+ "csv") = true.
Proof.
  destruct (allowed_file_ultima_extension (fun s => s)) as (H1 & H2).
  split.
  - apply H1. simpl. repeat split; discriminate.
  - rewrite H2; [reflexivity|]. simpl. repeat split; discriminate.
Defined.

Lemma get_parametros_default_sin_cantidad nombre :
  cantidad_pedida (get_parametros_default nombre) = None.
Proof.
  unfold get_parametros_default, get_algoritmo_config, ALGORITMOS_CONFIG.
  cbn [buscar].
  destruct (String.eqb "congruencial_lineal" nombre); [reflexivity|].
  destruct (String.eqb "congruencial_multiplicativo" nombre); [reflexivity|].
  destruct (String.eqb "congruencial_cuadratico" nombre); [reflexivity|].
  destruct (String.eqb "monte_carlo" nombre); [reflexivity|].
  destruct (String.eqb "transformada_inversa" nombre); reflexivity.
Qed.

(** X29. The default parameters that [get_parametros_default] returns
    for the three congruential algorithms pass the validator of their
    type once a count between 10 and 100000 is added; as returned, with
    no count, no default is valid for any type; and every other
    algorithm name gets the empty dictionary. *)
Theorem parametros_default_validos (n : Z) :
  (10 <= n <= 100000 ->
   fst (validar_parametros_congruencial "lineal"
          (<["cantidad" := n]>
             (get_parametros_default "congruencial_lineal"))) = true /\
   fst (validar_parametros_congruencial "multiplicativo"
          (<["cantidad" := n]>
             (get_parametros_default "congruencial_multiplicativo"))) = true /\
   fst (validar_parametros_congruencial "cuadratico"
          (<["cantidad" := n]>
             (get_parametros_default "congruencial_cuadratico"))) = true) /\
  (forall tipo nombre,
     fst (validar_parametros_congruencial tipo
            (get_parametros_default nombre)) = false) /\
  (forall nombre,
     nombre <> "congruencial_lineal" ->
     nombre <> "congruencial_multiplicativo" ->
     nombre <> "congruencial_cuadratico" ->
     get_parametros_default nombre = ∅).
Proof.
  split; [|split].
  - intros Hn. repeat split; apply requisitos_validos;
      exists 1; eexists; (split; [repeat split; try reflexivity; try lia;
                                  exists n; split; [reflexivity | lia]|]).
    + left. split; [reflexivity|]. split; [reflexivity|].
      eexists _, _. repeat split; reflexivity || lia.
    + right. left. split; [reflexivity|]. split; [reflexivity|].
      eexists. repeat split; reflexivity || lia.
    + right. right. split; [reflexivity|].
      eexists _, _, _. repeat split; reflexivity || lia.
  - intros tipo nombre.
    destruct (fst (validar_parametros_congruencial tipo
                     (get_parametros_default nombre))) eqn:E; [|reflexivity].
    apply valido_comunes in E as (s & m & k & _ & _ & _ & _ & Hk & _).
    rewrite get_parametros_default_sin_cantidad in Hk. discriminate.
  - intros nombre H1 H2 H3.
    unfold get_parametros_default, get_algoritmo_config, ALGORITMOS_CONFIG.
    cbn [buscar].
    destruct (String.eqb_spec "congruencial_lineal" nombre); [congruence|].
    destruct (String.eqb_spec "congruencial_multiplicativo" nombre);
      [congruence|].
    destruct (String.eqb_spec "congruencial_cuadratico" nombre);
      [congruence|].
    destruct (String.eqb "monte_carlo" nombre); [reflexivity|].
    destruct (String.eqb "transformada_inversa" nombre); reflexivity.
Qed.

Lemma parametros_default_validos_testigo :
  fst (validar_parametros_congruencial "lineal"
         (<["cantidad" := 100]>
            (get_parametros_default "congruencial_lineal"))) = true /\
  fst (validar_parametros_congruencial "multiplicativo"
         (<["cantidad" := 100]>
            (get_parametros_default "congruencial_multiplicativo"))) = true /\
  fst (validar_parametros_congruencial "cuadratico"
         (<["cantidad" := 100]>
            (get_parametros_default "congruencial_cuadratico"))) = true.
Proof. apply (parametros_default_validos 100). lia. Defined.

(** ** The goodness-of-fit test *)

Lemma esperada_menor_que_diez n :
  0 <= n < 10 ->
  exists q, py_truediv n 10 = Ok q /\ truncar q = 0.
Proof.
  intros Hn.
  assert (Hd : Forall (fun k => exists q, py_truediv k 10 = Ok q /\ truncar q = 0)
                 (seqZ 0 10)).
  { unfold seqZ. cbn [Z.to_nat Pos.to_nat Pos.iter_op Nat.add seq fmap
                      list_fmap].
    repeat (constructor; [eexists; split; vm_compute; reflexivity|]).
    constructor. }
  rewrite Forall_forall in Hd. apply Hd, elem_of_seqZ. lia.
Qed.

(** X30. [prueba_bondad_ajuste] with scipy installed. A distribution
    other than ['uniforme'] and ['normal'] returns [None], whatever the
    numbers. For ['uniforme'], what [np.histogram] raises on the numbers
    is raised, the handler catching [ImportError] only: [ValueError]
    when one of them is a NaN or an infinity. When [np.histogram]
    returns on fewer than 10 numbers, every expected frequency handed to
    [chisquare] is 0, the quotient [len/10] being truncated to the
    integer type of the ten observed frequencies: the result is what
    [chisquare] makes of them and of ten zeros. *)
Theorem bondad_ajuste_casos_limite
  (formato : nat -> float -> string)
  (chisquare : list Z -> list Z -> resultado (float * float))
  (shapiro : list float -> resultado (float * float))
  (numeros : list float) (distribucion : string) :
  let prueba :=
    prueba_bondad_ajuste formato chisquare shapiro todo_disponible in
  (distribucion <> "uniforme" -> distribucion <> "normal" ->
   prueba numeros distribucion = Ok None) /\
  (forall e, Np.histogram numeros 10 = Lanza e ->
     prueba numeros "uniforme" = Lanza e) /\
  (Exists (fun x => F64.es_finito x = false) numeros ->
   prueba numeros "uniforme" = Lanza ValueError) /\
  (forall frec_obs edges,
     Np.histogram numeros 10 = Ok (frec_obs, edges) ->
     (length numeros < 10)%nat ->
     length frec_obs = 10%nat /\
     (forall e, chisquare frec_obs (replicate 10 0) = Lanza e ->
        e <> ImportError -> prueba numeros "uniforme" = Lanza e) /\
     (forall chi2 p_value,
        chisquare frec_obs (replicate 10 0) = Ok (chi2, p_value) ->
        exists r,
          prueba numeros "uniforme" = Ok (Some r) /\
          dict_get r "estadistico_chi2" = Some (VFloat chi2) /\
          dict_get r "p_valor" = Some (VFloat p_value))).
Proof.
  intros prueba. unfold prueba, prueba_bondad_ajuste.
  cbn [todo_disponible scipy_disponible importar]. rewrite !mbind_Ok.
  split; [|split; [|split]].
  - intros H1 H2.
    destruct (String.eqb_spec distribucion "uniforme"); [contradiction|].
    destruct (String.eqb_spec distribucion "normal"); [contradiction|].
    reflexivity.
  - intros e He. cbn [String.eqb Ascii.eqb Bool.eqb].
    rewrite He. destruct (histogram_excepciones _ _ _ He) as [-> | ->];
      reflexivity.
  - intros He. cbn [String.eqb Ascii.eqb Bool.eqb].
    rewrite histogram_lanza; [reflexivity | | right; exact He].
    intros ->. inversion He.
  - intros frec_obs edges Hh Hn. cbn [String.eqb Ascii.eqb Bool.eqb].
    pose proof (histogram_forma _ _ _ _ Hh) as (_ & _ & Hlen & _).
    change (Z.to_nat 10) with 10%nat in Hlen.
    destruct (esperada_menor_que_diez (Z.of_nat (length numeros)))
      as (q & Hq & Ht); [lia|].
    rewrite Hh, mbind_Ok, Hq, mbind_Ok, Ht.
    assert (Hesp : map (fun _ : Z => 0) frec_obs = replicate 10 0).
    { clear - Hlen.
      do 11 (destruct frec_obs as [|? frec_obs]; try discriminate Hlen).
      reflexivity. }
    rewrite Hesp. split; [exact Hlen|]. split.
    + intros e He Hne. rewrite He. destruct e; try reflexivity. congruence.
    + intros chi2 p_value Hc. rewrite Hc, mbind_Ok.
      eexists. repeat split.
Qed.

Lemma bondad_ajuste_casos_limite_testigo :
  let prueba :=
    prueba_bondad_ajuste (fun _ _ => "")
      (fun _ _ => Ok (F64.cero, F64.uno)) (fun _ => Lanza ValueError)
      todo_disponible in
  prueba uno_dos_tres "exponencial" = Ok None /\
  prueba [F64.lit 1 60] "uniforme" = Lanza ValueError /\
  prueba [Np.nan] "uniforme" = Lanza ValueError /\
  exists r,
    prueba uno_dos_tres "uniforme" = Ok (Some r) /\
    dict_get r "estadistico_chi2" = Some (VFloat F64.cero) /\
    dict_get r "p_valor" = Some (VFloat F64.uno).
Proof.
  intros prueba.
  pose proof (bondad_ajuste_casos_limite (fun _ _ => "")
                (fun _ _ => Ok (F64.cero, F64.uno))
                (fun _ => Lanza ValueError) uno_dos_tres "exponencial")
    as (H1 & _ & _ & H4).
  pose proof (bondad_ajuste_casos_limite (fun _ _ => "")
                (fun _ _ => Ok (F64.cero, F64.uno))
                (fun _ => Lanza ValueError) [F64.lit 1 60] "exponencial")
    as (_ & H2 & _).
  pose proof (bondad_ajuste_casos_limite (fun _ _ => "")
                (fun _ _ => Ok (F64.cero, F64.uno))
                (fun _ => Lanza ValueError) [Np.nan] "exponencial")
    as (_ & _ & H3 & _).
  split; [apply H1; discriminate|].
  split; [apply H2; vm_compute; reflexivity|].
  split; [apply H3; constructor; reflexivity|].
  assert (E : exists frec_obs edges,
            Np.histogram uno_dos_tres 10 = Ok (frec_obs, edges))
    by (vm_compute; eexists _, _; reflexivity).
  destruct E as (frec_obs & edges & E).
  destruct (H4 frec_obs edges E) as (_ & _ & H5); [simpl; lia|].
  apply (H5 F64.cero F64.uno). reflexivity.
Defined.
